(** * BIG-IP extension package operations: chunked upload, task polling,
      uninstall dependency check and installed-state query.

    Shallow embedding of
      - [f5sdk/bigip/extension/package/operation.py]   (class OperationClient)
      - [f5cloudsdk/bigip/toolchain/package/__init__.py] (class Operation, legacy)
      - [f5cloudsdk/bigip/__init__.py]                 (ManagementClient.make_request)

    Python values that cross the HTTP boundary are modelled as a small JSON
    type, exceptions as a sum type, and every method as a state-passing
    computation over a [World] holding the local file system, the canned
    answers of the device, the history of requests, the sleeps and the
    logger output. *)

From Stdlib Require Import ZArith String Ascii List Lia Bool.
From Stdlib Require Import Init.Byte.
From stdpp Require Import base option list gmap strings pretty.

#[local] Set Warnings "-register-all".
Local Open Scope string_scope.
Local Open Scope list_scope.
Local Open Scope Z_scope.

(** ** Python values *)

(** A decoded JSON document, as returned by [response.json()]. A dict keeps
    its items in insertion order; lookup takes the first binding of a key. *)
Inductive json : Type :=
| JNone
| JBool (b : bool)
| JInt (n : Z)
| JStr (s : string)
| JList (l : list json)
| JDict (d : list (string * json)).

(** The exceptions the modelled code can raise or let through. *)
Inductive exn : Type :=
| Exception (arg : json)
| KeyError (key : string)
| TypeError
| IndexError
| AttributeError (msg : string)
| FileNotFoundError (file_name : string)
| HTTPError (msg : string).

(** The body handed to [make_request]: the bytes of a file slice or a dict. *)
Inductive payload : Type :=
| Bytes (b : list byte)
| Json (j : json).

(** The arguments of one [make_request] call, defaults filled in
    ([method='GET'], [headers={}], [body=None], [body_content_type='json']). *)
Record Request : Type := mkRequest {
  uri : string;
  method : string;
  headers : list (string * string);
  body : option payload;
  body_content_type : string
}.

(** What a call to the transport gave back: an exception or decoded JSON. *)
Abbreviation outcome := (exn + json)%type (only parsing).

Definition succeeded (o : outcome) : bool :=
  match o with inr _ => true | inl _ => false end.

(** ** The world *)

Record World : Type := mkWorld {
  fs : gmap string (list byte);          (* local files, by name *)
  responses : list outcome;              (* what the device answers next *)
  history : list (Request * outcome);    (* calls made so far, oldest first *)
  slept : list Z;                        (* arguments of time.sleep, oldest first *)
  warnings : list string                 (* messages given to logger.warning *)
}.

(** ** Computations *)

Inductive res (A : Type) : Type :=
| Return (a : A)
| Raise (e : exn)
| OutOfFuel.
Arguments Return {A} a.
Arguments Raise {A} e.
Arguments OutOfFuel {A}.

Definition M (A : Type) : Type := World -> res A * World.

Definition ret {A} (a : A) : M A := fun w => (Return a, w).
Definition raise {A} (e : exn) : M A := fun w => (Raise e, w).
Definition out_of_fuel {A} : M A := fun w => (OutOfFuel, w).

Definition bind {A B} (m : M A) (k : A -> M B) : M B :=
  fun w =>
    match m w with
    | (Return a, w') => k a w'
    | (Raise e, w') => (Raise e, w')
    | (OutOfFuel, w') => (OutOfFuel, w')
    end.

Notation "'let!' x ':=' m 'in' k" := (bind m (fun x => k))
  (at level 10, x pattern, m at level 100, k at level 200).

(** ** Builtins *)

Definition len {A} (l : list A) : Z := Z.of_nat (length l).

(** [str(n)] for an int. *)
Definition str_int (n : Z) : string := pretty n.

(** [sep.join(l)] *)
Fixpoint join (sep : string) (l : list string) : string :=
  match l with
  | [] => ""
  | [s] => s
  | s :: l' => s +:+ sep +:+ join sep l'
  end.

(** [repr(x)] and [str(x)] of a decoded JSON value. Strings are quoted with
    single quotes; escapes inside a quoted string are not rendered. *)
Fixpoint py_repr (x : json) : string :=
  match x with
  | JNone => "None"
  | JBool true => "True"
  | JBool false => "False"
  | JInt n => str_int n
  | JStr s => "'" +:+ s +:+ "'"
  | JList l => "[" +:+ join ", " (map py_repr l) +:+ "]"
  | JDict d =>
      "{" +:+ join ", " (map (fun kv => "'" +:+ fst kv +:+ "': " +:+ py_repr (snd kv)) d) +:+ "}"
  end.

Definition py_str (x : json) : string :=
  match x with
  | JStr s => s
  | _ => py_repr x
  end.

(** [x == s] for a str literal [s]. *)
Definition eq_str (x : json) (s : string) : bool :=
  match x with
  | JStr t => String.eqb t s
  | _ => false
  end.

Fixpoint assoc {A} (k : string) (d : list (string * A)) : option A :=
  match d with
  | [] => None
  | (k', v) :: d' => if String.eqb k' k then Some v else assoc k d'
  end.

(** [x[key]] for a str key: only a dict can be indexed by a str. *)
Definition getitem (x : json) (key : string) : M json :=
  match x with
  | JDict d =>
      match assoc key d with
      | Some v => ret v
      | None => raise (KeyError key)
      end
  | _ => raise TypeError
  end.

(** [s.split(sep)] for a one-character separator. *)
Fixpoint split (sep : ascii) (s : string) : list string :=
  match s with
  | EmptyString => [""]
  | String c s' =>
      if Ascii.eqb c sep then "" :: split sep s'
      else match split sep s' with
           | h :: t => String c h :: t
           | [] => [String c ""]
           end
  end.

(** [s.lower()] on ASCII letters *)
Definition lower_ascii (c : ascii) : ascii :=
  let n := nat_of_ascii c in
  if (65 <=? n)%nat && (n <=? 90)%nat then ascii_of_nat (n + 32) else c.

Fixpoint str_lower (s : string) : string :=
  match s with
  | EmptyString => EmptyString
  | String c s' => String (lower_ascii c) (str_lower s')
  end.

(** [l[-1]] *)
Definition last_item {A} (l : list A) : M A :=
  match last l with
  | Some x => ret x
  | None => raise IndexError
  end.

(** ** Local files *)

(** An open binary file: its bytes and the read position. *)
Record file : Type := mkFile {
  content : list byte;
  pos : nat
}.

(** [open(file_name, 'rb')] *)
Definition open_rb (file_name : string) : M file :=
  fun w =>
    match fs w !! file_name with
    | Some data => (Return (mkFile data 0), w)
    | None => (Raise (FileNotFoundError file_name), w)
    end.

(** [f.read(n)]: at most [n] bytes from the position; everything when [n] is
    negative (the default of [read()] is -1). *)
Definition file_read (n : Z) (f : file) : list byte * file :=
  let rest := drop (pos f) (content f) in
  let got := if n <? 0 then rest else take (Z.to_nat n) rest in
  (got, mkFile (content f) (pos f + length got)).

(** [f.seek(p)] *)
Definition file_seek (p : nat) (f : file) : file := mkFile (content f) p.

(** [os.remove(file_name)] *)
Definition os_remove (file_name : string) : M unit :=
  fun w =>
    match fs w !! file_name with
    | Some _ =>
        (Return tt,
         mkWorld (delete file_name (fs w)) (responses w) (history w) (slept w) (warnings w))
    | None => (Raise (FileNotFoundError file_name), w)
    end.

(** [time.sleep(secs)] *)
Definition sleep (secs : Z) : M unit :=
  fun w =>
    (Return tt, mkWorld (fs w) (responses w) (history w) (slept w ++ [secs]) (warnings w)).

(** ** The transport *)

(** What the device answers to the next call: the next canned outcome; a
    device that has nothing left to say is a transport error. *)
Definition next_outcome (w : World) : outcome :=
  match responses w with
  | [] => inl (HTTPError "no response")
  | o :: _ => o
  end.

(** The world after a call: the answer is used up and the call recorded. *)
Definition record_call (rq : Request) (o : outcome) (w : World) : World :=
  mkWorld (fs w) (tail (responses w)) (history w ++ [(rq, o)]) (slept w) (warnings w).

(** [client.make_request(uri, **kwargs)] *)
Definition make_request (rq : Request) : M json :=
  fun w =>
    let o := next_outcome w in
    match o with
    | inr j => (Return j, record_call rq o w)
    | inl e => (Raise e, record_call rq o w)
    end.

(** What [ManagementClient.make_request] puts on the wire for a call
    (f5cloudsdk/bigip/__init__.py): the default headers updated with the
    caller's, and the body run through [json.dumps] only when it is truthy
    and the content type is 'json'. *)
Inductive wire_body : Type :=
| WireNone                      (* data=None *)
| WireRaw (b : list byte)       (* the bytes as they are *)
| WireJsonDumps (j : json)      (* data=json.dumps(body) *)
| WireJsonObject (j : json).    (* data=body, a dict passed through *)

Definition truthy_payload (b : option payload) : bool :=
  match b with
  | None => false
  | Some (Bytes l) => negb (Nat.eqb (length l) 0)
  | Some (Json JNone) => false
  | Some (Json (JBool b')) => b'
  | Some (Json (JInt n)) => negb (n =? 0)
  | Some (Json (JStr s)) => negb (String.eqb s "")
  | Some (Json (JList l)) => negb (Nat.eqb (length l) 0)
  | Some (Json (JDict d)) => negb (Nat.eqb (length d) 0)
  end.

(** [d.update(e)] on insertion-ordered dicts. *)
Fixpoint dict_set {A} (k : string) (v : A) (d : list (string * A)) : list (string * A) :=
  match d with
  | [] => [(k, v)]
  | (k', v') :: d' => if String.eqb k' k then (k, v) :: d' else (k', v') :: dict_set k v d'
  end.

Definition dict_update {A} (d e : list (string * A)) : list (string * A) :=
  fold_left (fun acc kv => dict_set (fst kv) (snd kv) acc) e d.

Definition wire (token user_agent : string) (rq : Request)
  : exn + string * list (string * string) * wire_body :=
  let method_ := str_lower (method rq) in
  let headers0 := [("X-F5-Auth-Token", token); ("User-Agent", user_agent)] in
  let headers1 := dict_update headers0 (headers rq) in
  let encode := truthy_payload (body rq) && String.eqb (body_content_type rq) "json" in
  let headers2 :=
    if encode then dict_update headers1 [("Content-Type", "application/json")]
    else headers1 in
  match body rq with
  | None => inr (method_, headers2, WireNone)
  | Some (Bytes b) =>
      (* json.dumps refuses bytes *)
      if encode then inl TypeError else inr (method_, headers2, WireRaw b)
  | Some (Json j) =>
      inr (method_, headers2, if encode then WireJsonDumps j else WireJsonObject j)
  end.

(** ** OperationClient (f5sdk/bigip/extension/package/operation.py) *)

Definition PKG_MGMT_URI : string := "/mgmt/shared/iapp/package-management-tasks".

Definition upload_headers (start_index end_ file_size : Z) : list (string * string) :=
  [("Content-Range",
    str_int start_index +:+ "-" +:+ str_int (end_ - 1) +:+ "/" +:+ str_int file_size);
   ("Content-Length", str_int end_);
   ("Content-Type", "application/octet-stream")].

(** The [while True] loop of [_upload_rpm]; one unit of fuel per iteration. *)
Fixpoint upload_loop (fuel : nat) (uri : string) (max_chunk file_size : Z)
    (file_object : file) (start_index : Z) : M unit :=
  match fuel with
  | O => out_of_fuel
  | S fuel' =>
      let '(file_slice, file_object) := file_read max_chunk file_object in
      match file_slice with
      | [] => ret tt                                     (* if not file_slice: break *)
      | _ :: _ =>
          let slice_size := len file_slice in
          let end_ :=
            if slice_size <? max_chunk then file_size
            else start_index + slice_size in
          let headers := upload_headers start_index end_ file_size in
          let! _ := make_request (mkRequest uri "POST" headers (Some (Bytes file_slice)) "raw") in
          upload_loop fuel' uri max_chunk file_size file_object (start_index + slice_size)
      end
  end.

Definition upload_uri (file_name : string) : M string :=
  let! base := last_item (split "/" file_name) in
  ret ("/mgmt/shared/file-transfer/uploads/" +:+ base).

(** [_upload_rpm(file_name, **kwargs)]; [delete_file] is the optional keyword,
    [None] when the caller leaves it out. Each iteration of the loop reads at
    least one byte, so one unit of fuel per byte and one for the final empty
    read are enough. *)
Definition _upload_rpm (file_name : string) (delete_file : option bool) : M unit :=
  let delete_file := default true delete_file in
  let! uri := upload_uri file_name in
  let! file_object := open_rb file_name in
  let max_chunk := 1024 * 1024 in
  let '(whole, file_object) := file_read (-1) file_object in
  let file_size := len whole in
  let file_object := file_seek 0 file_object in
  let start_index := 0 in
  let! _ := upload_loop (S (length whole)) uri max_chunk file_size file_object start_index in
  if delete_file then os_remove file_name else ret tt.

(** The [while True] loop of [_check_rpm_task_status]. *)
Fixpoint poll_loop (fuel : nat) (status_link_uri : string)
    (sleep_secs max_count count : Z) : M json :=
  match fuel with
  | O => out_of_fuel
  | S fuel' =>
      let! response := make_request (mkRequest status_link_uri "GET" [] None "json") in
      let! status := getitem response "status" in
      if eq_str status "FINISHED" then ret response
      else
        let! status := getitem response "status" in
        if eq_str status "FAILED" then
          let! message := getitem response "errorMessage" in
          raise (Exception message)
        else if count >? max_count then
          raise (Exception (JStr "Max count exceeded"))
        else
          let! _ := sleep sleep_secs in
          poll_loop fuel' status_link_uri sleep_secs max_count (count + 1)
  end.

(** [_check_rpm_task_status(task_id)]: the counter starts at 0 and the loop is
    left at the latest when it has passed [max_count], that is after
    [max_count + 2] iterations. *)
Definition _check_rpm_task_status (task_id : json) : M json :=
  let status_link_uri := PKG_MGMT_URI +:+ "/" +:+ py_str task_id in
  let sleep_secs := 1 in
  let count := 0 in
  let max_count := 120 in
  poll_loop (Z.to_nat (max_count + 2)) status_link_uri sleep_secs max_count count.

Definition _install_rpm (package_path : string) : M unit :=
  let uri := PKG_MGMT_URI in
  let body := JDict [("operation", JStr "INSTALL"); ("packageFilePath", JStr package_path)] in
  let! response := make_request (mkRequest uri "POST" [] (Some (Json body)) "json") in
  let! task_id := getitem response "id" in
  let! _ := _check_rpm_task_status task_id in
  ret tt.

Definition _uninstall_rpm (package_name : string) : M unit :=
  let uri := PKG_MGMT_URI in
  let body := JDict [("operation", JStr "UNINSTALL"); ("packageName", JStr package_name)] in
  let! response := make_request (mkRequest uri "POST" [] (Some (Json body)) "json") in
  let! task_id := getitem response "id" in
  let! _ := _check_rpm_task_status task_id in
  ret tt.

(** *** Metadata and the client object *)

(** One entry of a dependency's ['versions'] list. *)
Record VersionConstraint : Type := mkConstraint {
  c_version : string;        (* i['version'] *)
  c_operation : string       (* i['operation'] *)
}.

Record Dependency : Type := mkDependency {
  versions : list VersionConstraint;
  uninstallDocumentation : string
}.

(** What the extension metadata client answers for the component and version
    the operation client was built for. Its code is not part of the verified
    files; its answers are taken as given values. *)
Record MetadataClient : Type := mkMetadataClient {
  get_download_url : string;
  get_package_name : string;
  get_component_package_name : string;
  get_latest_version : string;
  get_component_dependencies : list (string * Dependency)   (* dict, in items() order *)
}.

(** A logger instance; its [warning] method appends to the world's warnings. *)
Inductive Logger : Type := mkLogger.

Record OperationClient : Type := mkOperationClient {
  logger : option Logger;
  _metadata_client : MetadataClient;
  component : string;
  version : string
}.

(** [OperationClient(client, component, version, metadata_client, **kwargs)];
    [logger_kw] is the optional [logger] keyword. *)
Definition __init__ (component version : string) (metadata_client : MetadataClient)
    (logger_kw : option (option Logger)) : OperationClient :=
  mkOperationClient (default None logger_kw) metadata_client component version.

(** [self.logger.warning(msg)] *)
Definition logger_warning (lg : option Logger) (msg : string) : M unit :=
  match lg with
  | None => raise (AttributeError "'NoneType' object has no attribute 'warning'")
  | Some _ =>
      fun w =>
        (Return tt,
         mkWorld (fs w) (responses w) (history w) (slept w) (warnings w ++ [msg]))
  end.

(** [for x in l: f(x)] *)
Fixpoint for_each {A} (f : A -> M unit) (l : list A) : M unit :=
  match l with
  | [] => ret tt
  | x :: l' => let! _ := f x in for_each f l'
  end.

Definition dependency_message (name documentation : string) : string :=
  "A component package dependency has not been removed: " +:+ name
  +:+ " See documentation for more details: " +:+ documentation.

(** The dict returned by [install] and [uninstall]. *)
Record ComponentVersion : Type := mkComponentVersion {
  cv_component : string;
  cv_version : string
}.

Section Uninstall.
(** [misc_utils.compare_versions(version, version_to_compare, operation)]
    lives outside the verified files and is taken as a parameter. *)
Variable compare_versions : string -> string -> string -> bool.

Definition matching_constraints (self : OperationClient) (dependency : Dependency)
  : list VersionConstraint :=
  List.filter
    (fun i => compare_versions (version self) (c_version i) (c_operation i))
    (versions dependency).

(** The body of the loop of [_check_for_dependency], for one item of
    [component_dependencies.items()]. *)
Definition check_dependency (self : OperationClient) (item : string * Dependency) : M unit :=
  let '(name, dependency) := item in
  let versions := versions dependency in
  let matches := matching_constraints self dependency in
  if len matches =? len versions then
    let msg := dependency_message name (uninstallDocumentation dependency) in
    logger_warning (logger self) msg
  else ret tt.

Definition _check_for_dependency (self : OperationClient) : M unit :=
  let component_dependencies := get_component_dependencies (_metadata_client self) in
  for_each (check_dependency self) component_dependencies.

Definition uninstall (self : OperationClient) : M ComponentVersion :=
  let package_name := get_package_name (_metadata_client self) in
  let! _ := _uninstall_rpm package_name in
  let! _ := _check_for_dependency self in
  ret (mkComponentVersion (component self) (version self)).
End Uninstall.

(** *** Regular expressions, as far as the version pattern needs them *)

Inductive atom : Type :=
| Range (lo hi : ascii)     (* [lo-hi] *)
| AnyChar                   (* . : any character but a newline *)
| Lit (c : ascii).

Inductive item : Type :=
| One (a : atom)
| Plus (a : atom).          (* a+ : greedy *)

Definition regex : Type := list item.

Definition is_meta (c : ascii) : bool :=
  existsb (Ascii.eqb c) (list_ascii_of_string "\[]()*+?{}|^$").

(** [re.compile(pattern)] for patterns made of characters, [.], [[a-b]] and a
    postfix [+]; anything else is refused ([None]). *)
Fixpoint re_compile (pattern : string) : option regex :=
  match pattern with
  | EmptyString => Some []
  | String c rest =>
      if Ascii.eqb c "[" then
        match rest with
        | String lo (String dash (String hi (String close rest'))) =>
            if Ascii.eqb dash "-" && Ascii.eqb close "]" then
              match rest' with
              | String q rest'' =>
                  if Ascii.eqb q "+" then cons (Plus (Range lo hi)) <$> re_compile rest''
                  else cons (One (Range lo hi)) <$> re_compile rest'
              | EmptyString => Some [One (Range lo hi)]
              end
            else None
        | _ => None
        end
      else if is_meta c then None
      else
        let a := if Ascii.eqb c "." then AnyChar else Lit c in
        match rest with
        | String q rest' =>
            if Ascii.eqb q "+" then cons (Plus a) <$> re_compile rest'
            else cons (One a) <$> re_compile rest
        | EmptyString => Some [One a]
        end
  end.

Definition atom_matches (a : atom) (c : ascii) : bool :=
  match a with
  | Range lo hi =>
      (nat_of_ascii lo <=? nat_of_ascii c)%nat && (nat_of_ascii c <=? nat_of_ascii hi)%nat
  | AnyChar => negb (Ascii.eqb c "010")
  | Lit c' => Ascii.eqb c c'
  end.

(** The length of the match of [re] at the start of [s], found in the order
    of a backtracking matcher: [a+] first takes as many characters as it can
    and gives them back one at a time while the rest does not match. *)
Fixpoint match_here (re : regex) (s : string) : option nat :=
  match re with
  | [] => Some O
  | One a :: re' =>
      match s with
      | String c s' => if atom_matches a c then S <$> match_here re' s' else None
      | EmptyString => None
      end
  | Plus a :: re' =>
      (fix plus (s : string) : option nat :=
         match s with
         | String c s' =>
             if atom_matches a c then
               match plus s' with
               | Some n => Some (S n)
               | None => S <$> match_here re' s'
               end
             else None
         | EmptyString => None
         end) s
  end.

(** [compiled.search(s)]: the leftmost match, as [(start, end)], looking from
    index [i] of the original string on. *)
Fixpoint search_from (re : regex) (s : string) (i : nat) : option (nat * nat) :=
  match match_here re s with
  | Some n => Some (i, (i + n)%nat)
  | None =>
      match s with
      | String _ s' => search_from re s' (S i)
      | EmptyString => None
      end
  end.

Definition re_search (re : regex) (s : string) : option (nat * nat) :=
  search_from re s 0.

(** [s[start:end]] for [0 <= start <= end] *)
Definition str_slice (s : string) (start end_ : nat) : string :=
  substring start (end_ - start) s.

(** *** Installed-state query *)

Definition version_number_pattern : string := "[0-9]+.[0-9]+.[0-9]+".

Definition _get_version_number_from_package_name (package_name : json) : M string :=
  match re_compile version_number_pattern with
  | None => raise (Exception (JStr "re.error"))
  | Some compiled_pattern =>
      match package_name with
      | JStr package_name =>
          match re_search compiled_pattern package_name with
          | Some (start, end_) => ret (str_slice package_name start end_)
          | None => raise (AttributeError "'NoneType' object has no attribute 'start'")
          end
      | _ => raise TypeError       (* search expects a string *)
      end
  end.

(** [needle in hay] for strings *)
Fixpoint contains (needle hay : string) : bool :=
  String.prefix needle hay ||
  match hay with
  | String _ hay' => contains needle hay'
  | EmptyString => false
  end.

(** [needle in x] for a str [needle] and a decoded JSON value [x] *)
Definition py_in (needle : string) (x : json) : M bool :=
  match x with
  | JStr s => ret (contains needle s)
  | JList l => ret (existsb (fun y => eq_str y needle) l)
  | JDict d => ret (existsb (fun kv => String.eqb (fst kv) needle) d)
  | _ => raise TypeError
  end.

(** The items [for i in x] goes through. *)
Definition py_iter (x : json) : M (list json) :=
  match x with
  | JList l => ret l
  | JDict d => ret (map (fun kv => JStr (fst kv)) d)
  | JStr s => ret (map (fun c => JStr (String c "")) (list_ascii_of_string s))
  | _ => raise TypeError
  end.

(** [[i for i in l if cond(i)]] *)
Fixpoint comprehension {A} (cond : A -> M bool) (l : list A) : M (list A) :=
  match l with
  | [] => ret []
  | i :: l' =>
      let! keep := cond i in
      let! tl := comprehension cond l' in
      ret (if keep then i :: tl else tl)
  end.

(** [l[0]] *)
Definition first_item {A} (l : list A) : M A :=
  match l with
  | x :: _ => ret x
  | [] => raise IndexError
  end.

Definition _check_rpm_exists (component_package_name : string) : M string :=
  let uri := PKG_MGMT_URI in
  let body := JDict [("operation", JStr "QUERY")] in
  let! response := make_request (mkRequest uri "POST" [] (Some (Json body)) "json") in
  let! task_id := getitem response "id" in
  let! response := _check_rpm_task_status task_id in
  let! query_response := getitem response "queryResponse" in
  let! items := py_iter query_response in
  let! matching_packages :=
    comprehension
      (fun i => let! name := getitem i "packageName" in py_in component_package_name name)
      items in
  if len matching_packages =? 1 then
    let! first := first_item matching_packages in
    let! name := getitem first "packageName" in
    _get_version_number_from_package_name name
  else ret "".

(** The dict returned by [is_installed]. *)
Record VersionData : Type := mkVersionData {
  installed : bool;
  installed_version : string;
  latest_version : string
}.

Definition is_installed (self : OperationClient) : M VersionData :=
  let component_package_name := get_component_package_name (_metadata_client self) in
  let! retrieve_rpm_version := _check_rpm_exists component_package_name in
  ret (mkVersionData (negb (String.eqb retrieve_rpm_version ""))
                     retrieve_rpm_version
                     (get_latest_version (_metadata_client self))).

(** ** More builtins *)

(** [bool(x)] for a decoded JSON value *)
Definition truthy (x : json) : bool :=
  match x with
  | JNone => false
  | JBool b => b
  | JInt n => negb (n =? 0)
  | JStr s => negb (String.eqb s "")
  | JList l => negb (Nat.eqb (length l) 0)
  | JDict d => negb (Nat.eqb (length d) 0)
  end.

(** [x.items()]: only a dict has items. *)
Definition py_items (x : json) : M (list (string * json)) :=
  match x with
  | JDict d => ret d
  | _ => raise (AttributeError "object has no attribute 'items'")
  end.

(** [x.split(sep)]: only a str can be split. *)
Definition str_split (sep : ascii) (x : json) : M (list string) :=
  match x with
  | JStr s => ret (split sep s)
  | _ => raise (AttributeError "object has no attribute 'split'")
  end.

(** ** Operation, the legacy client (f5cloudsdk/bigip/toolchain/package/__init__.py) *)

Module Operation.

Fixpoint upload_loop (fuel : nat) (uri : string) (max_chunk file_size : Z)
    (file_object : file) (start_index : Z) : M unit :=
  match fuel with
  | O => out_of_fuel
  | S fuel' =>
      let '(file_slice, file_object) := file_read max_chunk file_object in
      match file_slice with
      | [] => ret tt
      | _ :: _ =>
          let slice_size := len file_slice in
          let end_ :=
            if slice_size <? max_chunk then file_size
            else start_index + slice_size in
          let headers :=
            [("Content-Range",
              str_int start_index +:+ "-" +:+ str_int (end_ - 1) +:+ "/"
              +:+ str_int file_size);
             ("Content-Length", str_int end_);
             ("Content-Type", "application/octet-stream")] in
          let! _ := make_request
                      (mkRequest uri "POST" headers (Some (Bytes file_slice)) "raw") in
          upload_loop fuel' uri max_chunk file_size file_object (start_index + slice_size)
      end
  end.

Definition _upload_rpm (file_name : string) (delete_file : option bool) : M unit :=
  let delete_file := default true delete_file in
  let! base := last_item (split "/" file_name) in
  let uri := "/mgmt/shared/file-transfer/uploads/" +:+ base in
  let! file_object := open_rb file_name in
  let max_chunk := 1024 * 1024 in
  let '(whole, file_object) := file_read (-1) file_object in
  let file_size := len whole in
  let file_object := file_seek 0 file_object in
  let start_index := 0 in
  let! _ := upload_loop (S (length whole)) uri max_chunk file_size file_object
                        start_index in
  if delete_file then os_remove file_name else ret tt.

Fixpoint poll_loop (fuel : nat) (status_link_uri : string)
    (sleep_secs max_count count : Z) : M json :=
  match fuel with
  | O => out_of_fuel
  | S fuel' =>
      let! status_response :=
        make_request (mkRequest status_link_uri "GET" [] None "json") in
      let! status := getitem status_response "status" in
      if eq_str status "FINISHED" then
        getitem status_response "status"       (* return status_response['status'] *)
      else
        let! status := getitem status_response "status" in
        if eq_str status "FAILED" then
          let! message := getitem status_response "errorMessage" in
          raise (Exception message)
        else if count >? max_count then
          raise (Exception (JStr "Max count exceeded"))
        else
          let! _ := sleep sleep_secs in
          poll_loop fuel' status_link_uri sleep_secs max_count (count + 1)
  end.

Definition _check_rpm_task_status (task_id : json) : M json :=
  let status_link_uri := PKG_MGMT_URI +:+ "/" +:+ py_str task_id in
  let sleep_secs := 1 in
  let count := 0 in
  let max_count := 120 in
  poll_loop (Z.to_nat (max_count + 2)) status_link_uri sleep_secs max_count count.

Definition _install_rpm (package_path : string) : M unit :=
  let uri := PKG_MGMT_URI in
  let body :=
    JDict [("operation", JStr "INSTALL"); ("packageFilePath", JStr package_path)] in
  let! response := make_request (mkRequest uri "POST" [] (Some (Json body)) "json") in
  let! task_id := getitem response "id" in
  let! _ := _check_rpm_task_status task_id in
  ret tt.

Definition _uninstall_rpm (package_name : string) : M unit :=
  let uri := PKG_MGMT_URI in
  let body :=
    JDict [("operation", JStr "UNINSTALL"); ("packageName", JStr package_name)] in
  let! response := make_request (mkRequest uri "POST" [] (Some (Json body)) "json") in
  let! task_id := getitem response "id" in
  let! _ := _check_rpm_task_status task_id in
  ret tt.

(** The legacy client object: the component and the toolchain metadata that
    [__init__] loads from [t_metadata.json] with [json.loads]; the file is
    outside the verified files and its content is taken as a given value. *)
Record Client : Type := mkClient {
  component : string;
  t_metadata : json
}.

(** [self.t_metadata['components'][self.component]['versions']] *)
Definition versions_metadata (self : Client) : M json :=
  let! components := getitem (t_metadata self) "components" in
  let! c_metadata := getitem components (component self) in
  getitem c_metadata "versions".

(** [{k: v for (k, v) in d.items() if v['latest']}] *)
Fixpoint latest_items (items : list (string * json)) : M (list (string * json)) :=
  match items with
  | [] => ret []
  | (k, v) :: items' =>
      let! flag := getitem v "latest" in
      let! tl := latest_items items' in
      ret (if truthy flag then (k, v) :: tl else tl)
  end.

Definition _get_latest_version (self : Client) : M string :=
  let! c_v_metadata := versions_metadata self in
  let! items := py_items c_v_metadata in
  let! latest := latest_items items in
  first_item (map fst latest).

Definition _get_version_metadata (self : Client) (version : string) : M json :=
  let! version :=
    if String.eqb version "latest" then _get_latest_version self else ret version in
  let! c_v_metadata := versions_metadata self in
  getitem c_v_metadata version.

Definition _get_download_url (self : Client) (version : string) : M json :=
  let! v_metadata := _get_version_metadata self version in
  getitem v_metadata "downloadUrl".

Definition _get_package_name (self : Client) (version : string) : M json :=
  let! v_metadata := _get_version_metadata self version in
  getitem v_metadata "packageName".

(** [_uninstall_rpm(package_name)] for a package name as the metadata holds
    it, which need not be a string. *)
Definition _uninstall_rpm_value (package_name : json) : M unit :=
  let uri := PKG_MGMT_URI in
  let body := JDict [("operation", JStr "UNINSTALL"); ("packageName", package_name)] in
  let! response := make_request (mkRequest uri "POST" [] (Some (Json body)) "json") in
  let! task_id := getitem response "id" in
  let! _ := _check_rpm_task_status task_id in
  ret tt.

Section Download.
(** [constants.TMP_DIR] and [utils.download_to_file(url, file_name)] live
    outside the verified files and are taken as parameters. *)
Variable TMP_DIR : string.
Variable download_to_file : string -> string -> M unit.

(** [install], with [version] the optional keyword. The default of
    [kwargs.pop] is an argument like any other: the latest version is looked
    up before it is known whether it is needed. *)
Definition install (self : Client) (version : option string) : M ComponentVersion :=
  let component := component self in
  let! latest := _get_latest_version self in
  let version := default latest version in
  let! download_url := _get_download_url self version in
  let! download_pkg := (let! parts := str_split "/" download_url in last_item parts) in
  let tmp_file := TMP_DIR +:+ "/" +:+ download_pkg in
  let! _ := download_to_file (py_str download_url) tmp_file in
  let! _ := _upload_rpm tmp_file None in
  let tmp_file_bigip_path := "/var/config/rest/downloads/" +:+ download_pkg in
  let! _ := _install_rpm tmp_file_bigip_path in
  ret (mkComponentVersion component version).
End Download.

(** [uninstall], with [version] the optional keyword. *)
Definition uninstall (self : Client) (version : option string) : M ComponentVersion :=
  let component := component self in
  let! latest := _get_latest_version self in
  let version := default latest version in
  let! package_name := _get_package_name self version in
  let! _ := _uninstall_rpm_value package_name in
  ret (mkComponentVersion component version).

End Operation.

(** ** The rest of OperationClient: install *)

Section Install.
(** [constants.TMP_DIR] and [http_utils.download_to_file(url, file_name)]
    live outside the verified files and are taken as parameters. *)
Variable TMP_DIR : string.
Variable download_to_file : string -> string -> M unit.

Definition install (self : OperationClient) : M ComponentVersion :=
  let download_url := get_download_url (_metadata_client self) in
  let! download_pkg := last_item (split "/" download_url) in
  let tmp_file := TMP_DIR +:+ "/" +:+ download_pkg in
  let! _ := download_to_file download_url tmp_file in
  let! _ := _upload_rpm tmp_file None in
  let tmp_file_bigip_path := "/var/config/rest/downloads/" +:+ download_pkg in
  let! _ := _install_rpm tmp_file_bigip_path in
  ret (mkComponentVersion (component self) (version self)).
End Install.

(** ** ManagementClient (f5cloudsdk/bigip/__init__.py) *)

Record ManagementClient : Type := mkManagementClient {
  host : string;
  user : string;
  password : string;
  private_key : string;
  token : json                         (* [None] is [JNone] *)
}.

Section Login.
(** [requests.post(url, json=body, auth=HTTPBasicAuth(user, password),
    verify=False).json()]: the library call is taken as a parameter. *)
Variable requests_post_json : string -> json -> string * string -> M json.

Definition _get_token (self : ManagementClient) : M json :=
  let url := "https://" +:+ host self +:+ "/mgmt/shared/authn/login" in
  let body :=
    JDict [("username", JStr (user self)); ("password", JStr (password self));
           ("loginProviderName", JStr "tmos")] in
  let! response := requests_post_json url body (user self, password self) in
  let! token := getitem response "token" in
  getitem token "token".

Definition _login_using_credentials (self : ManagementClient) : M ManagementClient :=
  let! token := _get_token self in
  ret (mkManagementClient (host self) (user self) (password self) (private_key self) token).

(** The body of [_login_using_key] is its docstring. *)
Definition _login_using_key (self : ManagementClient) : M ManagementClient :=
  ret self.

(** [ManagementClient(host, **kwargs)]; an absent keyword is [None]. *)
Definition new_ManagementClient (host_ : string)
    (user_kw password_kw private_key_kw : option string) (token_kw : option json)
  : M ManagementClient :=
  let self :=
    mkManagementClient host_ (default "" user_kw) (default "" password_kw)
                       (default "" private_key_kw) (default JNone token_kw) in
  if negb (String.eqb (user self) "") && negb (String.eqb (password self) "") then
    _login_using_credentials self
  else if negb (String.eqb (private_key self) "") then
    _login_using_key self
  else if truthy (token self) then
    ret self
  else
    raise (Exception (JStr "user/password credentials, private key or token required")).
End Login.

(** [get_info()] *)
Definition get_info : M json :=
  let uri := "/mgmt/tm/sys/version" in
  let! response := make_request (mkRequest uri "GET" [] None "json") in
  let v_0 := "https://localhost/mgmt/tm/sys/version/0" in
  let! entries := getitem response "entries" in
  let! entry := getitem entries v_0 in
  let! nested := getitem entry "nestedStats" in
  let! entries' := getitem nested "entries" in
  let! version := getitem entries' "Version" in
  let! description := getitem version "description" in
  ret (JDict [("version", description)]).

(** A downloader for the examples: it knows some urls and writes what it
    finds there to the local file. *)
Definition download_from (remote : list (string * list byte)) (url file_name : string)
  : M unit :=
  fun w =>
    match assoc url remote with
    | Some data =>
        (Return tt,
         mkWorld (<[file_name := data]> (fs w)) (responses w) (history w) (slept w)
                 (warnings w))
    | None => (Raise (HTTPError "404"), w)
    end.

(** ** Vocabulary of the properties *)

(** *** Chunked upload *)

(** [data[start:end_]] *)
Definition slice (data : list byte) (start end_ : Z) : list byte :=
  take (Z.to_nat (end_ - start)) (drop (Z.to_nat start) data).

(** The call the loop makes for the bytes from [start] up to, not including,
    [end_] of a file holding [data]. *)
Definition chunk_request (uri : string) (data : list byte) (rg : Z * Z) : Request :=
  mkRequest uri "POST" (upload_headers (fst rg) (snd rg) (len data))
            (Some (Bytes (slice data (fst rg) (snd rg)))) "raw".

(** The value of a request's Content-Range header, if it has one. *)
Definition content_range (rq : Request) : option string :=
  assoc "Content-Range" (headers rq).

(** The uri [_upload_rpm] posts the chunks of [file_name] to. *)
Definition upload_target (file_name : string) : string :=
  "/mgmt/shared/file-transfer/uploads/" +:+ default "" (last (split "/" file_name)).

(** Consecutive, non-empty, half-open ranges leading from [a] to [b]. *)
Fixpoint tiles (a b : Z) (ranges : list (Z * Z)) : Prop :=
  match ranges with
  | [] => a = b
  | rg :: ranges' => fst rg = a /\ fst rg < snd rg /\ tiles (snd rg) b ranges'
  end.

(** A range is a full chunk of [C] bytes, or a shorter one that ends the file. *)
Definition chunk_sized (C size : Z) (rg : Z * Z) : Prop :=
  snd rg - fst rg <= C /\ (snd rg - fst rg < C -> snd rg = size).

(** *** Task polling *)

(** The request of one poll. *)
Definition poll_request (status_link_uri : string) : Request :=
  mkRequest status_link_uri "GET" [] None "json".

(** [response['status']], when the response is a dict that has it. *)
Definition status_of (response : json) : option json :=
  match response with
  | JDict d => assoc "status" d
  | _ => None
  end.

Definition reports (s : string) (response : json) : bool :=
  match status_of response with
  | Some st => eq_str st s
  | None => false
  end.

(** The poll reports a status, and it is neither FINISHED nor FAILED. *)
Definition reports_pending (response : json) : bool :=
  match status_of response with
  | Some st => negb (eq_str st "FINISHED") && negb (eq_str st "FAILED")
  | None => false
  end.

Definition error_message (response : json) : option json :=
  match response with
  | JDict d => assoc "errorMessage" d
  | _ => None
  end.

(** The first [n] answers of the device are responses reporting a status
    other than FINISHED and FAILED. *)
Definition pending_polls (n : nat) (rs : list outcome) : Prop :=
  (n <= length rs)%nat
  /\ Forall (fun o => match o with
                     | inr response => reports_pending response = true
                     | inl _ => False
                     end) (take n rs).

(** What the device answers to call number [n], counting from 0. *)
Definition outcome_at (rs : list outcome) (n : nat) : outcome :=
  default (inl (HTTPError "no response")) (rs !! n).

(** How one iteration of the polling loop ends on the answer [o] when it does
    not go round again. *)
Definition verdict (o : outcome) : res json :=
  match o with
  | inl e => Raise e
  | inr response =>
      match response with
      | JDict d =>
          match assoc "status" d with
          | None => Raise (KeyError "status")
          | Some st =>
              if eq_str st "FINISHED" then Return response
              else if eq_str st "FAILED" then
                match assoc "errorMessage" d with
                | Some message => Raise (Exception message)
                | None => Raise (KeyError "errorMessage")
                end
              else Raise (Exception (JStr "Max count exceeded"))
          end
      | _ => Raise TypeError
      end
  end.

Definition is_pending (o : outcome) : bool :=
  match o with
  | inr response => reports_pending response
  | inl _ => false
  end.

(** What the legacy poller makes of the current one's result: the payload is
    replaced by its status. *)
Definition status_only (r : res json) : res json :=
  match r with
  | Return _ => Return (JStr "FINISHED")
  | Raise e => Raise e
  | OutOfFuel => OutOfFuel
  end.

(** The device accepts a submitted operation, answering with a task id, and
    the task is reported FINISHED with [payload] at one of the first 122
    polls, every earlier poll reporting a status other than FINISHED/FAILED. *)
Definition task_completes (rs : list outcome) (payload : json) : Prop :=
  exists (d : list (string * json)) (task_id : json) (polls : list outcome) (n : nat),
    rs = inr (JDict d) :: polls
    /\ assoc "id" d = Some task_id
    /\ (n < 122)%nat
    /\ pending_polls n polls
    /\ polls !! n = Some (inr payload)
    /\ reports "FINISHED" payload = true.

(** *** Uninstall *)

(** The request that submits the UNINSTALL of a package. *)
Definition uninstall_request (package_name : string) : Request :=
  mkRequest PKG_MGMT_URI "POST" []
    (Some (Json (JDict [("operation", JStr "UNINSTALL");
                        ("packageName", JStr package_name)]))) "json".

(** Every declared constraint of the dependent holds against the version of
    the operation client. *)
Definition all_constraints_hold (compare_versions : string -> string -> string -> bool)
    (self : OperationClient) (dependency : Dependency) : Prop :=
  Forall (fun i => compare_versions (version self) (c_version i) (c_operation i) = true)
         (versions dependency).

(** The test of the loop of [_check_for_dependency] on one dependent. *)
Definition warns (compare_versions : string -> string -> string -> bool)
    (self : OperationClient) (item : string * Dependency) : bool :=
  len (matching_constraints compare_versions self (snd item)) =? len (versions (snd item)).

(** The warning for one dependent. *)
Definition warning_of (item : string * Dependency) : string :=
  dependency_message (fst item) (uninstallDocumentation (snd item)).

(** *** Installed-state query and the version pattern *)

(** The request that submits the QUERY. *)
Definition query_request : Request :=
  mkRequest PKG_MGMT_URI "POST" [] (Some (Json (JDict [("operation", JStr "QUERY")]))) "json".

(** [response['queryResponse']] when the response is a dict that has it. *)
Definition query_response_of (response : json) : option json :=
  match response with
  | JDict d => assoc "queryResponse" d
  | _ => None
  end.

(** [i['packageName']] when [i] is a dict whose package name is a string. *)
Definition package_name_of (i : json) : option string :=
  match i with
  | JDict d =>
      match assoc "packageName" d with
      | Some (JStr s) => Some s
      | _ => None
      end
  | _ => None
  end.

(** The entries of a query response whose package name contains the
    component's package name. *)
Definition matching_packages (component_package_name : string) (items : list json)
  : list json :=
  List.filter
    (fun i => match package_name_of i with
              | Some s => contains component_package_name s
              | None => false
              end) items.

(** The version pattern, compiled. *)
Definition version_regex : regex :=
  [Plus (Range "0" "9"); One AnyChar; Plus (Range "0" "9"); One AnyChar;
   Plus (Range "0" "9")].

(** What it means for a whole string to match a pattern. *)
Inductive matches : regex -> string -> Prop :=
| matches_nil : matches [] ""
| matches_one a c re s :
    atom_matches a c = true -> matches re s -> matches (One a :: re) (String c s)
| matches_plus_last a c re s :
    atom_matches a c = true -> matches re s -> matches (Plus a :: re) (String c s)
| matches_plus_more a c re s :
    atom_matches a c = true -> matches (Plus a :: re) s ->
    matches (Plus a :: re) (String c s).

(** A non-empty string of decimal digits. *)
Definition digits (s : string) : Prop :=
  s <> "" /\ forallb (atom_matches (Range "0" "9")) (list_ascii_of_string s) = true.

(** A version of the form N.N.N: three runs of digits separated by dots. *)
Definition dotted_version (s : string) : Prop :=
  exists d1 d2 d3,
    digits d1 /\ digits d2 /\ digits d3 /\ s = d1 +:+ "." +:+ d2 +:+ "." +:+ d3.

Definition digit_or_dot (c : ascii) : bool :=
  atom_matches (Range "0" "9") c || Ascii.eqb c ".".

(** ** Example data *)

(** A 2.5 MiB package in the temporary directory and a device that
    acknowledges three uploads. *)
Definition rpm_2_5_MiB : list byte := replicate (Z.to_nat 2621440) "000"%byte.

Definition tmp_rpm : string := "/tmp/f5-appsvcs-3.10.0-5.noarch.rpm".

Definition world_2_5_MiB : World :=
  mkWorld {[ tmp_rpm := rpm_2_5_MiB ]} [inr JNone; inr JNone; inr JNone] [] [] [].

(** A device that acknowledges the first chunk and fails on the second. *)
Definition world_failing_upload : World :=
  mkWorld {[ tmp_rpm := rpm_2_5_MiB ]} [inr JNone; inl (HTTPError "500")] [] [] [].

(** A payload reporting RUNNING. *)
Definition running : json := JDict [("status", JStr "RUNNING")].

(** A payload reporting FINISHED. *)
Definition finished : json := JDict [("status", JStr "FINISHED")].

(** A task the device reports as FAILED with the words of the timeout. *)
Definition world_failed_task : World :=
  mkWorld ∅ [inr (JDict [("status", JStr "FAILED");
                         ("errorMessage", JStr "Max count exceeded")])] [] [] [].

(** A task still running at the 122nd poll. *)
Definition world_slow_task : World :=
  mkWorld ∅ (replicate 122 (inr running)) [] [] [].

(** A task that is running for 121 polls and finished at the 122nd. *)
Definition world_late_finish : World :=
  mkWorld ∅ (replicate 121 (inr running) ++ [inr finished]) [] [] [].

(** A comparison under which every constraint holds. *)
Definition always_satisfied : string -> string -> string -> bool := fun _ _ _ => true.

(** Metadata of a component on which one other component depends. *)
Definition as3_metadata : MetadataClient :=
  mkMetadataClient
    "https://example.com/f5-appsvcs-3.10.0-5.noarch.rpm"
    "f5-appsvcs-3.10.0-5.noarch"
    "f5-appsvcs"
    "3.10.0"
    [("do", mkDependency [mkConstraint "3.9.0" ">="] "https://example.com/uninstall-do")].

Definition as3_client : OperationClient := __init__ "as3" "3.10.0" as3_metadata None.

(** A device that accepts an operation as task 42, reports it RUNNING once
    and then FINISHED. *)
Definition world_task_finishes : World :=
  mkWorld ∅ [inr (JDict [("id", JStr "42")]); inr running; inr finished] [] [] [].

(** The payload of a finished QUERY listing the given package names. *)
Definition query_payload (names : list string) : json :=
  JDict [("status", JStr "FINISHED");
         ("queryResponse", JList ((fun n => JDict [("packageName", JStr n)]) <$> names))].

(** A device that accepts the QUERY as task 42 and finishes it at the second
    poll, listing the given package names. *)
Definition world_query (names : list string) : World :=
  mkWorld ∅ [inr (JDict [("id", JStr "42")]); inr running; inr (query_payload names)] [] [] [].

(** The bytes a call carried. *)
Definition body_bytes (rq : Request) : list byte :=
  match body rq with
  | Some (Bytes b) => b
  | _ => []
  end.

(** The bytes the device acknowledged: the bodies of the calls that
    succeeded, in order. *)
Definition acknowledged_bytes (calls : list (Request * outcome)) : list byte :=
  concat (map (fun c => body_bytes (fst c)) (List.filter (fun c => succeeded (snd c)) calls)).

(** A device whose second answer to the poller is a transport error. *)
Definition world_poll_breaks : World :=
  mkWorld ∅ [inr running; inl (HTTPError "503"); inr finished] [] [] [].

(** A device that reports a failure without saying why. *)
Definition world_silent_failure : World :=
  mkWorld ∅ [inr running; inr (JDict [("status", JStr "FAILED")])] [] [] [].

(** The request that submits the INSTALL of an uploaded package. *)
Definition install_request (package_path : string) : Request :=
  mkRequest PKG_MGMT_URI "POST" []
    (Some (Json (JDict [("operation", JStr "INSTALL");
                        ("packageFilePath", JStr package_path)]))) "json".

(** The device accepts a submitted operation, answering with a task id, and
    the task is reported FAILED with [message] at one of the first 122 polls,
    every earlier poll reporting a status other than FINISHED/FAILED. *)
Definition task_fails (rs : list outcome) (message : json) : Prop :=
  exists (d : list (string * json)) (task_id : json) (polls : list outcome) (n : nat)
         (response : json),
    rs = inr (JDict d) :: polls
    /\ assoc "id" d = Some task_id
    /\ (n < 122)%nat
    /\ pending_polls n polls
    /\ polls !! n = Some (inr response)
    /\ reports "FAILED" response = true
    /\ error_message response = Some message.

(** A device that answers a submission with an error document. *)
Definition world_rejects : World :=
  mkWorld ∅ [inr (JDict [("code", JInt 400); ("message", JStr "bad request")]); inr finished]
          [] [] [].

(** A device that accepts an operation as task 42 and then reports that it
    failed because the package is already there. *)
Definition world_task_fails : World :=
  mkWorld ∅ [inr (JDict [("id", JStr "42")]); inr running;
             inr (JDict [("status", JStr "FAILED");
                         ("errorMessage", JStr "package already installed")])] [] [] [].

(** Where the examples download from. *)
Definition remote_packages : list (string * list byte) :=
  [("https://example.com/f5-appsvcs-3.10.0-5.noarch.rpm", ["r"; "p"; "m"]%byte)].

(** A device that acknowledges one chunk, accepts an operation as task 42
    and finishes it at the second poll. *)
Definition world_install : World :=
  mkWorld ∅ [inr JNone; inr (JDict [("id", JStr "42")]); inr running; inr finished] [] [] [].

(** A device that refuses the first chunk. *)
Definition world_install_refused : World :=
  mkWorld ∅ [inl (HTTPError "413"); inr (JDict [("id", JStr "42")]); inr finished] [] [] [].

(** A comparison under which no constraint holds. *)
Definition never_satisfied : string -> string -> string -> bool := fun _ _ _ => false.

(** Metadata of a component with a dependent that declares no constraint. *)
Definition do_metadata : MetadataClient :=
  mkMetadataClient
    "https://example.com/f5-declarative-onboarding-1.3.0-5.noarch.rpm"
    "f5-declarative-onboarding-1.3.0-5.noarch"
    "f5-declarative-onboarding"
    "1.3.0"
    [("as3", mkDependency [] "https://example.com/uninstall-as3")].

(** A device that finishes the QUERY listing one package by name and one
    entry that has no name. *)
Definition world_nameless_entry : World :=
  mkWorld ∅
    [inr (JDict [("id", JStr "42")]);
     inr (JDict [("status", JStr "FINISHED");
                 ("queryResponse",
                  JList [JDict [("packageName", JStr "f5-appsvcs-3.10.0-5.noarch")];
                         JDict [("name", JStr "f5-telemetry")]])])] [] [] [].

Definition is_digit (c : ascii) : bool := atom_matches (Range "0" "9") c.

(** Every digit of the string is followed by two further characters of the
    string that are not digits: no digit is near another digit or near the
    end. *)
Fixpoint lone_digits (s : string) : bool :=
  match s with
  | EmptyString => true
  | String c s' =>
      (if is_digit c then
         match s' with
         | String c1 (String c2 _) => negb (is_digit c1) && negb (is_digit c2)
         | _ => false
         end
       else true) && lone_digits s'
  end.

(** The string does not begin with a digit. *)
Definition no_leading_digit (s : string) : bool :=
  match s with
  | String c _ => negb (is_digit c)
  | EmptyString => true
  end.

(** [x[key]] when [x] is a dict that has the key. *)
Definition json_field (x : json) (key : string) : option json :=
  match x with
  | JDict d => assoc key d
  | _ => None
  end.

(** The versions the toolchain metadata lists for the client's component,
    when the metadata has them. *)
Definition versions_of (self : Operation.Client) : option (list (string * json)) :=
  match json_field (Operation.t_metadata self) "components" with
  | Some components =>
      match json_field components (Operation.component self) with
      | Some c_metadata =>
          match json_field c_metadata "versions" with
          | Some (JDict items) => Some items
          | _ => None
          end
      | None => None
      end
  | None => None
  end.

(** The version's metadata says whether it is the latest. *)
Definition has_latest_flag (kv : string * json) : Prop :=
  is_Some (json_field (snd kv) "latest").

(** The version's metadata flags it as the latest. *)
Definition flagged_latest (kv : string * json) : bool :=
  match json_field (snd kv) "latest" with
  | Some flag => truthy flag
  | None => false
  end.

(** What [list(latest.keys())[0]] yields on the flagged versions. *)
Definition first_key (latest : list (string * json)) : res string :=
  match latest with
  | (k, _) :: _ => Return k
  | [] => Raise IndexError
  end.

(** The request that submits the UNINSTALL of a package named as the
    metadata names it. *)
Definition uninstall_request_of (package_name : json) : Request :=
  mkRequest PKG_MGMT_URI "POST" []
    (Some (Json (JDict [("operation", JStr "UNINSTALL"); ("packageName", package_name)])))
    "json".

(** Toolchain metadata with two versions of one component, the second one
    flagged as the latest. *)
Definition toolchain_metadata : json :=
  JDict [("components",
          JDict [("as3",
                  JDict [("versions",
                          JDict [("3.9.0",
                                  JDict [("downloadUrl",
                                          JStr "https://example.com/f5-appsvcs-3.9.0-3.noarch.rpm");
                                         ("packageName", JStr "f5-appsvcs-3.9.0-3.noarch");
                                         ("latest", JBool false)]);
                                 ("3.10.0",
                                  JDict [("downloadUrl",
                                          JStr "https://example.com/f5-appsvcs-3.10.0-5.noarch.rpm");
                                         ("packageName", JStr "f5-appsvcs-3.10.0-5.noarch");
                                         ("latest", JBool true)])])])])].

(** The same metadata before any version is flagged. *)
Definition unflagged_metadata : json :=
  JDict [("components",
          JDict [("as3",
                  JDict [("versions",
                          JDict [("3.9.0",
                                  JDict [("downloadUrl",
                                          JStr "https://example.com/f5-appsvcs-3.9.0-3.noarch.rpm");
                                         ("packageName", JStr "f5-appsvcs-3.9.0-3.noarch");
                                         ("latest", JBool false)])])])])].

(** Metadata in which a version lacks the flag. *)
Definition flagless_metadata : json :=
  JDict [("components",
          JDict [("as3",
                  JDict [("versions",
                          JDict [("3.10.0", JDict [("latest", JBool true)]);
                                 ("3.9.0", JDict [("packageName",
                                                   JStr "f5-appsvcs-3.9.0-3.noarch")])])])])].

(** The headers [make_request] starts from. *)
Definition default_headers (token user_agent : string) : list (string * string) :=
  [("X-F5-Auth-Token", token); ("User-Agent", user_agent)].

(** The body is run through [json.dumps]. *)
Definition encoded (rq : Request) : bool :=
  truthy_payload (body rq) && String.eqb (body_content_type rq) "json".

(** The keyword was given and is not the empty string. *)
Definition given (kw : option string) : bool := negb (String.eqb (default "" kw) "").

(** A login service that hands out the token 'abc'. *)
Definition login_abc (url : string) (body : json) (auth : string * string) : M json :=
  ret (JDict [("token", JDict [("token", JStr "abc"); ("timeout", JInt 1200)])]).

(** * Properties *)

(** ** Chunked upload *)

Lemma take_min {A} (n : nat) (l : list A) : take (n `min` length l) l = take n l.
Proof.
  destruct (Nat.le_ge_cases n (length l)) as [H|H].
  - by rewrite Nat.min_l.
  - rewrite Nat.min_r by done. by rewrite !take_ge.
Qed.

Lemma bind_unfold {A B} (m : M A) (k : A -> M B) (w : World) :
  bind m k w =
  match m w with
  | (Return a, w') => k a w'
  | (Raise e, w') => (Raise e, w')
  | (OutOfFuel, w') => (OutOfFuel, w')
  end.
Proof. reflexivity. Qed.

Section UploadLoop.
Variables (uri : string) (C : Z) (data : list byte).
Hypothesis C_pos : 0 < C.

(** Reading at the end of the file leaves the loop. *)
Lemma upload_loop_eof fuel (p : nat) w :
  (length data <= p)%nat ->
  upload_loop (S fuel) uri C (len data) (mkFile data p) (Z.of_nat p) w = (Return tt, w).
Proof using C_pos.
  intros Hp. cbn [upload_loop]. unfold file_read. cbn [content pos].
  rewrite drop_ge by done.
  destruct (C <? 0); by rewrite ?take_nil.
Qed.

(** Before the end, one iteration sends the next [n] bytes, [n] being the
    chunk size or what is left, and goes on behind them. *)
Lemma upload_loop_chunk fuel (p : nat) w :
  (p < length data)%nat ->
  let n := (Z.to_nat C `min` (length data - p))%nat in
  upload_loop (S fuel) uri C (len data) (mkFile data p) (Z.of_nat p) w =
  bind (make_request (chunk_request uri data (Z.of_nat p, Z.of_nat (p + n))))
       (fun _ => upload_loop fuel uri C (len data) (mkFile data (p + n)) (Z.of_nat (p + n))) w.
Proof using C_pos.
  intros Hp n. cbn [upload_loop]. unfold file_read. cbn [content pos].
  assert (HC : (C <? 0) = false) by lia. rewrite HC.
  assert (Hlen : length (take (Z.to_nat C) (drop p data)) = n).
  { rewrite length_take, length_drop. done. }
  assert (Hn : (0 < n)%nat) by lia.
  assert (Hslice : take (Z.to_nat C) (drop p data)
                   = slice data (Z.of_nat p) (Z.of_nat (p + n))).
  { unfold slice. rewrite Nat2Z.id.
    replace (Z.to_nat (Z.of_nat (p + n) - Z.of_nat p)) with n by lia.
    subst n. rewrite <- (length_drop data p). by rewrite take_min. }
  destruct (take (Z.to_nat C) (drop p data)) as [|b0 got] eqn:Hgot.
  { cbn in Hlen. lia. }
  assert (Hl : len (b0 :: got) = Z.of_nat n) by (unfold len; by rewrite Hlen).
  rewrite Hlen, !Hl.
  assert (Hend : (if Z.of_nat n <? C then len data else Z.of_nat p + Z.of_nat n)
                 = Z.of_nat (p + n)).
  { unfold len. destruct (Z.ltb_spec (Z.of_nat n) C); lia. }
  rewrite Hend, Hslice. unfold chunk_request. cbn [fst snd].
  replace (Z.of_nat p + Z.of_nat n) with (Z.of_nat (p + n)) by lia.
  reflexivity.
Qed.

(** One run of the loop from position [p], whatever the device answers:
    the calls made are the requests for consecutive chunk-sized ranges
    starting at [p]; the run ends normally behind the last byte when every
    call succeeded and otherwise with the exception of the last call. *)
Lemma upload_loop_run fuel : forall (p : nat) w,
  (p <= length data)%nat -> (length data - p < fuel)%nat ->
  exists ranges outs b r w',
    upload_loop fuel uri C (len data) (mkFile data p) (Z.of_nat p) w = (r, w')
    /\ history w' = (history w ++ zip (chunk_request uri data <$> ranges) outs)%list
    /\ length outs = length ranges
    /\ tiles (Z.of_nat p) b ranges /\ b <= len data
    /\ Forall (chunk_sized C (len data)) ranges
    /\ fs w' = fs w /\ slept w' = slept w /\ warnings w' = warnings w
    /\ ((exists js, r = Return tt /\ b = len data /\ outs = inr <$> js)
        \/ (exists e js, r = Raise e /\ outs = ((inr <$> js) ++ [inl e])%list)).
Proof using C_pos.
  induction fuel as [|fuel IH]; intros p w Hp Hfuel; [lia|].
  destruct (decide (p = length data)) as [->|Hne].
  - exists [], [], (len data), (Return tt), w.
    rewrite upload_loop_eof by done. cbn. rewrite app_nil_r.
    repeat split; eauto using Z.le_refl. left. by exists [].
  - rewrite upload_loop_chunk by lia.
    set (n := (Z.to_nat C `min` (length data - p))%nat).
    set (rg := (Z.of_nat p, Z.of_nat (p + n))).
    assert (Hsized : chunk_sized C (len data) rg).
    { unfold chunk_sized, rg, len; cbn [fst snd]. subst n. lia. }
    rewrite bind_unfold. unfold make_request.
    destruct (next_outcome w) as [e|j] eqn:Ho.
    + exists [rg], [inl e], (Z.of_nat (p + n)), (Raise e), (record_call (chunk_request uri data rg) (inl e) w).
      cbn. unfold len. subst n. repeat split; eauto; try lia.
      right. by exists e, [].
    + destruct (IH (p + n)%nat (record_call (chunk_request uri data rg) (inr j) w))
        as (ranges & outs & b & r & w' & Hrun & Hhist & Hlen & Htiles & Hb & Hall
            & Hfs & Hsl & Hwarn & Hres); [subst n; lia..|].
      exists (rg :: ranges), (inr j :: outs), b, r, w'.
      rewrite Hrun, Hhist. cbn [record_call history fs slept warnings] in *.
      rewrite <- app_assoc. cbn.
      repeat split; eauto; try (subst n; lia).
      destruct Hres as [(js & -> & -> & ->)|(e & js & -> & ->)]; [left|right].
      * by exists (j :: js).
      * by exists e, (j :: js).
Qed.

(** The same run when the device acknowledges enough calls to cover what
    is left of the file: the loop ends normally and the ranges reach the
    end of the file. *)
Lemma upload_loop_acked fuel : forall (p : nat) w (js : list json) (rest : list outcome),
  (p <= length data)%nat -> (length data - p < fuel)%nat ->
  responses w = ((inr <$> js) ++ rest)%list ->
  Z.of_nat (length data - p) <= len js * C ->
  exists ranges w',
    upload_loop fuel uri C (len data) (mkFile data p) (Z.of_nat p) w = (Return tt, w')
    /\ history w' = (history w ++ zip (chunk_request uri data <$> ranges)
                                      (inr <$> take (length ranges) js))%list
    /\ (length ranges <= length js)%nat
    /\ responses w' = drop (length ranges) (responses w)
    /\ tiles (Z.of_nat p) (len data) ranges
    /\ Forall (chunk_sized C (len data)) ranges
    /\ fs w' = fs w /\ slept w' = slept w /\ warnings w' = warnings w.
Proof using C_pos.
  induction fuel as [|fuel IH]; intros p w js rest Hp Hfuel Hresp Hjs; [lia|].
  destruct (decide (p = length data)) as [->|Hne].
  - exists [], w. rewrite upload_loop_eof by done. cbn. rewrite app_nil_r.
    repeat split; eauto; lia.
  - rewrite upload_loop_chunk by lia.
    set (n := (Z.to_nat C `min` (length data - p))%nat).
    set (rg := (Z.of_nat p, Z.of_nat (p + n))).
    assert (Hsized : chunk_sized C (len data) rg).
    { unfold chunk_sized, rg, len; cbn [fst snd]. subst n. lia. }
    destruct js as [|j js]; [unfold len in Hjs; cbn in Hjs; lia|].
    rewrite bind_unfold. unfold make_request, next_outcome. rewrite Hresp. cbn [fmap list_fmap app].
    destruct (IH (p + n)%nat (record_call (chunk_request uri data rg) (inr j) w) js rest)
      as (ranges & w' & Hrun & Hhist & Hlen & Hrs & Htiles & Hall & Hfs & Hsl & Hwarn).
    { subst n; lia. }
    { subst n; lia. }
    { cbn. by rewrite Hresp. }
    { unfold len in *. cbn [length] in Hjs. subst n. nia. }
    exists (rg :: ranges), w'.
    rewrite Hrun, Hhist, Hrs. cbn [record_call history fs slept warnings responses] in *.
    rewrite <- app_assoc, Hresp. cbn.
    repeat split; eauto; try (subst n; lia).
Qed.
End UploadLoop.

(** [file_name.split('/')] is never empty, so its last item exists. *)
Lemma split_not_nil (sep : ascii) (s : string) : split sep s <> [].
Proof.
  destruct s as [|c s]; cbn; [done|].
  destruct (Ascii.eqb c sep); [done|]. by destruct (split sep s).
Qed.

Lemma upload_uri_ok (file_name : string) (w : World) :
  upload_uri file_name w
  = (Return (upload_target file_name), w).
Proof.
  unfold upload_uri, upload_target, last_item. rewrite bind_unfold.
  destruct (last (split "/" file_name)) as [base|] eqn:Hlast; [done|].
  apply last_None in Hlast. by apply split_not_nil in Hlast.
Qed.

(** [_upload_rpm] on an existing file comes down to one run of the loop from
    the start of the file, followed by the optional removal. *)
Lemma _upload_rpm_unfold (file_name : string) (delete_file : option bool)
    (data : list byte) (w : World) :
  fs w !! file_name = Some data ->
  _upload_rpm file_name delete_file w =
  bind (upload_loop (S (length data)) (upload_target file_name)
          (1024 * 1024) (len data) (mkFile data 0) (Z.of_nat 0))
       (fun _ => if default true delete_file then os_remove file_name else ret tt) w.
Proof.
  intros Hfile. unfold _upload_rpm.
  rewrite bind_unfold, upload_uri_ok. rewrite bind_unfold. unfold open_rb. rewrite Hfile.
  unfold file_read. cbn [pos content]. rewrite drop_0. cbn [Z.ltb Z.compare].
  reflexivity.
Qed.

Lemma tiles_bounds (ranges : list (Z * Z)) : forall a b,
  tiles a b ranges ->
  a <= b /\ Forall (fun rg => a <= fst rg /\ fst rg < snd rg /\ snd rg <= b) ranges.
Proof.
  induction ranges as [|rg ranges IH]; intros a b Ht; cbn in Ht.
  - split; [lia|constructor].
  - destruct Ht as (Ha & Hlt & Ht). destruct (IH _ _ Ht) as [Hle Hall].
    split; [lia|]. constructor; [lia|].
    eapply Forall_impl; [exact Hall|]. cbn. intros; lia.
Qed.

Lemma tiles_last (ranges : list (Z * Z)) : forall a b rg,
  tiles a b ranges -> last ranges = Some rg -> snd rg = b.
Proof.
  induction ranges as [|rg0 ranges IH]; intros a b rg Ht Hlast; [done|].
  cbn in Ht. destruct Ht as (_ & _ & Ht).
  destruct ranges as [|rg1 ranges].
  - cbn in *. by simplify_eq.
  - eapply IH; [exact Ht|]. exact Hlast.
Qed.

Lemma tiles_nonempty (ranges : list (Z * Z)) a b :
  tiles a b ranges -> a < b -> exists rg, last ranges = Some rg.
Proof.
  intros Ht Hab. destruct ranges as [|rg0 ranges]; [cbn in Ht; lia|].
  destruct (last (rg0 :: ranges)) as [rg|] eqn:Hl; [eauto|].
  by apply last_None in Hl.
Qed.

Lemma slice_length (data : list byte) (start end_ : Z) :
  0 <= start <= end_ -> end_ <= len data -> len (slice data start end_) = end_ - start.
Proof.
  unfold slice, len. intros. rewrite length_take, length_drop. lia.
Qed.

Lemma content_range_chunk (uri : string) (data : list byte) (rg : Z * Z) :
  content_range (chunk_request uri data rg)
  = Some (str_int (fst rg) +:+ "-" +:+ str_int (snd rg - 1) +:+ "/" +:+ str_int (len data)).
Proof. reflexivity. Qed.

(** The only way to cut 2.5 MiB into 1 MiB chunks. *)
Lemma ranges_2_5_MiB (ranges : list (Z * Z)) :
  tiles 0 2621440 ranges ->
  Forall (chunk_sized (1024 * 1024) 2621440) ranges ->
  ranges = [(0, 1048576); (1048576, 2097152); (2097152, 2621440)].
Proof.
  unfold chunk_sized. intros Ht Hall.
  destruct ranges as [|[s1 e1] ranges]; cbn in Ht; [lia|].
  destruct Ht as (-> & H1 & Ht). apply Forall_cons in Hall as [[Ha1 Hb1] Hall]; cbn in *.
  destruct ranges as [|[s2 e2] ranges]; cbn in Ht; [lia|].
  destruct Ht as (-> & H2 & Ht). apply Forall_cons in Hall as [[Ha2 Hb2] Hall]; cbn in *.
  destruct ranges as [|[s3 e3] ranges]; cbn in Ht; [lia|].
  destruct Ht as (-> & H3 & Ht). apply Forall_cons in Hall as [[Ha3 Hb3] Hall]; cbn in *.
  change (1024 * 1024) with 1048576 in *.
  pose proof (proj1 (tiles_bounds _ _ _ Ht)) as Hle.
  assert (e1 = 1048576) as -> by lia.
  assert (e2 = 2097152) as -> by lia.
  assert (e3 = 2621440) as -> by lia.
  destruct ranges as [|[s4 e4] ranges]; [done|].
  cbn in Ht. destruct Ht as (-> & H4 & Ht). apply tiles_bounds in Ht. lia.
Qed.

(** C1. For a file of size [S > 0] and the 1 MiB chunk size of [_upload_rpm],
    when the device acknowledges the chunks, the byte ranges of the requests
    sent tile [[0, S)]: they are consecutive from 0, non-empty, and reach [S];
    a full chunk's range ends at [start + C - 1], any shorter range ends the
    file, and the last range ends at [S - 1]. A 2.5 MiB file gives exactly
    the three Content-Range values 0-1048575/2621440,
    1048576-2097151/2621440 and 2097152-2621439/2621440. *)
Theorem upload_ranges_tile_the_file (w : World) (file_name : string)
    (delete_file : option bool) (data : list byte) (js : list json) (rest : list outcome) :
  fs w !! file_name = Some data ->
  0 < len data ->
  responses w = ((inr <$> js) ++ rest)%list ->
  len data <= len js * (1024 * 1024) ->
  exists (ranges : list (Z * Z)) (w' : World),
    _upload_rpm file_name delete_file w = (Return tt, w')
    /\ history w'
       = (history w ++ zip (chunk_request (upload_target file_name) data <$> ranges)
                           (inr <$> take (length ranges) js))%list
    /\ (length ranges <= length js)%nat
    /\ tiles 0 (len data) ranges
    /\ Forall (fun rg => snd rg - 1 = fst rg + 1024 * 1024 - 1
                         \/ (snd rg - fst rg < 1024 * 1024 /\ snd rg = len data)) ranges
    /\ (exists rg, last ranges = Some rg /\ snd rg - 1 = len data - 1)
    /\ (len data = 2621440 ->
        content_range <$> (chunk_request (upload_target file_name) data <$> ranges)
        = [Some "0-1048575/2621440"; Some "1048576-2097151/2621440";
           Some "2097152-2621439/2621440"]).
Proof.
  intros Hfile Hsize Hresp Hjs.
  destruct (upload_loop_acked (upload_target file_name) (1024 * 1024) data ltac:(lia)
              (S (length data)) 0%nat w js rest)
    as (ranges & w1 & Hrun & Hhist & Hlen & Hrs & Htiles & Hall & Hfs & Hsl & Hwarn);
    [lia | lia | done | unfold len in *; lia |].
  change (Z.of_nat 0) with 0 in *.
  destruct (tiles_nonempty _ _ _ Htiles Hsize) as [rg Hlast].
  assert (Hrm : exists w', (if default true delete_file then os_remove file_name else ret tt) w1
                           = (Return tt, w') /\ history w' = history w1).
  { destruct (default true delete_file); [|by exists w1].
    unfold os_remove. rewrite Hfs, Hfile. eauto. }
  destruct Hrm as (w' & Hrm & Hh).
  exists ranges, w'. split.
  { rewrite (_upload_rpm_unfold _ _ data) by done. rewrite bind_unfold.
    change (Z.of_nat 0) with 0. by rewrite Hrun. }
  rewrite Hh, Hhist. repeat split; [done|done| | |].
  - eapply Forall_impl; [exact Hall|]. unfold chunk_sized. intros [s e]; cbn. lia.
  - exists rg. split; [done|]. by rewrite (tiles_last _ _ _ _ Htiles Hlast).
  - intros HS. rewrite HS in Htiles, Hall.
    rewrite (ranges_2_5_MiB _ Htiles Hall). cbn [fmap list_fmap].
    rewrite !content_range_chunk, HS. cbn [fst snd]. vm_compute. reflexivity.
Qed.

Lemma upload_ranges_tile_the_file_witness :
  0 < len rpm_2_5_MiB
  /\ exists w',
       _upload_rpm tmp_rpm None world_2_5_MiB = (Return tt, w')
       /\ content_range <$> (history w').*1
          = [Some "0-1048575/2621440"; Some "1048576-2097151/2621440";
             Some "2097152-2621439/2621440"].
Proof.
  assert (Hlen : len rpm_2_5_MiB = 2621440).
  { unfold len, rpm_2_5_MiB. rewrite length_replicate. apply Z2Nat.id. lia. }
  assert (Hfile : fs world_2_5_MiB !! tmp_rpm = Some rpm_2_5_MiB).
  { apply lookup_singleton_eq. }
  split; [lia|].
  destruct (upload_ranges_tile_the_file world_2_5_MiB tmp_rpm None rpm_2_5_MiB
              [JNone; JNone; JNone] [] Hfile)
    as (ranges & w' & Hrun & Hhist & Hn & _ & _ & _ & Hcr);
    [lia | reflexivity | rewrite Hlen; unfold len; cbn; lia |].
  exists w'. split; [exact Hrun|].
  rewrite Hhist. cbn [history world_2_5_MiB app].
  rewrite fst_zip by (rewrite !length_fmap, length_take; lia).
  exact (Hcr Hlen).
Defined.

(** [_upload_rpm] on an existing file, whatever the device answers. *)
Lemma _upload_rpm_run (w : World) (file_name : string) (delete_file : option bool)
    (data : list byte) :
  fs w !! file_name = Some data ->
  exists ranges outs b r w',
    _upload_rpm file_name delete_file w = (r, w')
    /\ history w'
       = (history w ++ zip (chunk_request (upload_target file_name) data <$> ranges) outs)%list
    /\ length outs = length ranges
    /\ tiles 0 b ranges /\ b <= len data
    /\ Forall (chunk_sized (1024 * 1024) (len data)) ranges
    /\ ((exists js, r = Return tt /\ b = len data /\ outs = inr <$> js
                    /\ fs w' = if default true delete_file
                               then delete file_name (fs w) else fs w)
        \/ (exists e js, r = Raise e /\ outs = ((inr <$> js) ++ [inl e])%list
                         /\ fs w' = fs w)).
Proof.
  intros Hfile.
  destruct (upload_loop_run (upload_target file_name) (1024 * 1024) data ltac:(lia)
              (S (length data)) 0%nat w)
    as (ranges & outs & b & r & w1 & Hrun & Hhist & Hlen & Htiles & Hb & Hall
        & Hfs & _ & _ & Hres); [lia | lia |].
  rewrite (_upload_rpm_unfold _ _ data) by done. rewrite bind_unfold, Hrun.
  destruct Hres as [(js & -> & -> & ->)|(e & js & -> & ->)].
  - destruct (default true delete_file) eqn:Hdel.
    + unfold os_remove. rewrite Hfs, Hfile.
      eexists ranges, _, _, _, _. split; [reflexivity|]. cbn [history fs].
      repeat split; eauto. left. by exists js.
    + eexists ranges, _, _, _, _. split; [reflexivity|].
      repeat split; eauto. left. by exists js.
  - eexists ranges, _, _, _, _. split; [reflexivity|].
    repeat split; eauto. right. by exists e, js.
Qed.

(** C3. With [delete_file] true (given or by default), on an existing file:
    the file is gone afterwards exactly when every chunk request made was
    answered successfully, in which case the upload returns; a chunk request
    that fails ends the upload with that very exception and leaves the local
    files as they were. *)
Theorem upload_removes_file_iff_all_chunks_succeeded (w : World) (file_name : string)
    (delete_file : option bool) (data : list byte) :
  fs w !! file_name = Some data ->
  default true delete_file = true ->
  exists (calls : list (Request * outcome)) (r : res unit) (w' : World),
    _upload_rpm file_name delete_file w = (r, w')
    /\ history w' = (history w ++ calls)%list
    /\ (fs w' !! file_name = None <-> Forall (fun c => succeeded (snd c) = true) calls)
    /\ (Forall (fun c => succeeded (snd c) = true) calls ->
        r = Return tt /\ fs w' = delete file_name (fs w))
    /\ (forall rq e, (rq, inl e) ∈ calls -> r = Raise e /\ fs w' = fs w).
Proof.
  intros Hfile Hdel.
  destruct (_upload_rpm_run w file_name delete_file data Hfile)
    as (ranges & outs & b & r & w' & Hrun & Hhist & Hlen & _ & _ & _ & Hres).
  exists (zip (chunk_request (upload_target file_name) data <$> ranges) outs), r, w'.
  split; [done|]. split; [done|].
  assert (Hsnd : (zip (chunk_request (upload_target file_name) data <$> ranges) outs).*2 = outs).
  { apply snd_zip. rewrite length_fmap. lia. }
  set (calls := zip _ outs) in *.
  assert (Hall : Forall (fun c => succeeded (snd c) = true) calls
                 <-> Forall (fun o => succeeded o = true) outs).
  { rewrite <- Hsnd. by rewrite Forall_fmap. }
  destruct Hres as [(js & -> & _ & Houts & Hfs)|(e & js & -> & Houts & Hfs)].
  - rewrite Hdel in Hfs.
    assert (Hok : Forall (fun o : outcome => succeeded o = true) outs).
    { rewrite Houts. apply Forall_fmap. by apply Forall_true. }
    split; [|split].
    + split; intros _; [by apply Hall|]. rewrite Hfs. apply lookup_delete_eq.
    + done.
    + intros rq e Hin. exfalso.
      assert (Hino : inl e ∈ outs).
      { rewrite <- Hsnd. apply list_elem_of_fmap. by exists (rq, inl e). }
      rewrite Forall_forall in Hok. specialize (Hok _ Hino). done.
  - assert (Hbad : ~ Forall (fun o : outcome => succeeded o = true) outs).
    { rewrite Houts, Forall_app, Forall_singleton. cbn. intros [_ Hc]. discriminate Hc. }
    split; [|split].
    + rewrite Hfs, Hfile. split; [done|]. intros Hc. exfalso. apply Hbad, Hall, Hc.
    + intros Hc. exfalso. apply Hbad, Hall, Hc.
    + intros rq e0 Hin.
      assert (Hino : inl e0 ∈ outs).
      { rewrite <- Hsnd. apply list_elem_of_fmap. by exists (rq, inl e0). }
      rewrite Houts in Hino. apply elem_of_app in Hino as [Hino|Hino].
      * apply list_elem_of_fmap in Hino as (j & Hj & _). done.
      * apply list_elem_of_singleton in Hino. by simplify_eq.
Qed.

Lemma upload_removes_file_iff_all_chunks_succeeded_witness :
  fs world_failing_upload !! tmp_rpm = Some rpm_2_5_MiB
  /\ exists calls r w',
       _upload_rpm tmp_rpm (Some true) world_failing_upload = (r, w')
       /\ history w' = calls
       /\ (fs w' !! tmp_rpm = None <-> Forall (fun c => succeeded (snd c) = true) calls).
Proof.
  assert (Hfile : fs world_failing_upload !! tmp_rpm = Some rpm_2_5_MiB).
  { apply lookup_singleton_eq. }
  split; [exact Hfile|].
  destruct (upload_removes_file_iff_all_chunks_succeeded world_failing_upload tmp_rpm
              (Some true) rpm_2_5_MiB Hfile eq_refl)
    as (calls & r & w' & Hrun & Hhist & Hiff & _).
  exists calls, r, w'.
  split; [exact Hrun|]. split; [exact Hhist|]. exact Hiff.
Defined.

(** The same run, evaluated: the second chunk's failure comes out of
    [_upload_rpm] and the package is still in place. *)
Example upload_failure_keeps_file :
  fst (_upload_rpm tmp_rpm (Some true) world_failing_upload) = Raise (HTTPError "500")
  /\ length (history (snd (_upload_rpm tmp_rpm (Some true) world_failing_upload))) = 2%nat
  /\ bool_decide
       (is_Some (fs (snd (_upload_rpm tmp_rpm (Some true) world_failing_upload)) !! tmp_rpm))
     = true.
Proof.
  split; [vm_compute; reflexivity|]. split; vm_compute; reflexivity.
Qed.

(** What [ManagementClient.make_request] sends for a chunk: the caller's
    three headers behind the two default ones, and the slice as it is. *)
Lemma wire_chunk_request (token user_agent uri : string) (data : list byte) (rg : Z * Z) :
  wire token user_agent (chunk_request uri data rg)
  = inr ("post",
         [("X-F5-Auth-Token", token); ("User-Agent", user_agent);
          ("Content-Range",
           str_int (fst rg) +:+ "-" +:+ str_int (snd rg - 1) +:+ "/" +:+ str_int (len data));
          ("Content-Length", str_int (snd rg));
          ("Content-Type", "application/octet-stream")],
         WireRaw (slice data (fst rg) (snd rg))).
Proof.
  unfold wire, chunk_request. cbn [body body_content_type headers method].
  change (String.eqb "raw" "json") with false. rewrite andb_false_r. reflexivity.
Qed.

(** C7. Every request [_upload_rpm] makes for a chunk [data[start:end_]] of
    the file is a POST to the upload uri whose headers are exactly
    Content-Range [start-(end_-1)/total], Content-Length [end_] (the end
    offset, whereas the chunk holds [end_ - start] bytes) and Content-Type
    application/octet-stream; its body is the slice itself, declared 'raw',
    and goes on the wire as those bytes, not through [json.dumps]. *)
Theorem upload_request_format (w : World) (file_name : string)
    (delete_file : option bool) (data : list byte) (token user_agent : string) :
  fs w !! file_name = Some data ->
  exists calls : list (Request * outcome),
    history (snd (_upload_rpm file_name delete_file w)) = (history w ++ calls)%list
    /\ Forall
         (fun c =>
            exists start end_ : Z,
              0 <= start /\ start < end_ /\ end_ <= len data
              /\ fst c
                 = mkRequest (upload_target file_name) "POST"
                     [("Content-Range",
                       str_int start +:+ "-" +:+ str_int (end_ - 1) +:+ "/"
                       +:+ str_int (len data));
                      ("Content-Length", str_int end_);
                      ("Content-Type", "application/octet-stream")]
                     (Some (Bytes (slice data start end_))) "raw"
              /\ len (slice data start end_) = end_ - start
              /\ wire token user_agent (fst c)
                 = inr ("post",
                        [("X-F5-Auth-Token", token); ("User-Agent", user_agent);
                         ("Content-Range",
                          str_int start +:+ "-" +:+ str_int (end_ - 1) +:+ "/"
                          +:+ str_int (len data));
                         ("Content-Length", str_int end_);
                         ("Content-Type", "application/octet-stream")],
                        WireRaw (slice data start end_)))
         calls.
Proof.
  intros Hfile.
  destruct (_upload_rpm_run w file_name delete_file data Hfile)
    as (ranges & outs & b & r & w' & Hrun & Hhist & Hlen & Htiles & Hb & _ & _).
  rewrite Hrun. cbn [snd].
  exists (zip (chunk_request (upload_target file_name) data <$> ranges) outs).
  split; [done|].
  destruct (tiles_bounds _ _ _ Htiles) as [_ Hbounds].
  apply Forall_forall. intros [rq o] Hin. apply elem_of_zip_l in Hin.
  apply list_elem_of_fmap in Hin as ([start end_] & -> & Hrg).
  rewrite Forall_forall in Hbounds. destruct (Hbounds _ Hrg) as (H0 & Hlt & Hle).
  cbn [fst snd] in *.
  exists start, end_. split; [done|]. split; [done|]. split; [lia|].
  split; [reflexivity|]. split; [apply slice_length; lia|].
  apply (wire_chunk_request token user_agent _ data (start, end_)).
Qed.

Lemma upload_request_format_witness :
  fs world_2_5_MiB !! tmp_rpm = Some rpm_2_5_MiB
  /\ exists calls : list (Request * outcome),
       history (snd (_upload_rpm tmp_rpm None world_2_5_MiB)) = calls
       /\ Forall (fun c => method (fst c) = "POST" /\ body_content_type (fst c) = "raw") calls.
Proof.
  assert (Hfile : fs world_2_5_MiB !! tmp_rpm = Some rpm_2_5_MiB).
  { apply lookup_singleton_eq. }
  split; [exact Hfile|].
  destruct (upload_request_format world_2_5_MiB tmp_rpm None rpm_2_5_MiB "token" "agent" Hfile)
    as (calls & Hhist & Hall).
  exists calls. split; [exact Hhist|].
  eapply Forall_impl; [exact Hall|].
  intros c (start & end_ & _ & _ & _ & Hc & _). rewrite Hc. split; reflexivity.
Defined.

(** The second chunk of the 2.5 MiB package: its Content-Length is the end
    offset 2097152, twice the 1048576 bytes it carries. *)
Example second_chunk_content_length :
  (fun rq => (assoc "Content-Length" (headers rq),
              match body rq with Some (Bytes b) => Some (len b) | _ => None end))
    <$> (fst <$> history (snd (_upload_rpm tmp_rpm None world_2_5_MiB))) !! 1%nat
  = Some (Some "2097152", Some 1048576).
Proof. vm_compute. reflexivity. Qed.

(** ** Task polling *)

Lemma tail_drop {A} (l : list A) : tail l = drop 1 l.
Proof. by destruct l. Qed.

Lemma next_outcome_at (w : World) : next_outcome w = outcome_at (responses w) 0.
Proof. unfold next_outcome, outcome_at. by destruct (responses w). Qed.

Section PollLoop.
Variables (status_link_uri : string) (sleep_secs max_count : Z).

(** An iteration on an answer that is not a pending response ends the loop
    with the verdict on that answer. *)
Lemma poll_loop_final fuel count w :
  is_pending (next_outcome w) = false ->
  poll_loop (S fuel) status_link_uri sleep_secs max_count count w
  = (verdict (next_outcome w),
     record_call (poll_request status_link_uri) (next_outcome w) w).
Proof.
  intros Hnp. cbn [poll_loop]. rewrite bind_unfold. unfold make_request.
  fold (poll_request status_link_uri).
  destruct (next_outcome w) as [e|response]; [done|].
  cbn in Hnp. unfold reports_pending, status_of in Hnp.
  destruct response as [| | | |l|d]; try done.
  cbn [verdict]. rewrite bind_unfold. cbn [getitem].
  destruct (assoc "status" d) as [st|]; [|done].
  cbn [ret]. destruct (eq_str st "FINISHED"); [done|].
  rewrite bind_unfold. cbn [ret].
  destruct (eq_str st "FAILED"); [|done].
  rewrite bind_unfold. by destruct (assoc "errorMessage" d).
Qed.

(** An iteration on a pending response times out when the counter has passed
    [max_count], and otherwise sleeps and goes round again. *)
Lemma poll_loop_pending fuel count w response :
  next_outcome w = inr response ->
  reports_pending response = true ->
  poll_loop (S fuel) status_link_uri sleep_secs max_count count w
  = let w1 := record_call (poll_request status_link_uri) (inr response) w in
    if count >? max_count then (Raise (Exception (JStr "Max count exceeded")), w1)
    else bind (sleep sleep_secs)
              (fun _ => poll_loop fuel status_link_uri sleep_secs max_count (count + 1)) w1.
Proof.
  intros Ho Hp. cbn [poll_loop]. rewrite bind_unfold. unfold make_request.
  fold (poll_request status_link_uri). rewrite Ho.
  unfold reports_pending, status_of in Hp.
  destruct response as [| | | |l|d]; try done.
  rewrite bind_unfold. cbn [getitem].
  destruct (assoc "status" d) as [st|]; [|done].
  cbn [ret]. apply andb_prop in Hp as [Hfin Hfail].
  apply negb_true_iff in Hfin, Hfail. rewrite Hfin.
  rewrite bind_unfold. cbn [ret]. rewrite Hfail.
  by destruct (count >? max_count).
Qed.

Lemma verdict_pending response :
  reports_pending response = true ->
  verdict (inr response) = Raise (Exception (JStr "Max count exceeded")).
Proof.
  unfold reports_pending, status_of. intros Hp.
  destruct response as [| | | |l|d]; try done. cbn [verdict].
  destruct (assoc "status" d) as [st|]; [|done].
  apply andb_prop in Hp as [Hfin Hfail]. apply negb_true_iff in Hfin, Hfail.
  by rewrite Hfin, Hfail.
Qed.

Lemma next_outcome_inr w response :
  next_outcome w = inr response -> responses w = inr response :: tail (responses w).
Proof. unfold next_outcome. destruct (responses w); naive_solver. Qed.

(** One run of the loop from counter [count]: some number [n] of pending
    polls, each followed by a sleep, and then the poll that decides. The
    run goes on over a pending poll unless the counter has passed
    [max_count], which happens at poll number [max_count + 1 - count]. *)
Lemma poll_loop_run fuel : forall count w,
  0 <= count <= max_count + 1 ->
  (Z.to_nat (max_count + 1 - count) < fuel)%nat ->
  exists (n : nat) (w' : World),
    poll_loop fuel status_link_uri sleep_secs max_count count w
    = (verdict (outcome_at (responses w) n), w')
    /\ Z.of_nat n <= max_count + 1 - count
    /\ pending_polls n (responses w)
    /\ (is_pending (outcome_at (responses w) n) = true ->
        Z.of_nat n = max_count + 1 - count)
    /\ history w'
       = (history w ++ ((fun o => (poll_request status_link_uri, o))
                        <$> (take n (responses w) ++ [outcome_at (responses w) n])))%list
    /\ slept w' = (slept w ++ replicate n sleep_secs)%list
    /\ responses w' = drop (S n) (responses w)
    /\ fs w' = fs w /\ warnings w' = warnings w.
Proof.
  induction fuel as [|fuel IH]; intros count w Hcount Hfuel; [lia|].
  destruct (is_pending (next_outcome w)) eqn:Hpend.
  - destruct (next_outcome w) as [e|response] eqn:Ho; [done|]. cbn in Hpend.
    rewrite (poll_loop_pending fuel count w response Ho Hpend). cbv zeta.
    pose proof (next_outcome_inr w response Ho) as Hrs.
    destruct (Z.gtb_spec count max_count) as [Hgt|Hle].
    + exists 0%nat, (record_call (poll_request status_link_uri) (inr response) w).
      rewrite <- next_outcome_at, Ho, (verdict_pending _ Hpend).
      cbn [take app fmap list_fmap replicate record_call history slept responses fs warnings].
      rewrite tail_drop, app_nil_r.
      split; [done|]. split; [lia|]. split; [split; [cbn; lia|constructor]|].
      split; [intros _; lia|]. done.
    + rewrite bind_unfold. cbn [sleep].
      set (w2 := mkWorld _ _ _ _ _).
      destruct (IH (count + 1) w2) as (n & w' & Hrun & Hn & [Hlen Hpre] & Hlast & Hhist
                                      & Hsl & Hresp & Hfs & Hwarn); [lia | lia |].
      exists (S n), w'. subst w2.
      cbn [record_call history slept responses fs warnings] in *.
      rewrite Hrs. cbn [tail] in *.
      assert (Hat : outcome_at (inr response :: tail (responses w)) (S n)
                    = outcome_at (tail (responses w)) n) by done.
      rewrite Hat, Hrun, Hhist, Hsl, Hresp.
      cbn [take app fmap list_fmap replicate drop length].
      rewrite <- !app_assoc. cbn [app].
      split; [done|]. split; [lia|]. split.
      { split; [cbn; lia|]. by constructor. }
      split; [intros Hp; specialize (Hlast Hp); lia|].
      done.
  - exists 0%nat, (record_call (poll_request status_link_uri) (next_outcome w) w).
    rewrite (poll_loop_final fuel count w Hpend), <- next_outcome_at, Hpend.
    cbn [take app fmap list_fmap replicate record_call history slept responses fs warnings].
    rewrite tail_drop, app_nil_r.
    split; [done|]. split; [lia|]. split; [split; [cbn; lia|constructor]|].
    split; [intros Hp; congruence|]. done.
Qed.
End PollLoop.

Lemma verdict_not_out_of_fuel (o : outcome) : verdict o <> OutOfFuel.
Proof.
  destruct o as [e|[| | | |l|d]]; cbn; try done.
  destruct (assoc "status" d) as [st|]; [|done].
  destruct (eq_str st "FINISHED"); [done|].
  destruct (eq_str st "FAILED"); [|done].
  by destruct (assoc "errorMessage" d).
Qed.

Lemma eq_str_eq (x : json) (s : string) : eq_str x s = true <-> x = JStr s.
Proof.
  destruct x; cbn; try (split; [done|discriminate]).
  rewrite String.eqb_eq. naive_solver.
Qed.

(** A status is FINISHED, FAILED or something else, and only one of them. *)
Lemma reports_exclusive (response : json) :
  (reports "FINISHED" response = true -> reports_pending response = false)
  /\ (reports "FAILED" response = true -> reports_pending response = false)
  /\ (reports "FINISHED" response = true -> reports "FAILED" response = false).
Proof.
  unfold reports, reports_pending. destruct (status_of response) as [st|]; [|done].
  repeat split; intros H.
  - by rewrite H.
  - rewrite H. apply andb_false_r.
  - apply eq_str_eq in H as ->. done.
Qed.

Lemma verdict_return (o : outcome) (payload : json) :
  verdict o = Return payload <-> o = inr payload /\ reports "FINISHED" payload = true.
Proof.
  unfold reports, status_of. split.
  - destruct o as [e|[| | | |l|d]]; cbn; try done.
    destruct (assoc "status" d) as [st|] eqn:Hst; [|done].
    destruct (eq_str st "FINISHED") eqn:Hfin.
    + intros [= <-]. by rewrite Hst.
    + destruct (eq_str st "FAILED"); [|done]. by destruct (assoc "errorMessage" d).
  - intros [-> H]. destruct payload as [| | | |l|d]; try done. cbn.
    destruct (assoc "status" d) as [st|]; [|done]. by rewrite H.
Qed.

Lemma verdict_failed (response : json) :
  reports "FAILED" response = true ->
  verdict (inr response)
  = match error_message response with
    | Some message => Raise (Exception message)
    | None => Raise (KeyError "errorMessage")
    end.
Proof.
  intros H. destruct (reports_exclusive response) as (_ & _ & Hex).
  unfold reports, status_of, error_message in *.
  destruct response as [| | | |l|d]; try done. cbn.
  destruct (assoc "status" d) as [st|]; [|done]. rewrite H.
  destruct (eq_str st "FINISHED"); [|done]. specialize (Hex eq_refl). congruence.
Qed.

Lemma outcome_at_inr (rs : list outcome) (n : nat) (response : json) :
  outcome_at rs n = inr response <-> rs !! n = Some (inr response).
Proof.
  unfold outcome_at. destruct (rs !! n) as [o|]; cbn; [|done]. naive_solver.
Qed.

Lemma pending_polls_at (rs : list outcome) (m i : nat) :
  pending_polls m rs -> (i < m)%nat -> is_pending (outcome_at rs i) = true.
Proof.
  intros [Hlen Hall] Hi.
  destruct (lookup_lt_is_Some_2 rs i ltac:(lia)) as [o Ho].
  unfold outcome_at. rewrite Ho. cbn.
  rewrite Forall_forall in Hall.
  assert (Hin : o ∈ take m rs).
  { apply list_elem_of_lookup. exists i. by rewrite lookup_take_lt. }
  specialize (Hall _ Hin). destruct o; [done|]. exact Hall.
Qed.

Lemma pending_polls_S (rs : list outcome) (n : nat) (response : json) :
  pending_polls n rs -> rs !! n = Some (inr response) ->
  reports_pending response = true -> pending_polls (S n) rs.
Proof.
  intros [Hlen Hall] Hn Hp. split.
  - apply lookup_lt_Some in Hn. lia.
  - rewrite (take_S_r _ _ _ Hn). apply Forall_app. split; [done|].
    by apply Forall_singleton.
Qed.

(** The deciding poll is the first one that is not pending, or poll number
    [limit] when all before it were pending. *)
Lemma deciding_poll_unique (rs : list outcome) (limit n n0 : nat) :
  pending_polls n rs -> (n <= limit)%nat ->
  (is_pending (outcome_at rs n) = true -> n = limit) ->
  pending_polls n0 rs -> (n0 <= limit)%nat ->
  (is_pending (outcome_at rs n0) = true -> n0 = limit) ->
  n = n0.
Proof.
  intros Hn Hle Hdec Hn0 Hle0 Hdec0.
  destruct (Nat.lt_trichotomy n n0) as [Hlt|[Heq|Hgt]]; [|done|].
  - pose proof (Hdec (pending_polls_at _ _ _ Hn0 Hlt)). lia.
  - pose proof (Hdec0 (pending_polls_at _ _ _ Hn Hgt)). lia.
Qed.

Lemma _check_rpm_task_status_unfold (task_id : json) :
  _check_rpm_task_status task_id
  = poll_loop 122 (PKG_MGMT_URI +:+ "/" +:+ py_str task_id) 1 120 0.
Proof. reflexivity. Qed.

(** C2, as the code has it. [_check_rpm_task_status] always ends, after at
    most 122 polls and a one-second sleep after each poll but the last.
    It returns the payload exactly when one of the first 122 polls reports
    FINISHED and every earlier poll reported a status other than
    FINISHED/FAILED. A poll that reports FAILED first (with an errorMessage)
    is exactly the case in which it raises [Exception(errorMessage)] out of a
    FAILED answer; 122 polls that all report some other status are exactly
    the case in which it raises [Exception('Max count exceeded')] out of a
    pending answer, the loop counter having passed 120. Both failures are
    the same exception type. *)
Theorem check_rpm_task_status_outcomes (task_id : json) (w : World) :
  exists (calls : list (Request * outcome)) (r : res json) (w' : World),
    _check_rpm_task_status task_id w = (r, w')
    /\ r <> OutOfFuel
    /\ history w' = (history w ++ calls)%list
    /\ (1 <= length calls <= 122)%nat
    /\ Forall (fun c => fst c = poll_request (PKG_MGMT_URI +:+ "/" +:+ py_str task_id)) calls
    /\ slept w' = (slept w ++ replicate (length calls - 1) 1)%list
    /\ (forall payload,
          r = Return payload
          <-> exists n, (n < 122)%nat /\ pending_polls n (responses w)
                        /\ responses w !! n = Some (inr payload)
                        /\ reports "FINISHED" payload = true)
    /\ (forall message,
          (exists n response,
              (n < 122)%nat /\ pending_polls n (responses w)
              /\ responses w !! n = Some (inr response)
              /\ reports "FAILED" response = true
              /\ error_message response = Some message)
          <-> (r = Raise (Exception message)
               /\ exists rq response, last calls = Some (rq, inr response)
                                      /\ reports "FAILED" response = true))
    /\ (pending_polls 122 (responses w)
        <-> (r = Raise (Exception (JStr "Max count exceeded"))
             /\ exists rq response, last calls = Some (rq, inr response)
                                    /\ reports_pending response = true))
    /\ (pending_polls 122 (responses w) -> length calls = 122%nat).
Proof.
  rewrite _check_rpm_task_status_unfold.
  set (uri := PKG_MGMT_URI +:+ "/" +:+ py_str task_id).
  destruct (poll_loop_run uri 1 120 122 0 w ltac:(lia) ltac:(lia))
    as (n & w' & Hrun & Hn & Hpend & Hdec & Hhist & Hsl & _ & _ & _).
  set (rs := responses w) in *. set (o := outcome_at rs n) in *.
  assert (Hn' : (n <= 121)%nat) by lia.
  assert (Hdec' : is_pending o = true -> n = 121%nat) by (intros Hp; specialize (Hdec Hp); lia).
  clear Hn Hdec.
  set (calls := (fun o => (poll_request uri, o)) <$> (take n rs ++ [o])%list) in *.
  assert (Hlen : length calls = S n).
  { subst calls. rewrite length_fmap, length_app, length_take. destruct Hpend. cbn. lia. }
  assert (Hlast : last calls = Some (poll_request uri, o)).
  { subst calls. rewrite fmap_app.
    change ((fun o0 : exn + json => (poll_request uri, o0)) <$> [o])
      with [(poll_request uri, o)].
    apply last_snoc. }
  assert (Huniq : forall n0, (n0 < 122)%nat -> pending_polls n0 rs ->
                             is_pending (outcome_at rs n0) = false -> n = n0).
  { intros n0 Hlt Hp0 Hnp. apply (deciding_poll_unique rs 121); try done; try lia.
    rewrite Hnp. done. }
  exists calls, (verdict o), w'.
  split; [done|]. split; [apply verdict_not_out_of_fuel|]. split; [done|].
  split; [lia|]. split.
  { subst calls. apply Forall_fmap. by apply Forall_true. }
  split; [by rewrite Hsl, Hlen, Nat.sub_1_r|].
  split; [|split; [|split]].
  - intros payload. rewrite verdict_return. split.
    + intros [Ho Hfin]. exists n. split; [lia|]. split; [done|].
      split; [by apply outcome_at_inr|done].
    + intros (n0 & Hlt & Hp0 & Hat & Hfin).
      apply outcome_at_inr in Hat.
      assert (n = n0) as <-.
      { apply Huniq; try done. rewrite Hat. cbn.
        destruct (reports_exclusive payload) as (Hex & _). auto. }
      done.
  - intros message. split.
    + intros (n0 & response & Hlt & Hp0 & Hat & Hfail & Hmsg).
      apply outcome_at_inr in Hat.
      assert (n = n0) as <-.
      { apply Huniq; try done. rewrite Hat. cbn.
        destruct (reports_exclusive response) as (_ & Hex & _). auto. }
      subst o. rewrite Hat, (verdict_failed _ Hfail), Hmsg.
      split; [done|]. exists (poll_request uri), response.
      by rewrite Hlast, Hat.
    + intros [Hr (rq & response & Hl & Hfail)].
      rewrite Hlast in Hl. injection Hl as _ Ho.
      rewrite Ho, (verdict_failed _ Hfail) in Hr.
      exists n, response. split; [lia|]. split; [done|].
      split; [by apply outcome_at_inr|]. split; [done|].
      destruct (error_message response); by simplify_eq.
  - split.
    + intros Hall.
      pose proof (pending_polls_at rs 122 n Hall ltac:(lia)) as Hp.
      specialize (Hdec' Hp). subst n.
      fold o in Hp. destruct o as [e|response] eqn:Ho; [done|]. cbn in Hp.
      rewrite (verdict_pending _ Hp). split; [done|].
      by exists (poll_request uri), response.
    + intros (Hr & rq & response & Hl' & Hp).
      rewrite Hlast in Hl'. injection Hl' as _ Ho.
      assert (n = 121%nat) as -> by (apply Hdec'; by rewrite Ho).
      apply (pending_polls_S rs 121 response); try done.
      by apply outcome_at_inr.
  - intros Hall.
    pose proof (pending_polls_at rs 122 n Hall ltac:(lia)) as Hp.
    specialize (Hdec' Hp). lia.
Qed.

(** C2 as stated fails on two counts. A failed task and a timed-out task can
    raise the very same exception, so the timeout is not distinct from the
    failure; and polls beyond the 120th are still made and honoured: a task
    finishing at poll 122 is returned, after 121 sleeps. *)
Lemma timeout_is_not_distinct_from_failure :
  fst (_check_rpm_task_status (JStr "42") world_failed_task)
  = fst (_check_rpm_task_status (JStr "42") world_slow_task)
  /\ fst (_check_rpm_task_status (JStr "42") world_slow_task)
     = Raise (Exception (JStr "Max count exceeded"))
  /\ fst (_check_rpm_task_status (JStr "42") world_late_finish) = Return finished
  /\ length (history (snd (_check_rpm_task_status (JStr "42") world_late_finish))) = 122%nat
  /\ length (slept (snd (_check_rpm_task_status (JStr "42") world_late_finish))) = 121%nat.
Proof. vm_compute. repeat split. Qed.

(** The scenario of the specification: RUNNING three times, then FINISHED. *)
Example four_polls :
  let w := mkWorld ∅ (replicate 3 (inr running) ++ [inr finished]) [] [] [] in
  _check_rpm_task_status (JStr "42") w
  = (Return finished,
     mkWorld ∅ []
       ((fun o => (poll_request "/mgmt/shared/iapp/package-management-tasks/42", o))
          <$> (replicate 3 (inr running) ++ [inr finished]))
       [1; 1; 1] []).
Proof. vm_compute. reflexivity. Qed.

(** ** The legacy client against the current one *)

Lemma legacy_upload_loop fuel : forall uri max_chunk file_size file_object start_index w,
  Operation.upload_loop fuel uri max_chunk file_size file_object start_index w
  = upload_loop fuel uri max_chunk file_size file_object start_index w.
Proof.
  induction fuel as [|fuel IH]; intros; [done|].
  cbn [Operation.upload_loop upload_loop].
  destruct (file_read max_chunk file_object) as [file_slice file_object'].
  destruct file_slice as [|b0 file_slice]; [done|].
  rewrite !bind_unfold. unfold upload_headers.
  destruct (make_request _ w) as [[j|e|] w1]; [apply IH|done|done].
Qed.

Lemma legacy_upload_rpm (file_name : string) (delete_file : option bool) (w : World) :
  Operation._upload_rpm file_name delete_file w = _upload_rpm file_name delete_file w.
Proof.
  unfold Operation._upload_rpm, _upload_rpm, upload_uri.
  rewrite !bind_unfold.
  destruct (last_item (split "/" file_name) w) as [[base|e|] w1]; [|done|done].
  cbn [ret]. rewrite !bind_unfold.
  destruct (open_rb file_name w1) as [[file_object|e|] w2]; [|done|done].
  destruct (file_read (-1) file_object) as [whole file_object'].
  rewrite !bind_unfold. by rewrite legacy_upload_loop.
Qed.

Lemma legacy_poll_loop fuel : forall uri sleep_secs max_count count w,
  Operation.poll_loop fuel uri sleep_secs max_count count w
  = (status_only (fst (poll_loop fuel uri sleep_secs max_count count w)),
     snd (poll_loop fuel uri sleep_secs max_count count w)).
Proof.
  induction fuel as [|fuel IH]; intros; [done|].
  cbn [Operation.poll_loop poll_loop]. rewrite !bind_unfold.
  destruct (make_request _ w) as [[response|e|] w1]; [|done|done].
  rewrite !bind_unfold.
  destruct (getitem response "status" w1) as [[st|e|] w2] eqn:Hget; [|done|done].
  assert (Hw : w2 = w1 /\ getitem response "status" w1 = (Return st, w1)).
  { unfold getitem, raise, ret in *.
    destruct response as [| | | |l|d]; try discriminate Hget.
    destruct (assoc "status" d); simplify_eq. by split. }
  destruct Hw as [-> Hget'].
  destruct (eq_str st "FINISHED") eqn:Hfin.
  - rewrite Hget'. apply eq_str_eq in Hfin as ->. done.
  - rewrite !bind_unfold, Hget'.
    destruct (eq_str st "FAILED").
    + rewrite !bind_unfold.
      by destruct (getitem response "errorMessage" w1) as [[m|e|] w3].
    + destruct (count >? max_count); [done|].
      rewrite !bind_unfold. cbn [sleep]. apply IH.
Qed.

Lemma legacy_check_rpm_task_status (task_id : json) (w : World) :
  Operation._check_rpm_task_status task_id w
  = (status_only (fst (_check_rpm_task_status task_id w)),
     snd (_check_rpm_task_status task_id w)).
Proof. apply legacy_poll_loop. Qed.

(** C6, as the code has it. The two clients upload alike: same requests,
    same result, same effect on the local files. Their pollers make the same
    polls and sleeps and raise the same exceptions, but where the current one
    returns the whole payload of the FINISHED poll, the legacy one returns
    only its status, the string 'FINISHED'. [_install_rpm], which drops that
    value, is the same in both. *)
Theorem legacy_client_agrees_up_to_poll_result :
  (forall file_name delete_file w,
      Operation._upload_rpm file_name delete_file w = _upload_rpm file_name delete_file w)
  /\ (forall task_id w,
        snd (Operation._check_rpm_task_status task_id w)
        = snd (_check_rpm_task_status task_id w)
        /\ (forall e, fst (Operation._check_rpm_task_status task_id w) = Raise e
                      <-> fst (_check_rpm_task_status task_id w) = Raise e)
        /\ (forall payload,
              fst (_check_rpm_task_status task_id w) = Return payload ->
              reports "FINISHED" payload = true
              /\ fst (Operation._check_rpm_task_status task_id w) = Return (JStr "FINISHED")))
  /\ (forall package_path w,
        Operation._install_rpm package_path w = _install_rpm package_path w).
Proof.
  split; [exact legacy_upload_rpm|]. split.
  - intros task_id w. rewrite legacy_check_rpm_task_status. cbn [fst snd].
    split; [done|]. split.
    + intros e. destruct (fst (_check_rpm_task_status task_id w)); cbn; naive_solver.
    + intros payload Hret. rewrite Hret. split; [|done].
      rewrite _check_rpm_task_status_unfold in Hret.
      destruct (poll_loop_run (PKG_MGMT_URI +:+ "/" +:+ py_str task_id) 1 120 122 0 w
                  ltac:(lia) ltac:(lia)) as (n & w' & Hrun & _).
      rewrite Hrun in Hret. cbn in Hret. by apply verdict_return in Hret as [_ ?].
  - intros package_path w. unfold Operation._install_rpm, _install_rpm.
    rewrite !bind_unfold.
    destruct (make_request _ w) as [[response|e|] w1]; [|done|done].
    rewrite !bind_unfold.
    destruct (getitem response "id" w1) as [[task_id|e|] w2]; [|done|done].
    rewrite !bind_unfold, legacy_check_rpm_task_status.
    destruct (_check_rpm_task_status task_id w2) as [[payload|e|] w3]; done.
Qed.

(** C6 as stated fails: on a task that is FINISHED at the first poll the two
    pollers return different values. *)
Lemma legacy_poller_returns_status_only :
  let w := mkWorld ∅ [inr finished] [] [] [] in
  fst (_check_rpm_task_status (JStr "42") w) = Return (JDict [("status", JStr "FINISHED")])
  /\ fst (Operation._check_rpm_task_status (JStr "42") w) = Return (JStr "FINISHED")
  /\ fst (Operation._check_rpm_task_status (JStr "42") w)
     <> fst (_check_rpm_task_status (JStr "42") w).
Proof. vm_compute. repeat split. discriminate. Qed.

(** ** Submitting a task and waiting for it *)

Lemma verdict_finished (payload : json) :
  reports "FINISHED" payload = true -> verdict (inr payload) = Return payload.
Proof. intros H. by apply verdict_return. Qed.

Lemma check_rpm_task_status_returns (task_id : json) (w : World) (n : nat) (payload : json) :
  (n < 122)%nat ->
  pending_polls n (responses w) ->
  responses w !! n = Some (inr payload) ->
  reports "FINISHED" payload = true ->
  exists w',
    _check_rpm_task_status task_id w = (Return payload, w')
    /\ history w'
       = history w ++ ((fun o => (poll_request (PKG_MGMT_URI +:+ "/" +:+ py_str task_id), o))
                         <$> take (S n) (responses w))
    /\ slept w' = slept w ++ replicate n 1
    /\ responses w' = drop (S n) (responses w)
    /\ fs w' = fs w /\ warnings w' = warnings w.
Proof.
  intros Hn Hpend Hat Hfin. rewrite _check_rpm_task_status_unfold.
  destruct (poll_loop_run (PKG_MGMT_URI +:+ "/" +:+ py_str task_id) 1 120 122 0 w
              ltac:(lia) ltac:(lia))
    as (m & w' & Hrun & Hm & Hpm & Hdec & Hhist & Hsl & Hrs & Hfs & Hwarn).
  assert (m = n) as ->.
  { apply (deciding_poll_unique (responses w) 121); try done; try lia.
    - intros Hp. specialize (Hdec Hp). lia.
    - apply outcome_at_inr in Hat. rewrite Hat. cbn.
      destruct (reports_exclusive payload) as (Hex & _). rewrite (Hex Hfin). done. }
  exists w'. apply outcome_at_inr in Hat as Hat'.
  rewrite Hat' in Hrun, Hhist. rewrite (verdict_finished _ Hfin) in Hrun.
  rewrite (take_S_r _ _ _ Hat). done.
Qed.

(** Submit, read the task id, wait: on a device where the task completes
    this hands the payload of the FINISHED poll to what follows. *)
Lemma submit_and_wait {A} (rq : Request) (k : json -> M A) (w : World) (payload : json) :
  task_completes (responses w) payload ->
  exists w1 submit polls,
    bind (make_request rq)
         (fun response =>
            bind (getitem response "id")
                 (fun task_id => bind (_check_rpm_task_status task_id) k)) w
    = k payload w1
    /\ history w1 = history w ++ (rq, inr submit) :: polls
    /\ snd <$> last polls = Some (inr payload)
    /\ fs w1 = fs w /\ warnings w1 = warnings w.
Proof.
  intros (d & task_id & polls & n & Hrs & Hid & Hn & Hpend & Hat & Hfin).
  rewrite bind_unfold. unfold make_request, next_outcome. rewrite Hrs.
  rewrite bind_unfold. cbn [getitem]. rewrite Hid. cbn [ret].
  set (w0 := record_call rq (inr (JDict d)) w).
  destruct (check_rpm_task_status_returns task_id w0 n payload Hn)
    as (w1 & Hrun & Hhist & _ & _ & Hfs & Hwarn);
    [subst w0; cbn; by rewrite Hrs | subst w0; cbn; by rewrite Hrs | done |].
  rewrite bind_unfold, Hrun.
  eexists w1, (JDict d), _. split; [done|].
  rewrite Hhist. subst w0. cbn [record_call history responses fs warnings] in *.
  rewrite Hrs. cbn [tail]. rewrite <- app_assoc. cbn [app].
  split; [done|]. split; [|done].
  rewrite (take_S_r _ _ _ Hat), fmap_app.
  change ((fun o : exn + json => (poll_request (PKG_MGMT_URI +:+ "/" +:+ py_str task_id), o))
            <$> [inr payload])
    with [(poll_request (PKG_MGMT_URI +:+ "/" +:+ py_str task_id), @inr exn json payload)].
  by rewrite last_snoc.
Qed.

(** ** Uninstall and the dependency warning *)

Lemma _uninstall_rpm_completes (package_name : string) (w : World) (payload : json) :
  task_completes (responses w) payload ->
  exists w1 submit polls,
    _uninstall_rpm package_name w = (Return tt, w1)
    /\ history w1 = history w ++ (uninstall_request package_name, inr submit) :: polls
    /\ snd <$> last polls = Some (inr payload)
    /\ fs w1 = fs w /\ warnings w1 = warnings w.
Proof.
  intros Hdone.
  destruct (submit_and_wait (uninstall_request package_name) (fun _ => ret tt) w payload Hdone)
    as (w1 & submit & polls & Hrun & Hrest).
  exists w1, submit, polls. split; [exact Hrun|exact Hrest].
Qed.

Section Dependencies.
Variable compare_versions : string -> string -> string -> bool.
Variable self : OperationClient.

Lemma filter_length_all {A} (f : A -> bool) (l : list A) :
  (len (List.filter f l) =? len l) = true <-> Forall (fun x => f x = true) l.
Proof.
  unfold len. rewrite Z.eqb_eq, Nat2Z.inj_iff. split.
  - induction l as [|x l IH]; [constructor|]. cbn.
    pose proof (List.filter_length_le f l) as Hle.
    destruct (f x) eqn:Hx; cbn; intros Hlen; [|lia].
    constructor; [done|]. apply IH. lia.
  - induction 1 as [|x l Hx _ IH]; [done|]. cbn. rewrite Hx. cbn. by rewrite IH.
Qed.

Lemma matches_all_iff (dependency : Dependency) :
  (len (matching_constraints compare_versions self dependency) =? len (versions dependency))
  = true
  <-> all_constraints_hold compare_versions self dependency.
Proof. apply filter_length_all. Qed.

(** The loop of [_check_for_dependency] over some dependents, with a logger:
    one warning for each dependent all of whose constraints hold, in order,
    and nothing else changes. *)
Lemma check_dependencies_with_logger (lg : Logger) (deps : list (string * Dependency)) :
  logger self = Some lg ->
  forall w,
    for_each (check_dependency compare_versions self) deps w
    = (Return tt,
       mkWorld (fs w) (responses w) (history w) (slept w)
               (warnings w ++ (warning_of <$> List.filter (warns compare_versions self) deps))).
Proof.
  intros Hlg. induction deps as [|[name dependency] deps IH]; intros w.
  - cbn. rewrite app_nil_r. by destruct w.
  - cbn [for_each List.filter]. rewrite bind_unfold.
    unfold warns at 1, check_dependency at 1. cbn [snd].
    destruct (len (matching_constraints compare_versions self dependency)
              =? len (versions dependency)).
    + rewrite Hlg. cbn [logger_warning]. rewrite IH. cbn. by rewrite <- app_assoc.
    + cbn [ret]. by rewrite IH.
Qed.

(** The same loop without a logger: it stops with an AttributeError at the
    first dependent all of whose constraints hold. *)
Lemma check_dependencies_without_logger (deps : list (string * Dependency)) :
  logger self = None ->
  forall w,
    for_each (check_dependency compare_versions self) deps w
    = (if existsb (warns compare_versions self) deps
       then Raise (AttributeError "'NoneType' object has no attribute 'warning'")
       else Return tt, w).
Proof.
  intros Hlg. induction deps as [|[name dependency] deps IH]; intros w; [done|].
  cbn [for_each existsb]. rewrite bind_unfold.
  unfold warns at 1, check_dependency at 1. cbn [snd].
  destruct (len (matching_constraints compare_versions self dependency)
            =? len (versions dependency)).
  - by rewrite Hlg.
  - cbn [ret orb]. apply IH.
Qed.
End Dependencies.


Lemma warns_iff (compare_versions : string -> string -> string -> bool)
    (self : OperationClient) (item : string * Dependency) :
  warns compare_versions self item = true
  <-> all_constraints_hold compare_versions self (snd item).
Proof. apply matches_all_iff. Qed.

(** C9. An operation client built without the logger keyword has no logger.
    When the device completes the UNINSTALL task and some dependent has all
    its constraints satisfied, [uninstall] does not return: it raises the
    AttributeError of calling [warning] on [None], after the UNINSTALL was
    submitted and polled to FINISHED. *)
Theorem uninstall_without_logger_raises
    (compare_versions : string -> string -> string -> bool)
    (component version : string) (metadata_client : MetadataClient)
    (w : World) (payload : json) (name : string) (dependency : Dependency) :
  let self := __init__ component version metadata_client None in
  task_completes (responses w) payload ->
  (name, dependency) ∈ get_component_dependencies metadata_client ->
  all_constraints_hold compare_versions self dependency ->
  logger self = None
  /\ exists w' submit polls,
      uninstall compare_versions self w
      = (Raise (AttributeError "'NoneType' object has no attribute 'warning'"), w')
      /\ history w'
         = history w ++ (uninstall_request (get_package_name metadata_client), inr submit)
                        :: polls
      /\ snd <$> last polls = Some (inr payload)
      /\ reports "FINISHED" payload = true
      /\ warnings w' = warnings w.
Proof.
  intros self Hdone Hin Hall. split; [reflexivity|].
  destruct (_uninstall_rpm_completes (get_package_name metadata_client) w payload Hdone)
    as (w1 & submit & polls & Hrun & Hhist & Hlast & Hfs & Hwarn).
  exists w1, submit, polls.
  unfold uninstall. change (_metadata_client self) with metadata_client.
  rewrite bind_unfold, Hrun. rewrite bind_unfold. unfold _check_for_dependency.
  change (_metadata_client self) with metadata_client.
  rewrite (check_dependencies_without_logger compare_versions self _ eq_refl).
  assert (Hex : existsb (warns compare_versions self)
                        (get_component_dependencies metadata_client) = true).
  { apply existsb_exists. exists (name, dependency). split.
    - by apply list_elem_of_In.
    - by apply warns_iff. }
  rewrite Hex.
  split; [done|]. split; [done|]. split; [done|]. split; [|done].
  destruct Hdone as (d & task_id & polls' & n & _ & _ & _ & _ & _ & Hfin). exact Hfin.
Qed.

Lemma world_task_finishes_completes : task_completes (responses world_task_finishes) finished.
Proof.
  exists [("id", JStr "42")], (JStr "42"), [inr running; inr finished], 1%nat.
  split; [reflexivity|]. split; [reflexivity|]. split; [lia|].
  split; [split; [cbn; lia|by repeat constructor]|]. split; reflexivity.
Defined.

Lemma uninstall_without_logger_raises_witness :
  task_completes (responses world_task_finishes) finished
  /\ fst (uninstall always_satisfied (__init__ "as3" "3.10.0" as3_metadata None)
            world_task_finishes)
     = Raise (AttributeError "'NoneType' object has no attribute 'warning'").
Proof.
  split; [exact world_task_finishes_completes|].
  destruct (uninstall_without_logger_raises always_satisfied "as3" "3.10.0" as3_metadata
              world_task_finishes finished "do"
              (mkDependency [mkConstraint "3.9.0" ">="] "https://example.com/uninstall-do")
              world_task_finishes_completes)
    as (_ & w' & submit & polls & Hrun & _).
  - constructor.
  - by repeat constructor.
  - by rewrite Hrun.
Defined.

(** C4 fails on the client as it is built by default: the dependent's
    constraint holds, yet no warning is emitted, and instead of returning the
    component and version [uninstall] raises. The UNINSTALL itself was
    submitted and polled to the end. *)
Example uninstall_default_client_raises_instead_of_warning :
  let self := __init__ "as3" "3.10.0" as3_metadata None in
  let run := uninstall always_satisfied self world_task_finishes in
  Forall (all_constraints_hold always_satisfied self)
         (snd <$> get_component_dependencies as3_metadata)
  /\ fst run = Raise (AttributeError "'NoneType' object has no attribute 'warning'")
  /\ warnings (snd run) = []
  /\ length (history (snd run)) = 3%nat.
Proof.
  cbv zeta. split; [by repeat constructor|]. vm_compute. repeat split.
Qed.

(** The same uninstall by a client that was given a logger. *)
Example uninstall_with_logger_warns :
  uninstall always_satisfied (__init__ "as3" "3.10.0" as3_metadata (Some (Some mkLogger)))
            world_task_finishes
  = (Return (mkComponentVersion "as3" "3.10.0"),
     mkWorld ∅ []
       [(uninstall_request "f5-appsvcs-3.10.0-5.noarch", inr (JDict [("id", JStr "42")]));
        (poll_request "/mgmt/shared/iapp/package-management-tasks/42", inr running);
        (poll_request "/mgmt/shared/iapp/package-management-tasks/42", inr finished)]
       [1]
       ["A component package dependency has not been removed: do See documentation for more details: https://example.com/uninstall-do"]).
Proof. vm_compute. reflexivity. Qed.

(** ** Installed-state query *)

Lemma version_pattern_compiles : re_compile version_number_pattern = Some version_regex.
Proof. reflexivity. Qed.

(** Extracting the version does not touch the world. *)
Lemma get_version_number (name : string) (w : World) :
  _get_version_number_from_package_name (JStr name) w
  = (match re_search version_regex name with
     | Some (start, end_) => Return (str_slice name start end_)
     | None => Raise (AttributeError "'NoneType' object has no attribute 'start'")
     end, w).
Proof.
  unfold _get_version_number_from_package_name. rewrite version_pattern_compiles.
  by destruct (re_search version_regex name) as [[start end_]|].
Qed.

Lemma package_name_of_getitem (i : json) (name : string) (w : World) :
  package_name_of i = Some name -> getitem i "packageName" w = (Return (JStr name), w).
Proof.
  unfold package_name_of, getitem. destruct i as [| | | |l|d]; try done.
  destruct (assoc "packageName" d) as [[| | |s| |]|]; try done. by intros [= ->].
Qed.

(** On entries that all carry a package name, the comprehension of
    [_check_rpm_exists] is the filter on the substring test. *)
Lemma comprehension_matching (cpn : string) (items : list json) :
  Forall (fun i => is_Some (package_name_of i)) items ->
  forall w,
    comprehension
      (fun i => let! name := getitem i "packageName" in py_in cpn name) items w
    = (Return (matching_packages cpn items), w).
Proof.
  induction 1 as [|i items [name Hname] _ IH]; intros w; [done|].
  cbn [comprehension matching_packages List.filter]. rewrite Hname.
  rewrite bind_unfold. rewrite bind_unfold.
  rewrite (package_name_of_getitem _ _ _ Hname). cbn [py_in ret].
  rewrite bind_unfold, IH. cbn [ret]. by destruct (contains cpn name).
Qed.

(** [_check_rpm_exists] on a device that completes the QUERY with a list of
    entries that all carry a package name: the version of the only match, or
    the empty string when there is no match or more than one. *)
Lemma _check_rpm_exists_run (cpn : string) (w : World) (payload : json) (items : list json) :
  task_completes (responses w) payload ->
  query_response_of payload = Some (JList items) ->
  Forall (fun i => is_Some (package_name_of i)) items ->
  exists w1 submit polls,
    history w1 = history w ++ (query_request, inr submit) :: polls
    /\ fs w1 = fs w /\ warnings w1 = warnings w
    /\ _check_rpm_exists cpn w
       = match matching_packages cpn items with
         | [pkg] =>
             match package_name_of pkg with
             | Some name => _get_version_number_from_package_name (JStr name) w1
             | None => (Raise TypeError, w1)
             end
         | _ => (Return "", w1)
         end.
Proof.
  intros Hdone Hq Hwf.
  unfold _check_rpm_exists.
  destruct (submit_and_wait query_request
              (fun response =>
                 let! query_response := getitem response "queryResponse" in
                 let! items := py_iter query_response in
                 let! matching_packages :=
                   comprehension
                     (fun i => let! name := getitem i "packageName" in py_in cpn name)
                     items in
                 if len matching_packages =? 1 then
                   let! first := first_item matching_packages in
                   let! name := getitem first "packageName" in
                   _get_version_number_from_package_name name
                 else ret "") w payload Hdone)
    as (w1 & submit & polls & Hrun & Hhist & _ & Hfs & Hwarn).
  exists w1, submit, polls. split; [done|]. split; [done|]. split; [done|].
  fold query_request. rewrite Hrun. clear Hrun. cbv beta.
  rewrite bind_unfold.
  unfold query_response_of in Hq. destruct payload as [| | | |l|d]; try done.
  cbn [getitem]. rewrite Hq. cbn [ret]. rewrite bind_unfold. cbn [py_iter ret].
  rewrite bind_unfold, (comprehension_matching cpn items Hwf).
  assert (Hsub : Forall (fun i => is_Some (package_name_of i)) (matching_packages cpn items)).
  { apply Forall_forall. intros i Hi. rewrite Forall_forall in Hwf. apply Hwf.
    apply list_elem_of_In in Hi. apply filter_In in Hi as [Hi _]. by apply list_elem_of_In. }
  destruct (matching_packages cpn items) as [|pkg [|pkg' rest]]; [done| |].
  - cbn [ret]. change (len [pkg] =? 1) with true. cbv iota.
    rewrite bind_unfold. cbn [first_item ret].
    apply Forall_cons in Hsub as [[name Hname] _]. rewrite Hname.
    rewrite bind_unfold. by rewrite (package_name_of_getitem _ _ _ Hname).
  - assert (Hlen : (len (pkg :: pkg' :: rest) =? 1) = false).
    { apply Z.eqb_neq. unfold len. cbn [length]. lia. }
    cbn [ret]. by rewrite Hlen.
Qed.

(** ** The version pattern *)

Lemma match_here_plus_cons (a : atom) (re : regex) (c : ascii) (s : string) :
  match_here (Plus a :: re) (String c s)
  = if atom_matches a c then
      match match_here (Plus a :: re) s with
      | Some n => Some (S n)
      | None => S <$> match_here re s
      end
    else None.
Proof. reflexivity. Qed.

Lemma match_here_plus_empty (a : atom) (re : regex) : match_here (Plus a :: re) "" = None.
Proof. reflexivity. Qed.

(** The matcher is sound: what it finds is a prefix that matches. *)
Lemma match_here_sound (re : regex) : forall (s : string) (n : nat),
  match_here re s = Some n ->
  exists p rest, s = p +:+ rest /\ String.length p = n /\ matches re p.
Proof.
  induction re as [|[a|a] re IH]; intros s n Hm.
  - cbn in Hm. injection Hm as <-. exists "", s. repeat split. constructor.
  - destruct s as [|c s]; [done|]. cbn in Hm.
    destruct (atom_matches a c) eqn:Ha; [|done].
    destruct (match_here re s) as [m|] eqn:Hre; [|done]. injection Hm as <-.
    destruct (IH s m Hre) as (p & rest & -> & <- & Hp).
    exists (String c p), rest. repeat split. by constructor.
  - revert n Hm. induction s as [|c s IHs]; intros n Hm; [done|].
    rewrite match_here_plus_cons in Hm.
    destruct (atom_matches a c) eqn:Ha; [|done].
    destruct (match_here (Plus a :: re) s) as [m|] eqn:Hmore.
    + injection Hm as <-. destruct (IHs m eq_refl) as (p & rest & Hs & <- & Hp).
      exists (String c p), rest. cbn. rewrite Hs at 1. repeat split.
      by apply matches_plus_more.
    + destruct (match_here re s) as [m|] eqn:Hre; [|done]. injection Hm as <-.
      destruct (IH s m Hre) as (p & rest & -> & <- & Hp).
      exists (String c p), rest. repeat split. by apply matches_plus_last.
Qed.

(** The matcher is complete: if some prefix matches, it finds a match. *)
Lemma match_here_complete (re : regex) (p : string) :
  matches re p -> forall rest, is_Some (match_here re (p +:+ rest)).
Proof.
  induction 1 as [|a c re s Ha _ IH|a c re s Ha _ IH|a c re s Ha _ IH]; intros rest.
  - by eexists.
  - change (String c s +:+ rest) with (String c (s +:+ rest)).
    cbn [match_here]. rewrite Ha. destruct (IH rest) as [n ->]. by eexists.
  - change (String c s +:+ rest) with (String c (s +:+ rest)).
    rewrite match_here_plus_cons, Ha.
    destruct (match_here (Plus a :: re) (s +:+ rest)); [by eexists|].
    destruct (IH rest) as [n ->]. by eexists.
  - change (String c s +:+ rest) with (String c (s +:+ rest)).
    rewrite match_here_plus_cons, Ha.
    destruct (IH rest) as [n ->]. by eexists.
Qed.

(** The search fails exactly on the strings none of whose substrings
    matches. *)
Lemma search_from_none (re : regex) (s : string) : forall i,
  search_from re s i = None
  <-> forall pre mid post, s = pre +:+ mid +:+ post -> ~ matches re mid.
Proof.
  induction s as [|c s IH]; intros i; cbn [search_from].
  - destruct (match_here re "") as [n|] eqn:Hm.
    + split; [done|]. intros Hno. exfalso.
      destruct (match_here_sound re "" n Hm) as (p & rest & Hs & _ & Hp).
      apply (Hno "" p rest); [exact Hs|exact Hp].
    + split; [|done]. intros _ pre mid post Hs Hmid.
      destruct pre; [|discriminate Hs]. destruct mid; [|discriminate Hs].
      destruct (match_here_complete re "" Hmid "") as [n Hn].
      change ("" +:+ "") with "" in Hn. congruence.
  - destruct (match_here re (String c s)) as [n|] eqn:Hm.
    + split; [done|]. intros Hno. exfalso.
      destruct (match_here_sound re _ n Hm) as (p & rest & Hs & _ & Hp).
      apply (Hno "" p rest); [exact Hs|exact Hp].
    + rewrite IH. split.
      * intros Hno pre mid post Hs Hmid. destruct pre as [|c' pre].
        -- change ("" +:+ mid +:+ post) with (mid +:+ post) in Hs.
           destruct (match_here_complete re mid Hmid post) as [n Hn].
           rewrite <- Hs in Hn. congruence.
        -- change (String c' pre +:+ mid +:+ post)
             with (String c' (pre +:+ mid +:+ post)) in Hs.
           injection Hs as -> Hs. by apply (Hno pre mid post).
      * intros Hno pre mid post Hs. apply (Hno (String c pre) mid post). cbn. by rewrite Hs.
Qed.

Lemma re_search_none (re : regex) (s : string) :
  re_search re s = None
  <-> forall pre mid post, s = pre +:+ mid +:+ post -> ~ matches re mid.
Proof. apply search_from_none. Qed.

Lemma string_length_app (s1 s2 : string) :
  String.length (s1 +:+ s2) = (String.length s1 + String.length s2)%nat.
Proof. induction s1 as [|c s1 IH]; simpl; [done|]. by rewrite IH. Qed.

Lemma string_app_nil (s : string) : s +:+ "" = s.
Proof.
  induction s as [|c s IH]; [done|].
  change (String c s +:+ "") with (String c (s +:+ "")). by rewrite IH.
Qed.

Lemma substring_prefix (p rest : string) : substring 0 (String.length p) (p +:+ rest) = p.
Proof.
  induction p as [|c p IHp]; [by destruct rest|]. simpl. by rewrite IHp.
Qed.

(** What the search returns is a substring that matches. *)
Lemma search_from_some (re : regex) (s : string) : forall i start end_,
  search_from re s i = Some (start, end_) ->
  (i <= start)%nat /\ (start <= end_)%nat /\ (end_ <= i + String.length s)%nat
  /\ matches re (substring (start - i) (end_ - start) s).
Proof.
  induction s as [|c s IH]; intros i start end_; cbn [search_from].
  - destruct (match_here re "") as [n|] eqn:Hm; [|done]. intros [= <- <-].
    destruct (match_here_sound re "" n Hm) as (p & rest & Hs & <- & Hp).
    destruct p; [|done]. cbn. replace (i - i)%nat with 0%nat by lia.
    repeat split; try lia. replace (i + 0 - i)%nat with 0%nat by lia. done.
  - destruct (match_here re (String c s)) as [n|] eqn:Hm.
    + intros [= <- <-].
      destruct (match_here_sound re _ n Hm) as (p & rest & Hs & <- & Hp).
      rewrite Hs. replace (i - i)%nat with 0%nat by lia.
      replace (i + String.length p - i)%nat with (String.length p) by lia.
      repeat split; try lia.
      * rewrite string_length_app. lia.
      * by rewrite substring_prefix.
    + intros Hs. destruct (IH _ _ _ Hs) as (Hi & Hse & He & Hmatch).
      repeat split; try lia. 
      * cbn. lia.
      * replace (start - i)%nat with (S (start - S i)) by lia. exact Hmatch.
Qed.

Lemma matches_nonempty (it : item) (re : regex) (s : string) :
  matches (it :: re) s -> s <> "".
Proof. by inversion 1. Qed.

(** A run of characters accepted by [a], then something matching the rest,
    matches [a+] followed by the rest. *)
Lemma matches_plus_run (a : atom) (re : regex) (c : ascii) (run rest : string) :
  atom_matches a c = true ->
  forallb (atom_matches a) (list_ascii_of_string run) = true ->
  matches re rest ->
  matches (Plus a :: re) (String c run +:+ rest).
Proof.
  revert c. induction run as [|c' run IH]; intros c Hc Hrun Hrest.
  - by apply matches_plus_last.
  - cbn in Hrun. apply andb_prop in Hrun as [Hc' Hrun].
    change (String c (String c' run) +:+ rest) with (String c (String c' run +:+ rest)).
    apply matches_plus_more; [done|]. by apply IH.
Qed.

(** The pattern accepts every dotted version, and it accepts any other
    character, but a newline, in the place of either dot. *)
Lemma separated_digits_match (d1 d2 d3 : string) (c1 c2 : ascii) :
  digits d1 -> digits d2 -> digits d3 ->
  c1 <> "010"%char -> c2 <> "010"%char ->
  matches version_regex (d1 +:+ String c1 (d2 +:+ String c2 d3)).
Proof.
  intros [H1 Hd1] [H2 Hd2] [H3 Hd3] Hc1 Hc2.
  destruct d1 as [|a1 d1]; [done|]. destruct d2 as [|a2 d2]; [done|].
  destruct d3 as [|a3 d3]; [done|]. cbn in Hd1, Hd2, Hd3.
  apply andb_prop in Hd1 as [Ha1 Hd1]. apply andb_prop in Hd2 as [Ha2 Hd2].
  apply andb_prop in Hd3 as [Ha3 Hd3].
  assert (Hany : forall c, c <> "010"%char -> atom_matches AnyChar c = true).
  { intros c Hc. cbn. apply negb_true_iff. by apply Ascii.eqb_neq. }
  apply matches_plus_run; [done|done|]. apply matches_one; [by apply Hany|].
  apply matches_plus_run; [done|done|]. apply matches_one; [by apply Hany|].
  rewrite <- (string_app_nil (String a3 d3)).
  apply matches_plus_run; [done|done|constructor].
Qed.

(** X19. [is_installed] on a device that completes the QUERY with entries
    that all carry a package name, when the number of matching entries is not
    one: not installed, with an empty installed version and the latest
    version of the metadata, whatever the number. *)
Lemma is_installed_not_found (self : OperationClient) (w : World) (payload : json)
    (items : list json) :
  task_completes (responses w) payload ->
  query_response_of payload = Some (JList items) ->
  Forall (fun i => is_Some (package_name_of i)) items ->
  length (matching_packages (get_component_package_name (_metadata_client self)) items)
  <> 1%nat ->
  exists w',
    is_installed self w
    = (Return (mkVersionData false "" (get_latest_version (_metadata_client self))), w').
Proof.
  intros Hdone Hq Hwf Hn.
  destruct (_check_rpm_exists_run (get_component_package_name (_metadata_client self))
              w payload items Hdone Hq Hwf) as (w1 & submit & polls & _ & _ & _ & Hrun).
  exists w1. unfold is_installed. rewrite bind_unfold, Hrun.
  by destruct (matching_packages _ items) as [|pkg [|pkg' rest]].
Qed.

(** X20. [is_installed] on a device that completes the QUERY with entries
    that all carry a package name, when exactly one entry matches and the
    pattern finds a match in its package name: installed, with the matched
    substring, which matches the pattern, as installed version. *)
Lemma is_installed_found (self : OperationClient) (w : World) (payload : json)
    (items : list json) (pkg : json) (name : string) (start end_ : nat) :
  task_completes (responses w) payload ->
  query_response_of payload = Some (JList items) ->
  Forall (fun i => is_Some (package_name_of i)) items ->
  matching_packages (get_component_package_name (_metadata_client self)) items = [pkg] ->
  package_name_of pkg = Some name ->
  re_search version_regex name = Some (start, end_) ->
  matches version_regex (str_slice name start end_)
  /\ exists w',
      is_installed self w
      = (Return (mkVersionData true (str_slice name start end_)
                   (get_latest_version (_metadata_client self))), w').
Proof.
  intros Hdone Hq Hwf Hone Hname Hsearch.
  destruct (search_from_some _ _ _ _ _ Hsearch) as (_ & _ & _ & Hm).
  rewrite Nat.sub_0_r in Hm.
  change (substring start (end_ - start) name) with (str_slice name start end_) in Hm.
  split; [exact Hm|].
  destruct (_check_rpm_exists_run (get_component_package_name (_metadata_client self))
              w payload items Hdone Hq Hwf) as (w1 & submit & polls & _ & _ & _ & Hrun).
  exists w1. unfold is_installed. rewrite bind_unfold, Hrun, Hone, Hname.
  rewrite get_version_number, Hsearch. cbn [ret].
  apply matches_nonempty in Hm. apply String.eqb_neq in Hm. by rewrite Hm.
Qed.

(** C10. When the QUERY completes and exactly one entry's package name
    contains the component's package name, but no substring of that name
    matches the version pattern (digits, a character, digits, a character,
    digits), [is_installed] does not answer "not installed": the search gives
    [None], whose [start] is asked for, and the AttributeError comes out of
    [is_installed]. *)
Theorem is_installed_raises_without_version (self : OperationClient) (w : World)
    (payload : json) (items : list json) (pkg : json) (name : string) :
  task_completes (responses w) payload ->
  query_response_of payload = Some (JList items) ->
  Forall (fun i => is_Some (package_name_of i)) items ->
  matching_packages (get_component_package_name (_metadata_client self)) items = [pkg] ->
  package_name_of pkg = Some name ->
  (forall pre mid post, name = pre +:+ mid +:+ post -> ~ matches version_regex mid) ->
  re_search version_regex name = None
  /\ exists w',
      is_installed self w
      = (Raise (AttributeError "'NoneType' object has no attribute 'start'"), w').
Proof.
  intros Hdone Hq Hwf Hone Hname Hno.
  apply re_search_none in Hno. split; [exact Hno|].
  destruct (_check_rpm_exists_run (get_component_package_name (_metadata_client self))
              w payload items Hdone Hq Hwf) as (w1 & submit & polls & _ & _ & _ & Hrun).
  exists w1. unfold is_installed. rewrite bind_unfold, Hrun, Hone, Hname.
  by rewrite get_version_number, Hno.
Qed.

Lemma world_query_completes (names : list string) :
  task_completes (responses (world_query names)) (query_payload names).
Proof.
  exists [("id", JStr "42")], (JStr "42"), [inr running; inr (query_payload names)], 1%nat.
  split; [reflexivity|]. split; [reflexivity|]. split; [lia|].
  split; [split; [cbn; lia|by repeat constructor]|]. split; reflexivity.
Defined.

Lemma is_installed_raises_without_version_witness :
  re_search version_regex "f5-appsvcs-latest.noarch" = None
  /\ exists w',
      is_installed as3_client (world_query ["f5-declarative-onboarding-1.3.0-5.noarch";
                                            "f5-appsvcs-latest.noarch"])
      = (Raise (AttributeError "'NoneType' object has no attribute 'start'"), w').
Proof.
  apply (is_installed_raises_without_version as3_client
           (world_query ["f5-declarative-onboarding-1.3.0-5.noarch";
                         "f5-appsvcs-latest.noarch"])
           (query_payload ["f5-declarative-onboarding-1.3.0-5.noarch";
                           "f5-appsvcs-latest.noarch"])
           ((fun n => JDict [("packageName", JStr n)])
              <$> ["f5-declarative-onboarding-1.3.0-5.noarch"; "f5-appsvcs-latest.noarch"])
           (JDict [("packageName", JStr "f5-appsvcs-latest.noarch")])
           "f5-appsvcs-latest.noarch").
  - apply world_query_completes.
  - reflexivity.
  - repeat constructor; by eexists.
  - vm_compute. reflexivity.
  - reflexivity.
  - apply re_search_none. vm_compute. reflexivity.
Defined.

Lemma list_ascii_of_string_app (s1 s2 : string) :
  list_ascii_of_string (s1 +:+ s2) = list_ascii_of_string s1 ++ list_ascii_of_string s2.
Proof.
  induction s1 as [|c s1 IH]; [done|].
  change (String c s1 +:+ s2) with (String c (s1 +:+ s2)). cbn. by rewrite IH.
Qed.

(** A dotted version holds nothing but digits and dots. *)
Lemma dotted_version_chars (s : string) :
  dotted_version s -> forallb digit_or_dot (list_ascii_of_string s) = true.
Proof.
  intros (d1 & d2 & d3 & [_ H1] & [_ H2] & [_ H3] & ->).
  assert (Hd : forall d, forallb (atom_matches (Range "0" "9")) (list_ascii_of_string d) = true
                         -> forallb digit_or_dot (list_ascii_of_string d) = true).
  { intros d Hd. rewrite forallb_forall in *. intros c Hc. unfold digit_or_dot.
    by rewrite (Hd c Hc). }
  rewrite !list_ascii_of_string_app, !forallb_app.
  rewrite (Hd _ H1), (Hd _ H2), (Hd _ H3). reflexivity.
Qed.

(** A dotted version matches the pattern. *)
Lemma dotted_version_matches (s : string) : dotted_version s -> matches version_regex s.
Proof.
  intros (d1 & d2 & d3 & H1 & H2 & H3 & ->).
  by apply (separated_digits_match d1 d2 d3 "." ".").
Qed.

(** C5 fails on a query response with exactly one matching entry whose
    package name carries no version the pattern can find: [is_installed]
    neither reports the package installed nor reports it not installed, and
    the latest version is never looked up; an AttributeError comes out. *)
Example is_installed_raises_on_single_match :
  length (matching_packages (get_component_package_name as3_metadata)
            [JDict [("packageName", JStr "f5-appsvcs-3.10.noarch")]]) = 1%nat
  /\ is_installed as3_client (world_query ["f5-appsvcs-3.10.noarch"])
     = (Raise (AttributeError "'NoneType' object has no attribute 'start'"),
        mkWorld ∅ []
          [(query_request, inr (JDict [("id", JStr "42")]));
           (poll_request "/mgmt/shared/iapp/package-management-tasks/42", inr running);
           (poll_request "/mgmt/shared/iapp/package-management-tasks/42",
            inr (query_payload ["f5-appsvcs-3.10.noarch"]))]
          [1] []).
Proof. split; vm_compute; reflexivity. Qed.

(** The cases of C5 that hold: no match, two matches, one match. *)
Example is_installed_no_match :
  fst (is_installed as3_client (world_query ["f5-declarative-onboarding-1.3.0-5.noarch"]))
  = Return (mkVersionData false "" "3.10.0").
Proof. vm_compute. reflexivity. Qed.

Example is_installed_two_matches :
  fst (is_installed as3_client
         (world_query ["f5-appsvcs-3.10.0-5.noarch"; "f5-appsvcs-3.9.0-3.noarch"]))
  = Return (mkVersionData false "" "3.10.0").
Proof. vm_compute. reflexivity. Qed.

Example is_installed_one_match :
  fst (is_installed as3_client
         (world_query ["f5-declarative-onboarding-1.3.0-5.noarch";
                       "f5-appsvcs-3.9.0-3.noarch"]))
  = Return (mkVersionData true "3.9.0" "3.10.0").
Proof. vm_compute. reflexivity. Qed.

(** C8 fails on a package name whose version has two numeric groups before
    the release number: the dots of the pattern accept any character, the
    hyphen is taken for the second one, and the version reported is not of
    the form N.N.N. *)
Example is_installed_reports_undotted_version :
  fst (is_installed as3_client (world_query ["f5-appsvcs-3.10-5.noarch"]))
  = Return (mkVersionData true "3.10-5" "3.10.0")
  /\ matches version_regex "3.10-5"
  /\ ~ dotted_version "3.10-5".
Proof.
  split; [vm_compute; reflexivity|]. split.
  - apply (separated_digits_match "3" "10" "5" "." "-"); by repeat split.
  - intros Hd. apply dotted_version_chars in Hd. vm_compute in Hd. discriminate Hd.
Qed.

(** * Further properties *)

(** ** Chunked upload, continued *)

Lemma slice_app (data : list byte) (a m b : Z) :
  0 <= a <= m -> m <= b -> slice data a m ++ slice data m b = slice data a b.
Proof.
  intros Ham Hmb. unfold slice.
  replace (Z.to_nat m) with (Z.to_nat a + Z.to_nat (m - a))%nat by lia.
  rewrite <- drop_drop.
  replace (Z.to_nat (b - a)) with (Z.to_nat (m - a) + Z.to_nat (b - m))%nat by lia.
  by rewrite take_take_drop.
Qed.

Lemma tiles_app (l1 l2 : list (Z * Z)) : forall a b,
  tiles a b (l1 ++ l2) <-> exists m, tiles a m l1 /\ tiles m b l2.
Proof.
  induction l1 as [|rg l1 IH]; intros a b; cbn.
  - split; [intros H; by exists a|]. by intros (m & -> & H).
  - rewrite IH. split.
    + intros (Ha & Hlt & m & H1 & H2). exists m. by repeat split.
    + intros (m & (Ha & Hlt & H1) & H2). repeat split; try done. by exists m.
Qed.

(** The slices of consecutive ranges, put end to end, are the slice of what
    the ranges cover. *)
Lemma tiles_concat (data : list byte) (ranges : list (Z * Z)) : forall a b,
  0 <= a -> tiles a b ranges ->
  concat (map (fun rg => slice data (fst rg) (snd rg)) ranges) = slice data a b.
Proof.
  induction ranges as [|[s e] ranges IH]; intros a b Ha Ht; cbn in *.
  - subst b. unfold slice. by rewrite Z.sub_diag.
  - destruct Ht as (-> & Hlt & Ht). rewrite (IH e b) by (done || lia).
    apply tiles_bounds in Ht as [Hle _]. apply slice_app; lia.
Qed.

Lemma slice_whole (data : list byte) : slice data 0 (len data) = data.
Proof.
  unfold slice, len. rewrite Z.sub_0_r, Nat2Z.id. cbn. by rewrite firstn_all.
Qed.

Lemma acknowledged_all (rqs : list Request) (js : list json) :
  length js = length rqs ->
  acknowledged_bytes (zip rqs (inr <$> js)) = concat (map body_bytes rqs).
Proof.
  unfold acknowledged_bytes. revert js.
  induction rqs as [|rq rqs IH]; intros [|j js] Hlen; try done.
  cbn in *. f_equal. apply IH. lia.
Qed.

Lemma acknowledged_but_last (rqs : list Request) (rq : Request) (js : list json) (e : exn) :
  length js = length rqs ->
  acknowledged_bytes (zip (rqs ++ [rq]) ((inr <$> js) ++ [inl e]))
  = concat (map body_bytes rqs).
Proof.
  unfold acknowledged_bytes. revert js.
  induction rqs as [|rq0 rqs IH]; intros [|j js] Hlen; try done.
  cbn in *. f_equal. apply IH. lia.
Qed.

(** X1. The bytes the device acknowledged during an upload are always a
    prefix of the file, taken chunk by chunk from its start, and they are
    the whole file exactly when [_upload_rpm] returns. *)
Theorem upload_acknowledged_bytes_are_the_file (w : World) (file_name : string)
    (delete_file : option bool) (data : list byte) :
  fs w !! file_name = Some data ->
  exists (calls : list (Request * outcome)) (r : res unit) (w' : World),
    _upload_rpm file_name delete_file w = (r, w')
    /\ history w' = history w ++ calls
    /\ acknowledged_bytes calls `prefix_of` data
    /\ (r = Return tt <-> acknowledged_bytes calls = data).
Proof.
  intros Hfile.
  destruct (_upload_rpm_run w file_name delete_file data Hfile)
    as (ranges & outs & b & r & w' & Hrun & Hhist & Hlen & Htiles & Hb & _ & Hres).
  set (uri := upload_target file_name) in *.
  exists (zip (chunk_request uri data <$> ranges) outs), r, w'.
  split; [done|]. split; [done|].
  assert (Hbodies : forall rs : list (Z * Z),
             concat (map body_bytes (chunk_request uri data <$> rs))
             = concat (map (fun rg => slice data (fst rg) (snd rg)) rs)).
  { intros rs. f_equal. unfold fmap. rewrite map_map. done. }
  destruct Hres as [(js & -> & -> & -> & _)|(e & js & -> & -> & _)].
  - rewrite length_fmap in Hlen.
    rewrite acknowledged_all by (by rewrite length_fmap).
    rewrite Hbodies, (tiles_concat data ranges 0 (len data)) by (done || lia).
    rewrite slice_whole. split; [done|]. done.
  - rewrite length_app, length_fmap in Hlen. cbn in Hlen.
    destruct (decide (ranges = [])) as [->|Hne]; [cbn in Hlen; lia|].
    destruct (exists_last Hne) as (ranges0 & rg & ->).
    rewrite length_app in Hlen. cbn in Hlen.
    rewrite fmap_app. cbn [fmap list_fmap].
    rewrite acknowledged_but_last by (rewrite length_fmap; lia).
    apply tiles_app in Htiles as (m & Ht0 & Ht1). cbn in Ht1.
    destruct Ht1 as (Hs & Hlt & Hb').
    pose proof (tiles_bounds _ _ _ Ht0) as [Hm _].
    rewrite Hbodies, (tiles_concat data ranges0 0 m) by (done || lia).
    assert (Hslice : slice data 0 m = take (Z.to_nat m) data).
    { unfold slice. by rewrite Z.sub_0_r. }
    rewrite Hslice. split; [apply prefix_take|]. split; [done|].
    intros Heq. apply (f_equal length) in Heq. rewrite length_take in Heq.
    unfold len in *. lia.
Qed.

Lemma upload_acknowledged_bytes_are_the_file_witness :
  fs world_failing_upload !! tmp_rpm = Some rpm_2_5_MiB
  /\ exists calls r w',
       _upload_rpm tmp_rpm None world_failing_upload = (r, w')
       /\ acknowledged_bytes calls `prefix_of` rpm_2_5_MiB.
Proof.
  assert (Hfile : fs world_failing_upload !! tmp_rpm = Some rpm_2_5_MiB)
    by apply lookup_singleton_eq.
  split; [exact Hfile|].
  destruct (upload_acknowledged_bytes_are_the_file world_failing_upload tmp_rpm None
              rpm_2_5_MiB Hfile) as (calls & r & w' & Hrun & _ & Hpre & _).
  exists calls, r, w'. split; [exact Hrun|exact Hpre].
Defined.

Lemma upload_missing_file_raises_aux (w : World) (file_name : string)
    (delete_file : option bool) :
  fs w !! file_name = None ->
  _upload_rpm file_name delete_file w = (Raise (FileNotFoundError file_name), w).
Proof.
  intros Hnone. unfold _upload_rpm.
  rewrite bind_unfold, upload_uri_ok. rewrite bind_unfold. unfold open_rb. by rewrite Hnone.
Qed.

(** X2. Uploading a file that does not exist raises FileNotFoundError before
    anything is sent: the world is left as it was. *)
Theorem upload_missing_file_raises (w : World) (file_name : string)
    (delete_file : option bool) :
  fs w !! file_name = None ->
  _upload_rpm file_name delete_file w = (Raise (FileNotFoundError file_name), w).
Proof. apply upload_missing_file_raises_aux. Qed.

Lemma upload_missing_file_raises_witness :
  fs world_task_finishes !! tmp_rpm = None
  /\ _upload_rpm tmp_rpm None world_task_finishes
     = (Raise (FileNotFoundError tmp_rpm), world_task_finishes).
Proof.
  split; [reflexivity|]. apply upload_missing_file_raises. reflexivity.
Defined.

(** X3. An empty file is uploaded without a single request: [_upload_rpm]
    returns at once, and with [delete_file] true the local file is removed
    although the device never heard of it. *)
Theorem upload_empty_file_sends_nothing (w : World) (file_name : string)
    (delete_file : option bool) :
  fs w !! file_name = Some [] ->
  _upload_rpm file_name delete_file w
  = (Return tt,
     mkWorld (if default true delete_file then delete file_name (fs w) else fs w)
             (responses w) (history w) (slept w) (warnings w)).
Proof.
  intros Hfile. rewrite (_upload_rpm_unfold _ _ [] w Hfile), bind_unfold.
  cbn [length]. rewrite (upload_loop_eof _ (1024 * 1024) [] ltac:(lia)) by (cbn; lia).
  destruct (default true delete_file).
  - unfold os_remove. by rewrite Hfile.
  - by destruct w.
Qed.

Lemma upload_empty_file_sends_nothing_witness :
  let w := mkWorld {[ tmp_rpm := [] ]} [inr JNone] [] [] [] in
  fs w !! tmp_rpm = Some []
  /\ _upload_rpm tmp_rpm None w = (Return tt, mkWorld (delete tmp_rpm {[ tmp_rpm := [] ]}) [inr JNone] [] [] []).
Proof.
  cbv zeta. split; [apply lookup_singleton_eq|].
  exact (upload_empty_file_sends_nothing (mkWorld {[ tmp_rpm := [] ]} [inr JNone] [] [] [])
           tmp_rpm None (lookup_singleton_eq _ _)).
Defined.

(** The loop of the upload changes nothing but the transport: it uses up one
    answer per call it makes and leaves files, sleeps and warnings alone. *)
Lemma upload_loop_frame fuel : forall target max_chunk file_size file_object start_index w,
  let w' := snd (upload_loop fuel target max_chunk file_size file_object start_index w) in
  exists k : nat,
    length (history w') = (length (history w) + k)%nat
    /\ responses w' = drop k (responses w)
    /\ fs w' = fs w /\ slept w' = slept w /\ warnings w' = warnings w.
Proof.
  induction fuel as [|fuel IH];
    intros target max_chunk file_size file_object start_index w w'; subst w'.
  - exists 0%nat. cbn. by rewrite Nat.add_0_r.
  - cbn [upload_loop].
    destruct (file_read max_chunk file_object) as [file_slice file_object'].
    destruct file_slice as [|b0 file_slice].
    { exists 0%nat. cbn. by rewrite Nat.add_0_r. }
    rewrite bind_unfold. unfold make_request.
    set (rq := mkRequest _ _ _ _ _).
    destruct (next_outcome w) as [e|j].
    + exists 1%nat. cbn. rewrite length_app, tail_drop. done.
    + destruct (IH target max_chunk file_size file_object'
                  (start_index + len (b0 :: file_slice)) (record_call rq (inr j) w))
        as (k & Hh & Hr & Hf & Hs & Hw).
      exists (S k). rewrite Hh, Hr, Hf, Hs, Hw. cbn.
      rewrite length_app, tail_drop, drop_drop. cbn. repeat split; try done; lia.
Qed.

(** X4. Whatever happens, [_upload_rpm] touches no file but the one it
    uploads, never sleeps and never logs; it uses up exactly one answer of
    the device per request it makes; and with [delete_file] false it leaves
    the local files exactly as they were. *)
Theorem upload_leaves_the_rest_alone (w : World) (file_name : string)
    (delete_file : option bool) :
  let w' := snd (_upload_rpm file_name delete_file w) in
  (forall other, other <> file_name -> fs w' !! other = fs w !! other)
  /\ (delete_file = Some false -> fs w' = fs w)
  /\ slept w' = slept w
  /\ warnings w' = warnings w
  /\ exists k : nat,
      length (history w') = (length (history w) + k)%nat
      /\ responses w' = drop k (responses w).
Proof.
  cbv zeta. destruct (fs w !! file_name) as [data|] eqn:Hfile.
  - rewrite (_upload_rpm_unfold _ _ data w Hfile), bind_unfold.
    destruct (upload_loop_frame (S (length data)) (upload_target file_name) (1024 * 1024)
                (len data) (mkFile data 0) (Z.of_nat 0) w) as (k & Hh & Hr & Hf & Hs & Hw).
    destruct (upload_loop _ _ _ _ _ _ w) as [[[]|e|] w1]; cbn [snd] in *.
    + destruct (default true delete_file) eqn:Hd.
      * unfold os_remove. rewrite Hf, Hfile. cbn.
        split; [intros other Hne; by rewrite lookup_delete_ne|].
        split; [intros ->; discriminate Hd|].
        split; [done|]. split; [done|]. by exists k.
      * cbn. split; [intros; by rewrite Hf|]. split; [done|].
        split; [done|]. split; [done|]. by exists k.
    + split; [intros; by rewrite Hf|]. split; [done|].
      split; [done|]. split; [done|]. by exists k.
    + split; [intros; by rewrite Hf|]. split; [done|].
      split; [done|]. split; [done|]. by exists k.
  - rewrite (upload_missing_file_raises_aux w file_name delete_file Hfile). cbn.
    split; [done|]. split; [done|]. split; [done|]. split; [done|].
    exists 0%nat. by rewrite Nat.add_0_r.
Qed.

Section UploadLoopMore.
Variables (uri : string) (C : Z) (data : list byte).
Hypothesis C_pos : 0 < C.

(** A run of the loop on a device that acknowledges some calls and then
    fails, before the file is through: the loop stops with that failure,
    one call after the acknowledged ones. *)
Lemma upload_loop_fails fuel : forall (p : nat) w (js : list json) (e : exn)
    (rest : list outcome),
  (p <= length data)%nat -> (length data - p < fuel)%nat ->
  responses w = (inr <$> js) ++ inl e :: rest ->
  len js * C < Z.of_nat (length data - p) ->
  exists w',
    upload_loop fuel uri C (len data) (mkFile data p) (Z.of_nat p) w = (Raise e, w')
    /\ length (history w') = (length (history w) + length js + 1)%nat
    /\ responses w' = rest
    /\ fs w' = fs w.
Proof using C_pos.
  induction fuel as [|fuel IH]; intros p w js e rest Hp Hfuel Hresp Hjs; [lia|].
  assert (Hlt : (p < length data)%nat) by (unfold len in Hjs; lia).
  rewrite (upload_loop_chunk uri C data C_pos fuel p w Hlt). cbv zeta.
  set (n := (Z.to_nat C `min` (length data - p))%nat).
  set (rq := chunk_request uri data (Z.of_nat p, Z.of_nat (p + n))).
  rewrite bind_unfold. unfold make_request, next_outcome. rewrite Hresp.
  destruct js as [|j js]; cbn [fmap list_fmap app].
  - eexists. split; [reflexivity|]. cbn. rewrite Hresp, length_app. cbn.
    repeat split; lia.
  - destruct (IH (p + n)%nat (record_call rq (inr j) w) js e rest)
      as (w' & Hrun & Hh & Hr & Hf).
    { subst n; lia. }
    { subst n; lia. }
    { cbn. by rewrite Hresp. }
    { unfold len in *. cbn [length] in Hjs. subst n. nia. }
    exists w'. rewrite Hrun, Hh, Hr, Hf. cbn. rewrite length_app. cbn.
    repeat split; lia.
Qed.

(** The number of consecutive chunk-sized ranges it takes to cover a
    stretch. *)
Lemma tiles_count (ranges : list (Z * Z)) : forall a b,
  tiles a b ranges -> Forall (chunk_sized C b) ranges ->
  Z.of_nat (length ranges) = (b - a + C - 1) / C.
Proof using C_pos.
  induction ranges as [|[s e] ranges IH]; intros a b Ht Hall; cbn in Ht.
  - subst b. rewrite Z.sub_diag, Z.add_0_l. cbn. symmetry. apply Z.div_small. lia.
  - destruct Ht as (-> & Hlt & Ht). cbn [fst snd] in *.
    apply Forall_cons in Hall as [[Hle Hshort] Hall]. cbn [fst snd] in *.
    pose proof (proj1 (tiles_bounds _ _ _ Ht)) as Heb.
    destruct (decide (e - a < C)) as [Hs|Hfull].
    + specialize (Hshort Hs). subst e.
      destruct ranges as [|[s' e'] ranges].
      2:{ cbn in Ht. destruct Ht as (Hs' & Hlt' & Ht).
          apply tiles_bounds in Ht as [Hb' _]. cbn in *. lia. }
      change (Z.of_nat (length [(a, b)])) with 1.
      apply (Z.div_unique_pos _ _ 1 (b - a - 1)); lia.
    + assert (e = a + C) as -> by lia.
      cbn [length]. rewrite Nat2Z.inj_succ, (IH _ _ Ht Hall).
      replace (b - a + C - 1) with (b - (a + C) + C - 1 + 1 * C) by lia.
      rewrite Z.div_add by lia. lia.
Qed.
End UploadLoopMore.

(** [_upload_rpm] on a device that fails before the file is through. *)
Lemma _upload_rpm_fails (w : World) (file_name : string)
    (delete_file : option bool) (data : list byte) (js : list json) (e : exn)
    (rest : list outcome) :
  fs w !! file_name = Some data ->
  responses w = (inr <$> js) ++ inl e :: rest ->
  len js * (1024 * 1024) < len data ->
  exists w',
    _upload_rpm file_name delete_file w = (Raise e, w')
    /\ length (history w') = (length (history w) + length js + 1)%nat
    /\ responses w' = rest
    /\ fs w' = fs w /\ warnings w' = warnings w.
Proof.
  intros Hfile Hresp Hjs.
  destruct (upload_loop_fails (upload_target file_name) (1024 * 1024) data ltac:(lia)
              (S (length data)) 0%nat w js e rest)
    as (w' & Hrun & Hh & Hr & Hf); [lia | lia | done | unfold len in *; lia |].
  exists w'. rewrite (_upload_rpm_unfold _ _ data w Hfile), bind_unfold, Hrun.
  split; [done|]. split; [done|]. split; [done|]. split; [done|].
  destruct (upload_loop_frame (S (length data)) (upload_target file_name) (1024 * 1024)
              (len data) (mkFile data 0) (Z.of_nat 0) w) as (k & _ & _ & _ & _ & Hw).
  by rewrite Hrun in Hw.
Qed.

(** X5. When the device acknowledges fewer chunks than the file has and
    then fails, [_upload_rpm] raises that failure right after the failed
    request: not one more request is made, the answers behind the failure
    are left unused, and the local files are untouched. *)
Theorem upload_stops_at_first_failure (w : World) (file_name : string)
    (delete_file : option bool) (data : list byte) (js : list json) (e : exn)
    (rest : list outcome) :
  fs w !! file_name = Some data ->
  responses w = (inr <$> js) ++ inl e :: rest ->
  len js * (1024 * 1024) < len data ->
  exists w',
    _upload_rpm file_name delete_file w = (Raise e, w')
    /\ length (history w') = (length (history w) + length js + 1)%nat
    /\ responses w' = rest
    /\ fs w' = fs w.
Proof.
  intros Hfile Hresp Hjs.
  destruct (_upload_rpm_fails w file_name delete_file data js e rest Hfile Hresp Hjs)
    as (w' & Hrun & Hh & Hr & Hf & _).
  by exists w'.
Qed.

Lemma upload_stops_at_first_failure_witness :
  fs world_failing_upload !! tmp_rpm = Some rpm_2_5_MiB
  /\ exists w',
      _upload_rpm tmp_rpm None world_failing_upload = (Raise (HTTPError "500"), w')
      /\ length (history w') = 2%nat
      /\ responses w' = [].
Proof.
  assert (Hfile : fs world_failing_upload !! tmp_rpm = Some rpm_2_5_MiB)
    by apply lookup_singleton_eq.
  assert (Hlen : len rpm_2_5_MiB = 2621440).
  { unfold len, rpm_2_5_MiB. rewrite length_replicate. apply Z2Nat.id. lia. }
  split; [exact Hfile|].
  destruct (upload_stops_at_first_failure world_failing_upload tmp_rpm None rpm_2_5_MiB
              [JNone] (HTTPError "500") [] Hfile eq_refl)
    as (w' & Hrun & Hh & Hr & _).
  { rewrite Hlen. unfold len. cbn. lia. }
  exists w'. split; [exact Hrun|]. split; [exact Hh|exact Hr].
Defined.

(** X6. When the device acknowledges every chunk, [_upload_rpm] returns
    after exactly as many requests as it takes 1 MiB chunks to cover the
    file: the size divided by 1048576, rounded up. *)
Theorem upload_request_count (w : World) (file_name : string)
    (delete_file : option bool) (data : list byte) (js : list json) (rest : list outcome) :
  fs w !! file_name = Some data ->
  responses w = (inr <$> js) ++ rest ->
  len data <= len js * (1024 * 1024) ->
  exists w',
    _upload_rpm file_name delete_file w = (Return tt, w')
    /\ Z.of_nat (length (history w')) 
       = Z.of_nat (length (history w)) + (len data + 1048575) / 1048576.
Proof.
  intros Hfile Hresp Hjs.
  destruct (upload_loop_acked (upload_target file_name) (1024 * 1024) data ltac:(lia)
              (S (length data)) 0%nat w js rest)
    as (ranges & w1 & Hrun & Hhist & Hlen & _ & Htiles & Hall & Hfs & _);
    [lia | lia | done | unfold len in *; lia |].
  pose proof (tiles_count (1024 * 1024) ltac:(lia) ranges _ _ Htiles Hall) as Hcount.
  assert (Hh1 : Z.of_nat (length (history w1))
                = Z.of_nat (length (history w)) + (len data + 1048575) / 1048576).
  { rewrite Hhist, length_app, length_zip, !length_fmap, length_take.
    change (Z.of_nat 0) with 0 in Hcount.
    replace (len data - 0 + 1024 * 1024 - 1) with (len data + 1048575) in Hcount by lia.
    change (1024 * 1024) with 1048576 in Hcount. lia. }
  rewrite (_upload_rpm_unfold _ _ data w Hfile), bind_unfold, Hrun.
  destruct (default true delete_file).
  - unfold os_remove. rewrite Hfs, Hfile. eexists. split; [reflexivity|]. exact Hh1.
  - exists w1. split; [reflexivity|]. exact Hh1.
Qed.

Lemma upload_request_count_witness :
  fs world_2_5_MiB !! tmp_rpm = Some rpm_2_5_MiB
  /\ exists w',
      _upload_rpm tmp_rpm None world_2_5_MiB = (Return tt, w')
      /\ length (history w') = 3%nat.
Proof.
  assert (Hfile : fs world_2_5_MiB !! tmp_rpm = Some rpm_2_5_MiB)
    by apply lookup_singleton_eq.
  assert (Hlen : len rpm_2_5_MiB = 2621440).
  { unfold len, rpm_2_5_MiB. rewrite length_replicate. apply Z2Nat.id. lia. }
  split; [exact Hfile|].
  destruct (upload_request_count world_2_5_MiB tmp_rpm None rpm_2_5_MiB
              [JNone; JNone; JNone] [] Hfile eq_refl)
    as (w' & Hrun & Hh).
  { rewrite Hlen. unfold len. cbn. lia. }
  exists w'. split; [exact Hrun|].
  rewrite Hlen in Hh. cbn [history world_2_5_MiB length] in Hh.
  change ((2621440 + 1048575) / 1048576) with 3 in Hh. lia.
Defined.

(** ** Task polling, continued *)

(** The poller ends on the first answer, among the first 122, that is not a
    pending response, with the verdict on it. *)
Lemma check_rpm_task_status_decides (task_id : json) (w : World) (n : nat) :
  (n < 122)%nat ->
  pending_polls n (responses w) ->
  is_pending (outcome_at (responses w) n) = false ->
  exists w',
    _check_rpm_task_status task_id w = (verdict (outcome_at (responses w) n), w')
    /\ length (history w') = (length (history w) + S n)%nat
    /\ slept w' = slept w ++ replicate n 1
    /\ responses w' = drop (S n) (responses w)
    /\ fs w' = fs w /\ warnings w' = warnings w.
Proof.
  intros Hn Hpend Hnp. rewrite _check_rpm_task_status_unfold.
  destruct (poll_loop_run (PKG_MGMT_URI +:+ "/" +:+ py_str task_id) 1 120 122 0 w
              ltac:(lia) ltac:(lia))
    as (m & w' & Hrun & Hm & Hpm & Hdec & Hhist & Hsl & Hrs & Hfs & Hwarn).
  assert (m = n) as ->.
  { apply (deciding_poll_unique (responses w) 121); try done; try lia.
    - intros Hp. specialize (Hdec Hp). lia.
    - by rewrite Hnp. }
  exists w'. rewrite Hrun, Hhist, length_app, length_fmap, length_app, length_take.
  destruct Hpend as [Hlen _]. cbn. repeat split; try done. lia.
Qed.

(** X7. A transport error at a poll comes out of [_check_rpm_task_status]
    as it is: when the first polls report a status other than
    FINISHED/FAILED and the next call raises, that exception is raised, after
    one sleep per earlier poll, and no further poll is made. *)
Theorem poll_transport_error_propagates (task_id : json) (w : World) (n : nat) (e : exn) :
  (n < 122)%nat ->
  pending_polls n (responses w) ->
  responses w !! n = Some (inl e) ->
  exists w',
    _check_rpm_task_status task_id w = (Raise e, w')
    /\ length (history w') = (length (history w) + S n)%nat
    /\ slept w' = slept w ++ replicate n 1
    /\ responses w' = drop (S n) (responses w).
Proof.
  intros Hn Hpend Hat.
  destruct (check_rpm_task_status_decides task_id w n Hn Hpend)
    as (w' & Hrun & Hh & Hs & Hr & _).
  { unfold outcome_at. by rewrite Hat. }
  exists w'. unfold outcome_at in Hrun. rewrite Hat in Hrun. done.
Qed.

Lemma world_poll_breaks_pending : pending_polls 1 (responses world_poll_breaks).
Proof. split; [cbn; lia|by repeat constructor]. Defined.

Lemma poll_transport_error_propagates_witness :
  pending_polls 1 (responses world_poll_breaks)
  /\ exists w',
      _check_rpm_task_status (JStr "42") world_poll_breaks = (Raise (HTTPError "503"), w')
      /\ responses w' = [inr finished].
Proof.
  split; [exact world_poll_breaks_pending|].
  destruct (poll_transport_error_propagates (JStr "42") world_poll_breaks 1 (HTTPError "503"))
    as (w' & Hrun & _ & _ & Hr); [lia | exact world_poll_breaks_pending | reflexivity |].
  exists w'. split; [exact Hrun|exact Hr].
Defined.

(** X8. Answers the poller cannot read end the polling with the lookup
    error: a response that is not a dict raises TypeError, a dict without
    'status' raises KeyError('status'), and a FAILED response without
    'errorMessage' raises KeyError('errorMessage') instead of the task's
    failure. *)
Theorem poll_unreadable_answer_raises (task_id : json) (w : World) (n : nat)
    (response : json) :
  (n < 122)%nat ->
  pending_polls n (responses w) ->
  responses w !! n = Some (inr response) ->
  ((forall d, response <> JDict d) ->
     fst (_check_rpm_task_status task_id w) = Raise TypeError)
  /\ (forall d, response = JDict d -> assoc "status" d = None ->
        fst (_check_rpm_task_status task_id w) = Raise (KeyError "status"))
  /\ (reports "FAILED" response = true -> error_message response = None ->
        fst (_check_rpm_task_status task_id w) = Raise (KeyError "errorMessage")).
Proof.
  intros Hn Hpend Hat.
  assert (Hout : outcome_at (responses w) n = inr response) by (by apply outcome_at_inr).
  assert (Hdecide : reports_pending response = false ->
                    fst (_check_rpm_task_status task_id w) = verdict (inr response)).
  { intros Hnp.
    destruct (check_rpm_task_status_decides task_id w n Hn Hpend) as (w' & Hrun & _).
    - by rewrite Hout.
    - by rewrite Hrun, Hout. }
  split; [|split].
  - intros Hnd. rewrite Hdecide; by destruct response as [| | | |l|d]; try done;
      destruct (Hnd d).
  - intros d -> Hst. rewrite Hdecide.
    + cbn. by rewrite Hst.
    + unfold reports_pending, status_of. by rewrite Hst.
  - intros Hfail Hmsg. rewrite Hdecide.
    + by rewrite (verdict_failed _ Hfail), Hmsg.
    + by apply (reports_exclusive response).
Qed.

Lemma poll_unreadable_answer_raises_witness :
  pending_polls 1 (responses world_silent_failure)
  /\ fst (_check_rpm_task_status (JStr "42") world_silent_failure)
     = Raise (KeyError "errorMessage").
Proof.
  assert (Hp : pending_polls 1 (responses world_silent_failure)).
  { split; [cbn; lia|by repeat constructor]. }
  split; [exact Hp|].
  destruct (poll_unreadable_answer_raises (JStr "42") world_silent_failure 1
              (JDict [("status", JStr "FAILED")])) as (_ & _ & Hfail);
    [lia | exact Hp | reflexivity |].
  apply Hfail; reflexivity.
Defined.

(** X9. Polling is an affair between the poller and the device only:
    whatever the answers, [_check_rpm_task_status] leaves the local files
    and the logger alone, makes between 1 and 122 calls, uses up exactly one
    answer per call, and sleeps one second after every call but the last. *)
Theorem poll_leaves_the_rest_alone (task_id : json) (w : World) :
  let w' := snd (_check_rpm_task_status task_id w) in
  fs w' = fs w
  /\ warnings w' = warnings w
  /\ exists k : nat,
      (1 <= k <= 122)%nat
      /\ length (history w') = (length (history w) + k)%nat
      /\ responses w' = drop k (responses w)
      /\ slept w' = slept w ++ replicate (k - 1) 1.
Proof.
  cbv zeta. rewrite _check_rpm_task_status_unfold.
  destruct (poll_loop_run (PKG_MGMT_URI +:+ "/" +:+ py_str task_id) 1 120 122 0 w
              ltac:(lia) ltac:(lia))
    as (n & w' & Hrun & Hn & [Hlen _] & _ & Hhist & Hsl & Hrs & Hfs & Hwarn).
  rewrite Hrun. cbn [snd]. split; [done|]. split; [done|].
  exists (S n). split; [lia|].
  rewrite Hhist, length_app, length_fmap, length_app, length_take. cbn.
  split; [lia|]. split; [done|]. by rewrite Hsl, Nat.sub_0_r.
Qed.

(** ** Submitting INSTALL and UNINSTALL *)

(** Submit, read the task id, wait, on a device where the task fails: the
    failure is raised and what follows is not run. *)
Lemma submit_and_fail {A} (rq : Request) (k : json -> M A) (w : World) (message : json) :
  task_fails (responses w) message ->
  exists w1 submit polls,
    bind (make_request rq)
         (fun response =>
            bind (getitem response "id")
                 (fun task_id => bind (_check_rpm_task_status task_id) k)) w
    = (Raise (Exception message), w1)
    /\ history w1 = history w ++ (rq, inr submit) :: polls
    /\ fs w1 = fs w /\ warnings w1 = warnings w.
Proof.
  intros (d & task_id & polls & n & response & Hrs & Hid & Hn & Hpend & Hat & Hfail & Hmsg).
  rewrite bind_unfold. unfold make_request, next_outcome. rewrite Hrs.
  rewrite bind_unfold. cbn [getitem]. rewrite Hid. cbn [ret].
  set (w0 := record_call rq (inr (JDict d)) w).
  assert (Hrs0 : responses w0 = polls) by (subst w0; cbn; by rewrite Hrs).
  destruct (check_rpm_task_status_decides task_id w0 n Hn)
    as (w1 & Hrun & Hh & _ & _ & Hfs & Hwarn).
  { by rewrite Hrs0. }
  { rewrite Hrs0. apply outcome_at_inr in Hat. rewrite Hat. cbn.
    by apply (reports_exclusive response). }
  rewrite Hrs0 in Hrun. apply outcome_at_inr in Hat. rewrite Hat in Hrun.
  rewrite (verdict_failed _ Hfail), Hmsg in Hrun.
  rewrite bind_unfold, Hrun.
  assert (Hex : exists polls', history w1 = history w0 ++ polls').
  { rewrite _check_rpm_task_status_unfold in Hrun.
    destruct (poll_loop_run (PKG_MGMT_URI +:+ "/" +:+ py_str task_id) 1 120 122 0 w0
                ltac:(lia) ltac:(lia)) as (m & w2 & Hrun2 & _ & _ & _ & Hhist & _).
    rewrite Hrun in Hrun2. injection Hrun2 as _ <-. eauto. }
  destruct Hex as (polls' & Hhist).
  exists w1, (JDict d), polls'. split; [done|].
  subst w0. cbn [record_call history fs warnings] in *.
  rewrite Hhist, <- app_assoc. cbn [app]. done.
Qed.

(** X10. On a device that accepts the INSTALL and finishes the task,
    [_install_rpm] returns after one POST of [{operation: INSTALL,
    packageFilePath: path}] to the task collection followed by polls, the
    last of which got the FINISHED payload; files and logger are untouched. *)
Theorem install_rpm_completes (package_path : string) (w : World) (payload : json) :
  task_completes (responses w) payload ->
  exists w1 submit polls,
    _install_rpm package_path w = (Return tt, w1)
    /\ history w1 = history w ++ (install_request package_path, inr submit) :: polls
    /\ snd <$> last polls = Some (inr payload)
    /\ fs w1 = fs w /\ warnings w1 = warnings w.
Proof.
  intros Hdone.
  destruct (submit_and_wait (install_request package_path) (fun _ => ret tt) w payload Hdone)
    as (w1 & submit & polls & Hrun & Hrest).
  exists w1, submit, polls. split; [exact Hrun|exact Hrest].
Qed.

Lemma install_rpm_completes_witness :
  task_completes (responses world_task_finishes) finished
  /\ exists w1,
      _install_rpm "/var/config/rest/downloads/f5-appsvcs-3.10.0-5.noarch.rpm"
                   world_task_finishes = (Return tt, w1)
      /\ length (history w1) = 3%nat.
Proof.
  split; [exact world_task_finishes_completes|].
  destruct (install_rpm_completes "/var/config/rest/downloads/f5-appsvcs-3.10.0-5.noarch.rpm"
              world_task_finishes finished world_task_finishes_completes)
    as (w1 & submit & polls & Hrun & _).
  exists w1. split; [exact Hrun|].
  replace w1 with (snd (_install_rpm "/var/config/rest/downloads/f5-appsvcs-3.10.0-5.noarch.rpm"
                          world_task_finishes)) by (by rewrite Hrun).
  vm_compute. reflexivity.
Defined.

(** X11. A submission that yields no task id ends [_install_rpm] and
    [_uninstall_rpm] on the spot, without a single poll: a transport error
    is raised as it is, an answer that is not a dict raises TypeError, a dict
    without 'id' raises KeyError('id'). *)
Theorem submission_without_task_id_raises (name : string) (w : World) (o : outcome)
    (rest : list outcome) (e : exn) :
  responses w = o :: rest ->
  o = inl e
  \/ (exists d, o = inr (JDict d) /\ assoc "id" d = None /\ e = KeyError "id")
  \/ (exists j, o = inr j /\ (forall d, j <> JDict d) /\ e = TypeError) ->
  _install_rpm name w = (Raise e, record_call (install_request name) o w)
  /\ _uninstall_rpm name w = (Raise e, record_call (uninstall_request name) o w).
Proof.
  intros Hrs Ho.
  unfold _install_rpm, _uninstall_rpm. rewrite !bind_unfold.
  unfold make_request, next_outcome. rewrite Hrs.
  fold (install_request name). fold (uninstall_request name).
  destruct Ho as [->|[(d & -> & Hid & ->)|(j & -> & Hnd & ->)]].
  - done.
  - rewrite !bind_unfold. cbn [getitem]. by rewrite Hid.
  - rewrite !bind_unfold. destruct j as [| | | |l|d]; try done. by destruct (Hnd d).
Qed.

Lemma submission_without_task_id_raises_witness :
  fst (_uninstall_rpm "f5-appsvcs-3.10.0-5.noarch" world_rejects) = Raise (KeyError "id")
  /\ responses (snd (_uninstall_rpm "f5-appsvcs-3.10.0-5.noarch" world_rejects))
     = [inr finished].
Proof.
  destruct (submission_without_task_id_raises "f5-appsvcs-3.10.0-5.noarch" world_rejects
              _ _ (KeyError "id") eq_refl) as [_ Hun].
  { right. left. eexists. split; [reflexivity|]. split; reflexivity. }
  rewrite Hun. split; reflexivity.
Defined.

(** X12. When the device reports the submitted task FAILED, [_install_rpm]
    and [_uninstall_rpm] raise [Exception] with the server's errorMessage;
    files and logger are untouched. *)
Theorem failed_task_raises_its_message (name : string) (w : World) (message : json) :
  task_fails (responses w) message ->
  (exists w1, _install_rpm name w = (Raise (Exception message), w1)
              /\ fs w1 = fs w /\ warnings w1 = warnings w)
  /\ (exists w1, _uninstall_rpm name w = (Raise (Exception message), w1)
                 /\ fs w1 = fs w /\ warnings w1 = warnings w).
Proof.
  intros Hfail. split.
  - destruct (submit_and_fail (install_request name) (fun _ => ret tt) w message Hfail)
      as (w1 & submit & polls & Hrun & _ & Hfs & Hwarn).
    exists w1. split; [exact Hrun|done].
  - destruct (submit_and_fail (uninstall_request name) (fun _ => ret tt) w message Hfail)
      as (w1 & submit & polls & Hrun & _ & Hfs & Hwarn).
    exists w1. split; [exact Hrun|done].
Qed.

Lemma world_task_fails_fails :
  task_fails (responses world_task_fails) (JStr "package already installed").
Proof.
  exists [("id", JStr "42")], (JStr "42"),
    [inr running; inr (JDict [("status", JStr "FAILED");
                              ("errorMessage", JStr "package already installed")])],
    1%nat, (JDict [("status", JStr "FAILED");
                   ("errorMessage", JStr "package already installed")]).
  split; [reflexivity|]. split; [reflexivity|]. split; [lia|].
  split; [split; [cbn; lia|by repeat constructor]|].
  split; [reflexivity|]. split; reflexivity.
Defined.

Lemma failed_task_raises_its_message_witness :
  task_fails (responses world_task_fails) (JStr "package already installed")
  /\ exists w1,
      _install_rpm "/var/config/rest/downloads/f5-appsvcs-3.10.0-5.noarch.rpm" world_task_fails
      = (Raise (Exception (JStr "package already installed")), w1).
Proof.
  split; [exact world_task_fails_fails|].
  destruct (failed_task_raises_its_message
              "/var/config/rest/downloads/f5-appsvcs-3.10.0-5.noarch.rpm" world_task_fails
              (JStr "package already installed") world_task_fails_fails)
    as [(w1 & Hrun & _) _].
  exists w1. exact Hrun.
Defined.

(** ** Paths *)

(** Splitting at a separator splits on both sides of it. *)
Lemma split_app_sep (sep : ascii) (a b : string) :
  split sep (a +:+ String sep b) = split sep a ++ split sep b.
Proof.
  induction a as [|c a IH].
  - change ("" +:+ String sep b) with (String sep b). cbn. by rewrite Ascii.eqb_refl.
  - change (String c a +:+ String sep b) with (String c (a +:+ String sep b)).
    cbn [split]. rewrite IH. destruct (Ascii.eqb c sep); [done|].
    destruct (split sep a) as [|h t] eqn:Hs; [by apply split_not_nil in Hs|]. done.
Qed.

(** The pieces of a split hold no separator: splitting one gives it back. *)
Lemma split_pieces (sep : ascii) (s : string) :
  Forall (fun x => split sep x = [x]) (split sep s).
Proof.
  induction s as [|c s IH]; cbn [split].
  - by repeat constructor.
  - destruct (Ascii.eqb c sep) eqn:Hc; [by constructor|].
    destruct (split sep s) as [|h t]; [by apply Forall_nil in IH; repeat constructor;
                                        cbn; rewrite Hc|].
    apply Forall_cons in IH as [Hh Ht]. constructor; [|done].
    cbn [split]. by rewrite Hc, Hh.
Qed.

(** The base name of a file put into a directory under the base name of a
    url is that base name again. *)
Lemma basename_in_directory (dir url pkg : string) :
  last (split "/" url) = Some pkg ->
  last (split "/" (dir +:+ "/" +:+ pkg)) = Some pkg.
Proof.
  intros Hlast. change ("/" +:+ pkg) with (String "/" pkg). rewrite split_app_sep.
  assert (Hpkg : split "/" pkg = [pkg]).
  { pose proof (split_pieces "/" url) as Hall. rewrite Forall_forall in Hall.
    apply Hall. apply last_Some in Hlast as [l ->]. apply elem_of_app. right. by left. }
  rewrite Hpkg. apply last_snoc.
Qed.

(** [_upload_rpm] with the default [delete_file] on a device that
    acknowledges exactly the chunks of the file. *)
Lemma _upload_rpm_acked (w : World) (file_name : string) (data : list byte)
    (js : list json) (rest : list outcome) :
  fs w !! file_name = Some data ->
  responses w = (inr <$> js) ++ rest ->
  len js = (len data + 1048575) / 1048576 ->
  exists w' uploads,
    _upload_rpm file_name None w = (Return tt, w')
    /\ history w' = history w ++ uploads
    /\ length uploads = length js
    /\ Forall (fun c => uri (fst c) = upload_target file_name /\ succeeded (snd c) = true)
              uploads
    /\ responses w' = rest
    /\ fs w' = delete file_name (fs w)
    /\ slept w' = slept w /\ warnings w' = warnings w.
Proof.
  intros Hfile Hresp Hjs.
  assert (Hdiv : len data <= len js * (1024 * 1024)).
  { rewrite Hjs. change (1024 * 1024) with 1048576.
    pose proof (Z.mul_div_le (len data + 1048575) 1048576 ltac:(lia)).
    pose proof (Z.mod_pos_bound (len data + 1048575) 1048576 ltac:(lia)).
    pose proof (Z.div_mod (len data + 1048575) 1048576 ltac:(lia)). lia. }
  destruct (upload_loop_acked (upload_target file_name) (1024 * 1024) data ltac:(lia)
              (S (length data)) 0%nat w js rest)
    as (ranges & w1 & Hrun & Hhist & Hlen & Hrs & Htiles & Hall & Hfs & Hsl & Hwarn);
    [lia | lia | done | unfold len in *; lia |].
  pose proof (tiles_count (1024 * 1024) ltac:(lia) ranges _ _ Htiles Hall) as Hcount.
  assert (Hk : length ranges = length js).
  { change (Z.of_nat 0) with 0 in Hcount.
    replace (len data - 0 + 1024 * 1024 - 1) with (len data + 1048575) in Hcount by lia.
    change (1024 * 1024) with 1048576 in Hcount. unfold len in Hjs, Hcount. lia. }
  rewrite (_upload_rpm_unfold _ _ data w Hfile), bind_unfold, Hrun.
  cbn [default]. unfold os_remove. rewrite Hfs, Hfile.
  eexists _, (zip (chunk_request (upload_target file_name) data <$> ranges) (inr <$> js)).
  split; [reflexivity|]. cbn [history responses fs slept warnings].
  rewrite Hk, firstn_all in Hhist.
  split; [done|]. split; [by rewrite length_zip, !length_fmap, Hk, Nat.min_id|].
  split.
  { apply Forall_forall. intros [rq o] Hin. split.
    - apply elem_of_zip_l in Hin. apply list_elem_of_fmap in Hin as (rg & -> & _). done.
    - apply elem_of_zip_r in Hin. apply list_elem_of_fmap in Hin as (j & -> & _). done. }
  split; [|done].
  rewrite Hrs, Hresp, Hk, <- (length_fmap (@inr exn json) js). by rewrite drop_app_length.
Qed.

(** X13. [install], end to end: when the download puts the package under
    the temporary directory, the device acknowledges its chunks and then
    completes the INSTALL task, [install] returns the component and version.
    The chunks go to the upload uri of the package's base name, the INSTALL
    names the same base name under /var/config/rest/downloads/, nothing is
    requested in between, and the temporary file is removed. *)
Theorem install_uploads_then_installs (TMP_DIR : string)
    (download_to_file : string -> string -> M unit) (self : OperationClient)
    (w w0 : World) (data : list byte) (js : list json) (rest : list outcome)
    (payload : json) :
  let url := get_download_url (_metadata_client self) in
  let pkg := default "" (last (split "/" url)) in
  let tmp_file := TMP_DIR +:+ "/" +:+ pkg in
  download_to_file url tmp_file w = (Return tt, w0) ->
  fs w0 !! tmp_file = Some data ->
  responses w0 = (inr <$> js) ++ rest ->
  len js = (len data + 1048575) / 1048576 ->
  task_completes rest payload ->
  exists w' uploads submit polls,
    install TMP_DIR download_to_file self w
    = (Return (mkComponentVersion (component self) (version self)), w')
    /\ history w'
       = history w0 ++ uploads
         ++ (install_request ("/var/config/rest/downloads/" +:+ pkg), inr submit) :: polls
    /\ length uploads = length js
    /\ Forall (fun c => uri (fst c) = "/mgmt/shared/file-transfer/uploads/" +:+ pkg
                        /\ succeeded (snd c) = true) uploads
    /\ snd <$> last polls = Some (inr payload)
    /\ fs w' = delete tmp_file (fs w0)
    /\ warnings w' = warnings w0.
Proof.
  intros url pkg tmp_file Hdl Hfile Hresp Hjs Hdone.
  assert (Hlast : last (split "/" url) = Some pkg).
  { subst pkg. destruct (last (split "/" url)) eqn:Hl; [done|].
    apply last_None in Hl. by apply split_not_nil in Hl. }
  assert (Htarget : upload_target tmp_file = "/mgmt/shared/file-transfer/uploads/" +:+ pkg).
  { unfold upload_target, tmp_file. by rewrite (basename_in_directory TMP_DIR url pkg Hlast). }
  destruct (_upload_rpm_acked w0 tmp_file data js rest Hfile Hresp Hjs)
    as (w1 & uploads & Hup & Hh1 & Hlen & Hall & Hrs1 & Hfs1 & _ & Hwarn1).
  rewrite <- Hrs1 in Hdone.
  destruct (submit_and_wait (install_request ("/var/config/rest/downloads/" +:+ pkg))
              (fun _ => ret tt) w1 payload Hdone)
    as (w2 & submit & polls & Hinst & Hh2 & Hlastp & Hfs2 & Hwarn2).
  exists w2, uploads, submit, polls.
  unfold install. fold url. rewrite bind_unfold. unfold last_item. rewrite Hlast. cbn [ret].
  fold tmp_file. rewrite bind_unfold, Hdl. rewrite bind_unfold, Hup.
  rewrite bind_unfold. unfold _install_rpm.
  fold (install_request ("/var/config/rest/downloads/" +:+ pkg)).
  rewrite Hinst. cbn [ret].
  split; [done|]. rewrite Hh2, Hh1, <- app_assoc, Hfs2, Hfs1, Hwarn2, Hwarn1.
  rewrite Htarget in Hall. done.
Qed.

(** X14. When a chunk request fails during [install], the failure is
    raised, the INSTALL is never submitted (the failed request is the last
    one made and the later answers stay unused) and the downloaded file is
    left in the temporary directory. *)
Theorem install_stops_when_upload_fails (TMP_DIR : string)
    (download_to_file : string -> string -> M unit) (self : OperationClient)
    (w w0 : World) (data : list byte) (js : list json) (e : exn) (rest : list outcome) :
  let url := get_download_url (_metadata_client self) in
  let tmp_file := TMP_DIR +:+ "/" +:+ default "" (last (split "/" url)) in
  download_to_file url tmp_file w = (Return tt, w0) ->
  fs w0 !! tmp_file = Some data ->
  responses w0 = (inr <$> js) ++ inl e :: rest ->
  len js * (1024 * 1024) < len data ->
  exists w',
    install TMP_DIR download_to_file self w = (Raise e, w')
    /\ length (history w') = (length (history w0) + length js + 1)%nat
    /\ responses w' = rest
    /\ fs w' = fs w0.
Proof.
  intros url tmp_file Hdl Hfile Hresp Hjs.
  destruct (_upload_rpm_fails w0 tmp_file None data js e rest Hfile Hresp Hjs)
    as (w' & Hrun & Hh & Hr & Hf & _).
  set (pkg := default "" (last (split "/" url))) in *.
  assert (Hlast : last (split "/" url) = Some pkg).
  { subst pkg. destruct (last (split "/" url)) eqn:Hl; [done|].
    apply last_None in Hl. by apply split_not_nil in Hl. }
  exists w'. unfold install. fold url. rewrite bind_unfold. unfold last_item.
  rewrite Hlast. cbn [ret]. fold tmp_file.
  rewrite bind_unfold, Hdl. rewrite bind_unfold, Hrun. done.
Qed.

Lemma install_uploads_then_installs_witness :
  exists w',
    install "/tmp" (download_from remote_packages) as3_client world_install
    = (Return (mkComponentVersion "as3" "3.10.0"), w')
    /\ fs w' = delete "/tmp/f5-appsvcs-3.10.0-5.noarch.rpm"
                 {[ "/tmp/f5-appsvcs-3.10.0-5.noarch.rpm" := ["r"; "p"; "m"]%byte ]}.
Proof.
  destruct (install_uploads_then_installs "/tmp" (download_from remote_packages) as3_client
              world_install
              (mkWorld {[ "/tmp/f5-appsvcs-3.10.0-5.noarch.rpm" := ["r"; "p"; "m"]%byte ]}
                       (responses world_install) [] [] [])
              ["r"; "p"; "m"]%byte [JNone]
              [inr (JDict [("id", JStr "42")]); inr running; inr finished] finished)
    as (w' & uploads & submit & polls & Hrun & _ & _ & _ & _ & Hfs & _).
  - reflexivity.
  - apply lookup_singleton_eq.
  - reflexivity.
  - reflexivity.
  - exact world_task_finishes_completes.
  - exists w'. split; [exact Hrun|exact Hfs].
Defined.

Lemma install_stops_when_upload_fails_witness :
  exists w',
    install "/tmp" (download_from remote_packages) as3_client world_install_refused
    = (Raise (HTTPError "413"), w')
    /\ length (history w') = 1%nat.
Proof.
  destruct (install_stops_when_upload_fails "/tmp" (download_from remote_packages) as3_client
              world_install_refused
              (mkWorld {[ "/tmp/f5-appsvcs-3.10.0-5.noarch.rpm" := ["r"; "p"; "m"]%byte ]}
                       (responses world_install_refused) [] [] [])
              ["r"; "p"; "m"]%byte [] (HTTPError "413")
              [inr (JDict [("id", JStr "42")]); inr finished])
    as (w' & Hrun & Hh & _).
  - reflexivity.
  - apply lookup_singleton_eq.
  - reflexivity.
  - reflexivity.
  - exists w'. split; [exact Hrun|exact Hh].
Defined.

(** ** Uninstall, continued *)

(** X16. When no dependent has all its constraints satisfied, nothing is
    logged and [uninstall] returns the component and version, with or
    without a logger. *)
Theorem uninstall_returns_when_nothing_warns
    (compare_versions : string -> string -> string -> bool)
    (self : OperationClient) (w : World) (payload : json) :
  task_completes (responses w) payload ->
  Forall (fun item => ~ all_constraints_hold compare_versions self (snd item))
         (get_component_dependencies (_metadata_client self)) ->
  exists w',
    uninstall compare_versions self w
    = (Return (mkComponentVersion (component self) (version self)), w')
    /\ warnings w' = warnings w.
Proof.
  intros Hdone Hnone.
  assert (Hfilter : List.filter (warns compare_versions self)
                      (get_component_dependencies (_metadata_client self)) = []
                    /\ existsb (warns compare_versions self)
                         (get_component_dependencies (_metadata_client self)) = false).
  { induction Hnone as [|item deps Hitem _ [IH1 IH2]]; [done|]. cbn.
    destruct (warns compare_versions self item) eqn:Hw.
    - apply warns_iff in Hw. done.
    - done. }
  destruct Hfilter as [Hfilter Hex].
  destruct (_uninstall_rpm_completes (get_package_name (_metadata_client self)) w payload Hdone)
    as (w1 & submit & polls & Hrun & _ & _ & _ & Hwarn).
  unfold uninstall. rewrite bind_unfold, Hrun. rewrite bind_unfold.
  unfold _check_for_dependency.
  destruct (logger self) as [lg|] eqn:Hlg.
  - rewrite (check_dependencies_with_logger compare_versions self lg _ Hlg), Hfilter.
    eexists. split; [reflexivity|]. cbn. by rewrite app_nil_r.
  - rewrite (check_dependencies_without_logger compare_versions self _ Hlg), Hex.
    by exists w1.
Qed.

Lemma uninstall_returns_when_nothing_warns_witness :
  task_completes (responses world_task_finishes) finished
  /\ exists w',
      uninstall never_satisfied as3_client world_task_finishes
      = (Return (mkComponentVersion "as3" "3.10.0"), w')
      /\ warnings w' = [].
Proof.
  split; [exact world_task_finishes_completes|].
  apply (uninstall_returns_when_nothing_warns never_satisfied as3_client world_task_finishes
           finished world_task_finishes_completes).
  repeat constructor. cbn. intros H. by inversion H.
Defined.

(** X17. When the device reports the UNINSTALL task FAILED, [uninstall]
    raises [Exception] with the server's errorMessage and the dependency
    check is not run: nothing is logged, whatever the dependents. *)
Theorem uninstall_failure_skips_dependency_check
    (compare_versions : string -> string -> string -> bool)
    (self : OperationClient) (w : World) (message : json) :
  task_fails (responses w) message ->
  exists w',
    uninstall compare_versions self w = (Raise (Exception message), w')
    /\ warnings w' = warnings w.
Proof.
  intros Hfail.
  destruct (submit_and_fail (uninstall_request (get_package_name (_metadata_client self)))
              (fun _ => ret tt) w message Hfail)
    as (w1 & submit & polls & Hrun & _ & _ & Hwarn).
  exists w1. unfold uninstall. rewrite bind_unfold. unfold _uninstall_rpm.
  fold (uninstall_request (get_package_name (_metadata_client self))).
  by rewrite Hrun.
Qed.

Lemma uninstall_failure_skips_dependency_check_witness :
  task_fails (responses world_task_fails) (JStr "package already installed")
  /\ exists w',
      uninstall always_satisfied
        (__init__ "as3" "3.10.0" as3_metadata (Some (Some mkLogger))) world_task_fails
      = (Raise (Exception (JStr "package already installed")), w')
      /\ warnings w' = [].
Proof.
  split; [exact world_task_fails_fails|].
  apply (uninstall_failure_skips_dependency_check always_satisfied _ world_task_fails
           (JStr "package already installed") world_task_fails_fails).
Defined.

(** X18. A dependent that declares no version constraint at all is always
    warned about, whatever the comparison of versions says: with a logger,
    its warning is among those logged by a completed [uninstall]. *)
Theorem dependent_without_constraints_is_warned
    (compare_versions : string -> string -> string -> bool)
    (self : OperationClient) (lg : Logger) (w : World) (payload : json)
    (name : string) (dependency : Dependency) :
  logger self = Some lg ->
  task_completes (responses w) payload ->
  (name, dependency) ∈ get_component_dependencies (_metadata_client self) ->
  versions dependency = [] ->
  exists w' logged,
    uninstall compare_versions self w
    = (Return (mkComponentVersion (component self) (version self)), w')
    /\ warnings w' = warnings w ++ logged
    /\ dependency_message name (uninstallDocumentation dependency) ∈ logged.
Proof.
  intros Hlg Hdone Hin Hempty.
  destruct (_uninstall_rpm_completes (get_package_name (_metadata_client self)) w payload Hdone)
    as (w1 & submit & polls & Hrun & _ & _ & _ & Hwarn).
  unfold uninstall. rewrite bind_unfold, Hrun. rewrite bind_unfold.
  unfold _check_for_dependency.
  rewrite (check_dependencies_with_logger compare_versions self lg _ Hlg).
  eexists _, _. split; [reflexivity|]. cbn [warnings]. rewrite Hwarn.
  split; [reflexivity|].
  apply list_elem_of_fmap. exists (name, dependency). split; [done|].
  apply list_elem_of_In, filter_In. split; [by apply list_elem_of_In|].
  apply warns_iff. unfold all_constraints_hold. cbn. rewrite Hempty. constructor.
Qed.

Lemma dependent_without_constraints_is_warned_witness :
  exists w',
    uninstall never_satisfied (__init__ "do" "1.3.0" do_metadata (Some (Some mkLogger)))
              world_task_finishes
    = (Return (mkComponentVersion "do" "1.3.0"), w')
    /\ warnings w'
       = ["A component package dependency has not been removed: as3 See documentation for more details: https://example.com/uninstall-as3"].
Proof.
  destruct (dependent_without_constraints_is_warned never_satisfied
              (__init__ "do" "1.3.0" do_metadata (Some (Some mkLogger))) mkLogger
              world_task_finishes finished "as3"
              (mkDependency [] "https://example.com/uninstall-as3")
              eq_refl world_task_finishes_completes)
    as (w' & logged & Hrun & Hwarn & _).
  - constructor.
  - reflexivity.
  - exists w'. split; [exact Hrun|].
    replace w' with (snd (uninstall never_satisfied
                            (__init__ "do" "1.3.0" do_metadata (Some (Some mkLogger)))
                            world_task_finishes)) by (by rewrite Hrun).
    vm_compute. reflexivity.
Defined.

(** ** Installed-state query, continued *)


Lemma is_installed_not_found_witness :
  exists w',
    is_installed as3_client
      (world_query ["f5-appsvcs-3.10.0-5.noarch"; "f5-appsvcs-3.9.0-3.noarch"])
    = (Return (mkVersionData false "" "3.10.0"), w').
Proof.
  apply (is_installed_not_found as3_client
           (world_query ["f5-appsvcs-3.10.0-5.noarch"; "f5-appsvcs-3.9.0-3.noarch"])
           (query_payload ["f5-appsvcs-3.10.0-5.noarch"; "f5-appsvcs-3.9.0-3.noarch"])
           ((fun n => JDict [("packageName", JStr n)])
              <$> ["f5-appsvcs-3.10.0-5.noarch"; "f5-appsvcs-3.9.0-3.noarch"])).
  - apply world_query_completes.
  - reflexivity.
  - repeat constructor; by eexists.
  - vm_compute. lia.
Defined.

Lemma is_installed_found_witness :
  matches version_regex "3.9.0"
  /\ exists w',
      is_installed as3_client
        (world_query ["f5-declarative-onboarding-1.3.0-5.noarch"; "f5-appsvcs-3.9.0-3.noarch"])
      = (Return (mkVersionData true "3.9.0" "3.10.0"), w').
Proof.
  apply (is_installed_found as3_client
           (world_query ["f5-declarative-onboarding-1.3.0-5.noarch";
                         "f5-appsvcs-3.9.0-3.noarch"])
           (query_payload ["f5-declarative-onboarding-1.3.0-5.noarch";
                           "f5-appsvcs-3.9.0-3.noarch"])
           ((fun n => JDict [("packageName", JStr n)])
              <$> ["f5-declarative-onboarding-1.3.0-5.noarch"; "f5-appsvcs-3.9.0-3.noarch"])
           (JDict [("packageName", JStr "f5-appsvcs-3.9.0-3.noarch")])
           "f5-appsvcs-3.9.0-3.noarch" 11 16).
  - apply world_query_completes.
  - reflexivity.
  - repeat constructor; by eexists.
  - vm_compute. reflexivity.
  - reflexivity.
  - vm_compute. reflexivity.
Defined.

(** The comprehension stops at the first entry whose condition raises. *)
Lemma comprehension_raises {A} (cond : A -> M bool) (good : list A) (bad : A)
    (rest : list A) (e : exn) :
  Forall (fun i => exists b, forall w, cond i w = (Return b, w)) good ->
  (forall w, cond bad w = (Raise e, w)) ->
  forall w, comprehension cond (good ++ bad :: rest) w = (Raise e, w).
Proof.
  intros Hgood Hbad. induction Hgood as [|i good [b Hi] _ IH]; intros w.
  - cbn [app comprehension]. by rewrite bind_unfold, Hbad.
  - cbn [app comprehension]. rewrite bind_unfold, Hi. by rewrite bind_unfold, IH.
Qed.

(** X21. A completed QUERY whose payload cannot be read makes [is_installed]
    raise rather than answer: KeyError 'queryResponse' when the payload has
    no list of packages, KeyError 'packageName' when an entry of the list is
    a dict without a package name and the entries before it have one. *)
Theorem is_installed_unreadable_listing_raises (self : OperationClient) (w : World)
    (payload : json) :
  task_completes (responses w) payload ->
  (query_response_of payload = None ->
   exists w', is_installed self w = (Raise (KeyError "queryResponse"), w'))
  /\ (forall good d rest,
        query_response_of payload = Some (JList (good ++ JDict d :: rest)) ->
        Forall (fun i => is_Some (package_name_of i)) good ->
        assoc "packageName" d = None ->
        exists w', is_installed self w = (Raise (KeyError "packageName"), w')).
Proof.
  intros Hdone.
  assert (Hdict : exists p, payload = JDict p).
  { destruct Hdone as (_ & _ & _ & _ & _ & _ & _ & _ & _ & Hfin).
    unfold reports, status_of in Hfin. destruct payload; try done. by eexists. }
  destruct Hdict as [p ->].
  set (cpn := get_component_package_name (_metadata_client self)).
  destruct (submit_and_wait query_request
              (fun response =>
                 let! query_response := getitem response "queryResponse" in
                 let! items := py_iter query_response in
                 let! matching_packages :=
                   comprehension
                     (fun i => let! name := getitem i "packageName" in py_in cpn name)
                     items in
                 if len matching_packages =? 1 then
                   let! first := first_item matching_packages in
                   let! name := getitem first "packageName" in
                   _get_version_number_from_package_name name
                 else ret "") w (JDict p) Hdone)
    as (w1 & submit & polls & Hrun & _).
  assert (Hexists : _check_rpm_exists cpn w
                    = (let! query_response := getitem (JDict p) "queryResponse" in
                       let! items := py_iter query_response in
                       let! matching_packages :=
                         comprehension
                           (fun i => let! name := getitem i "packageName" in py_in cpn name)
                           items in
                       if len matching_packages =? 1 then
                         let! first := first_item matching_packages in
                         let! name := getitem first "packageName" in
                         _get_version_number_from_package_name name
                       else ret "") w1).
  { unfold _check_rpm_exists. fold query_request. exact Hrun. }
  split.
  - intros Hq. exists w1. unfold is_installed. fold cpn. rewrite bind_unfold, Hexists.
    rewrite bind_unfold. cbn [getitem query_response_of] in *. by rewrite Hq.
  - intros good d rest Hq Hgood Hd. exists w1.
    unfold is_installed. fold cpn. rewrite bind_unfold, Hexists.
    rewrite bind_unfold. cbn [getitem query_response_of] in *. rewrite Hq. cbn [ret].
    rewrite bind_unfold. cbn [py_iter ret]. rewrite bind_unfold.
    rewrite (comprehension_raises _ good (JDict d) rest (KeyError "packageName")); [done| |].
    + apply Forall_forall. intros i Hi. rewrite Forall_forall in Hgood.
      destruct (Hgood i Hi) as [name Hname]. exists (contains cpn name). intros w0.
      by rewrite bind_unfold, (package_name_of_getitem _ _ _ Hname).
    + intros w0. rewrite bind_unfold. cbn [getitem]. by rewrite Hd.
Qed.

Lemma is_installed_unreadable_listing_raises_witness :
  (exists w', is_installed as3_client world_task_finishes
              = (Raise (KeyError "queryResponse"), w'))
  /\ (exists w', is_installed as3_client world_nameless_entry
                 = (Raise (KeyError "packageName"), w')).
Proof.
  split.
  - apply (is_installed_unreadable_listing_raises as3_client world_task_finishes finished
             world_task_finishes_completes). reflexivity.
  - refine (proj2 (is_installed_unreadable_listing_raises as3_client world_nameless_entry
                     (JDict [("status", JStr "FINISHED");
                             ("queryResponse",
                              JList [JDict [("packageName",
                                             JStr "f5-appsvcs-3.10.0-5.noarch")];
                                     JDict [("name", JStr "f5-telemetry")]])]) _)
                  [JDict [("packageName", JStr "f5-appsvcs-3.10.0-5.noarch")]]
                  [("name", JStr "f5-telemetry")] [] eq_refl _ eq_refl).
    + eexists [("id", JStr "42")], (JStr "42"), _, 0%nat.
      split; [reflexivity|]. split; [reflexivity|]. split; [lia|].
      split; [split; [cbn; lia|constructor]|]. split; reflexivity.
    + repeat constructor. by eexists.
Defined.

(** ** The version pattern, continued *)

(** The search returns the leftmost match. *)
Lemma search_from_leftmost (re : regex) (s : string) : forall i start end_ pre mid post,
  search_from re s i = Some (start, end_) ->
  s = pre +:+ mid +:+ post -> matches re mid ->
  (start <= i + String.length pre)%nat.
Proof.
  induction s as [|c s IH]; intros i start end_ pre mid post; cbn [search_from].
  - destruct (match_here re "") as [n|]; [|done]. intros [= <- <-] _ _. lia.
  - destruct (match_here re (String c s)) as [n|] eqn:Hm.
    + intros [= <- <-] _ _. lia.
    + intros Hs Heq Hmid. destruct pre as [|c' pre].
      * change ("" +:+ mid +:+ post) with (mid +:+ post) in Heq.
        destruct (match_here_complete re mid Hmid post) as [n Hn].
        rewrite <- Heq in Hn. congruence.
      * change (String c' pre +:+ mid +:+ post)
          with (String c' (pre +:+ mid +:+ post)) in Heq.
        injection Heq as -> Heq.
        specialize (IH _ _ _ _ _ _ Hs Heq Hmid). cbn. lia.
Qed.

(** X22. On a package name that holds a version of the form N.N.N, the
    extraction of the version returns, never raising: the result is a
    substring of the name that matches the pattern and begins at or before
    that version. *)
Theorem version_number_of_versioned_name (pre v post : string) (w : World) :
  dotted_version v ->
  exists start end_,
    _get_version_number_from_package_name (JStr (pre +:+ v +:+ post)) w
    = (Return (str_slice (pre +:+ v +:+ post) start end_), w)
    /\ matches version_regex (str_slice (pre +:+ v +:+ post) start end_)
    /\ (start <= String.length pre)%nat
    /\ (start < end_ <= String.length (pre +:+ v +:+ post))%nat.
Proof.
  intros Hv. apply dotted_version_matches in Hv.
  rewrite get_version_number.
  destruct (re_search version_regex (pre +:+ v +:+ post)) as [[start end_]|] eqn:Hs.
  - exists start, end_. split; [done|].
    destruct (search_from_some _ _ _ _ _ Hs) as (_ & Hse & He & Hm).
    rewrite Nat.sub_0_r in Hm.
    change (substring start (end_ - start) (pre +:+ v +:+ post))
      with (str_slice (pre +:+ v +:+ post) start end_) in Hm.
    split; [exact Hm|].
    pose proof (search_from_leftmost _ _ _ _ _ _ _ _ Hs eq_refl Hv) as Hleft.
    split; [lia|]. split; [|lia].
    destruct (decide (start = end_)) as [->|]; [|lia].
    apply matches_nonempty in Hm. unfold str_slice in Hm.
    rewrite Nat.sub_diag in Hm. exfalso. apply Hm.
    clear. generalize (pre +:+ v +:+ post). induction end_ as [|n IH]; intros s.
    + by destruct s.
    + destruct s; [done|]. cbn. apply IH.
  - exfalso. pose proof (proj1 (re_search_none _ _) Hs) as Hno.
    by apply (Hno pre v post).
Qed.

Lemma version_number_of_versioned_name_witness :
  exists start end_,
    _get_version_number_from_package_name (JStr ("f5-appsvcs-" +:+ "3.10.0" +:+ "-5.noarch"))
      world_task_finishes
    = (Return (str_slice ("f5-appsvcs-" +:+ "3.10.0" +:+ "-5.noarch") start end_),
       world_task_finishes)
    /\ matches version_regex (str_slice ("f5-appsvcs-" +:+ "3.10.0" +:+ "-5.noarch") start end_)
    /\ (start <= String.length "f5-appsvcs-")%nat
    /\ (start < end_ <= String.length ("f5-appsvcs-" +:+ "3.10.0" +:+ "-5.noarch"))%nat.
Proof.
  apply (version_number_of_versioned_name "f5-appsvcs-" "3.10.0" "-5.noarch"
           world_task_finishes).
  exists "3", "10", "0". by repeat split.
Defined.

(** A run of digits followed by something that does not begin with a digit
    is consumed whole when the rest of the pattern matches after it. *)
Lemma match_here_digits (re : regex) (d rest : string) (n : nat) :
  digits d ->
  no_leading_digit rest = true ->
  match_here re rest = Some n ->
  match_here (Plus (Range "0" "9") :: re) (d +:+ rest) = Some (String.length d + n)%nat.
Proof.
  intros [Hne Hd] Hrest Hre. destruct d as [|c d]; [done|]. clear Hne.
  revert c Hd. induction d as [|c' d IH]; intros c Hd.
  - cbn [list_ascii_of_string forallb] in Hd. apply andb_prop in Hd as [Hc _].
    change ((String c "") +:+ rest) with (String c rest).
    rewrite match_here_plus_cons, Hc.
    assert (Hplus : match_here (Plus (Range "0" "9") :: re) rest = None).
    { destruct rest as [|r rest]; [done|]. rewrite match_here_plus_cons.
      cbn [no_leading_digit] in Hrest. unfold is_digit in Hrest.
      apply negb_true_iff in Hrest. by rewrite Hrest. }
    by rewrite Hplus, Hre.
  - cbn [list_ascii_of_string forallb] in Hd. apply andb_prop in Hd as [Hc Hd].
    change (String c (String c' d) +:+ rest) with (String c (String c' d +:+ rest)).
    rewrite match_here_plus_cons, Hc. by rewrite (IH c' Hd).
Qed.

(** A dotted version followed by something that does not begin with a digit
    is matched whole. *)
Lemma match_here_dotted_version (v post : string) :
  dotted_version v ->
  no_leading_digit post = true ->
  match_here version_regex (v +:+ post) = Some (String.length v).
Proof.
  intros (d1 & d2 & d3 & H1 & H2 & H3 & ->) Hpost.
  assert (Happ : forall a b c : string, (a +:+ b) +:+ c = a +:+ (b +:+ c)).
  { intros a b c. induction a as [|x a IH]; [done|].
    change (String x ((a +:+ b) +:+ c) = String x (a +:+ b +:+ c)). by rewrite IH. }
  rewrite !Happ. unfold version_regex.
  assert (H3' : match_here [Plus (Range "0" "9")] (d3 +:+ post)
                = Some (String.length d3 + 0)%nat).
  { apply match_here_digits; [done|done|by destruct post]. }
  assert (H2' : match_here [Plus (Range "0" "9"); One AnyChar; Plus (Range "0" "9")]
                  (d2 +:+ "." +:+ d3 +:+ post)
                = Some (String.length d2 + S (String.length d3 + 0))%nat).
  { apply match_here_digits; [done|done|].
    change ("." +:+ d3 +:+ post) with (String "." (d3 +:+ post)).
    cbn [match_here]. change (atom_matches AnyChar ".") with true. cbv iota.
    cbn [match_here] in H3'. by rewrite H3'. }
  rewrite (match_here_digits _ d1 _ (S (String.length d2 + S (String.length d3 + 0))) H1).
  - f_equal. rewrite !string_length_app. cbn. lia.
  - done.
  - change ("." +:+ d2 +:+ "." +:+ d3 +:+ post) with (String "." (d2 +:+ "." +:+ d3 +:+ post)).
    cbn [match_here]. change (atom_matches AnyChar ".") with true. cbv iota.
    cbn [match_here] in H2'. by rewrite H2'.
Qed.

(** No match begins inside a prefix whose digits are lone. *)
Lemma search_from_lone_digits (pre : string) : forall (rest : string) (i : nat),
  lone_digits pre = true ->
  search_from version_regex (pre +:+ rest) i
  = search_from version_regex rest (i + String.length pre).
Proof.
  induction pre as [|c pre IH]; intros rest i Hpre.
  - cbn. by rewrite Nat.add_0_r.
  - cbn [lone_digits] in Hpre. apply andb_prop in Hpre as [Hc Hpre].
    change (String c pre +:+ rest) with (String c (pre +:+ rest)).
    cbn [search_from].
    assert (Hnone : match_here version_regex (String c (pre +:+ rest)) = None).
    { unfold version_regex. rewrite match_here_plus_cons.
      fold (is_digit c). destruct (is_digit c) eqn:Hdc; [|done].
      destruct pre as [|c1 [|c2 pre]]; [done|done|].
      apply andb_prop in Hc as [Hc1 Hc2].
      apply negb_true_iff in Hc1, Hc2. unfold is_digit in Hc1, Hc2.
      change (String c1 (String c2 pre) +:+ rest)
        with (String c1 (String c2 (pre +:+ rest))).
      rewrite match_here_plus_cons, Hc1.
      cbn [match_here]. destruct (atom_matches AnyChar c1); [|done].
      by rewrite Hc2. }
    rewrite Hnone, (IH rest (S i) Hpre). f_equal. cbn. lia.
Qed.

Lemma substring_middle (pre v post : string) :
  substring (String.length pre) (String.length v) (pre +:+ v +:+ post) = v.
Proof.
  induction pre as [|c pre IH].
  - exact (substring_prefix v post).
  - exact IH.
Qed.

(** X23. When the digits before the version are lone and what follows the
    version does not begin with a digit, the version extracted from the
    package name is exactly the embedded N.N.N version. *)
Theorem version_number_is_the_embedded_version (pre v post : string) (w : World) :
  dotted_version v ->
  lone_digits pre = true ->
  no_leading_digit post = true ->
  _get_version_number_from_package_name (JStr (pre +:+ v +:+ post)) w = (Return v, w).
Proof.
  intros Hv Hpre Hpost. rewrite get_version_number. unfold re_search.
  rewrite (search_from_lone_digits pre (v +:+ post) 0 Hpre).
  assert (Hm := match_here_dotted_version v post Hv Hpost).
  assert (Hs : search_from version_regex (v +:+ post) (0 + String.length pre)
               = Some ((0 + String.length pre)%nat,
                       (0 + String.length pre + String.length v)%nat)).
  { destruct (v +:+ post); cbn [search_from]; by rewrite Hm. }
  rewrite Hs. unfold str_slice.
  replace (0 + String.length pre + String.length v - (0 + String.length pre))%nat
    with (String.length v) by lia.
  cbn [Nat.add]. by rewrite substring_middle.
Qed.

Lemma version_number_is_the_embedded_version_witness :
  _get_version_number_from_package_name (JStr ("f5-appsvcs-" +:+ "3.10.0" +:+ "-5.noarch"))
    world_task_finishes
  = (Return "3.10.0", world_task_finishes).
Proof.
  apply (version_number_is_the_embedded_version "f5-appsvcs-" "3.10.0" "-5.noarch"
           world_task_finishes).
  - exists "3", "10", "0". by repeat split.
  - reflexivity.
  - reflexivity.
Defined.

(** ** The substring test *)





(** ** The legacy client: versions and the alias 'latest' *)

Lemma getitem_field (x : json) (key : string) (v : json) (w : World) :
  json_field x key = Some v -> getitem x key w = (Return v, w).
Proof.
  destruct x as [| | | | |d]; try done. cbn. by intros ->.
Qed.

Lemma versions_metadata_run (self : Operation.Client) (items : list (string * json))
    (w : World) :
  versions_of self = Some items ->
  Operation.versions_metadata self w = (Return (JDict items), w).
Proof.
  unfold versions_of, Operation.versions_metadata. intros H.
  destruct (json_field (Operation.t_metadata self) "components") as [components|] eqn:H1;
    [|done].
  destruct (json_field components (Operation.component self)) as [c_metadata|] eqn:H2;
    [|done].
  destruct (json_field c_metadata "versions") as [[| | | | |d]|] eqn:H3; try done.
  injection H as ->.
  rewrite bind_unfold, (getitem_field _ _ _ _ H1).
  rewrite bind_unfold, (getitem_field _ _ _ _ H2).
  by rewrite (getitem_field _ _ _ _ H3).
Qed.

Lemma latest_items_run (items : list (string * json)) (w : World) :
  Forall has_latest_flag items ->
  Operation.latest_items items w = (Return (List.filter flagged_latest items), w).
Proof.
  induction 1 as [|[k v] items [flag Hflag] _ IH]; [done|].
  cbn [Operation.latest_items List.filter]. cbn [snd] in Hflag.
  rewrite bind_unfold, (getitem_field _ _ _ _ Hflag).
  rewrite bind_unfold, IH. unfold flagged_latest. cbn [snd ret]. rewrite Hflag.
  by destruct (truthy flag).
Qed.

Lemma latest_items_raises (good : list (string * json)) (k : string)
    (d : list (string * json)) (rest : list (string * json)) (w : World) :
  Forall has_latest_flag good ->
  assoc "latest" d = None ->
  Operation.latest_items (good ++ (k, JDict d) :: rest) w = (Raise (KeyError "latest"), w).
Proof.
  intros Hgood Hd. induction Hgood as [|[k' v] good [flag Hflag] _ IH].
  - cbn [app Operation.latest_items]. rewrite bind_unfold. cbn [getitem]. by rewrite Hd.
  - cbn [app Operation.latest_items]. cbn [snd] in Hflag.
    rewrite bind_unfold, (getitem_field _ _ _ _ Hflag). by rewrite bind_unfold, IH.
Qed.

Lemma get_latest_version_run (self : Operation.Client) (items : list (string * json))
    (w : World) :
  versions_of self = Some items ->
  Forall has_latest_flag items ->
  Operation._get_latest_version self w = (first_key (List.filter flagged_latest items), w).
Proof.
  intros Hv Hflags. unfold Operation._get_latest_version.
  rewrite bind_unfold, (versions_metadata_run _ _ _ Hv).
  rewrite bind_unfold. cbn [py_items ret].
  rewrite bind_unfold, (latest_items_run _ _ Hflags).
  by destruct (List.filter flagged_latest items) as [|[k v] more].
Qed.

(** X25. The legacy client's latest version is the first version the
    metadata flags as latest, and IndexError when none is flagged; the lookup
    reads the flag of every version, so a version without the flag makes it
    raise KeyError 'latest' even when an earlier version is flagged. *)
Theorem legacy_latest_version (self : Operation.Client) (items : list (string * json))
    (w : World) :
  versions_of self = Some items ->
  (Forall has_latest_flag items ->
   Operation._get_latest_version self w = (first_key (List.filter flagged_latest items), w))
  /\ (forall good k d rest,
        items = good ++ (k, JDict d) :: rest ->
        Forall has_latest_flag good ->
        assoc "latest" d = None ->
        Operation._get_latest_version self w = (Raise (KeyError "latest"), w)).
Proof.
  intros Hv. split; [by apply get_latest_version_run|].
  intros good k d rest -> Hgood Hd. unfold Operation._get_latest_version.
  rewrite bind_unfold, (versions_metadata_run _ _ _ Hv).
  rewrite bind_unfold. cbn [py_items ret].
  by rewrite bind_unfold, (latest_items_raises _ _ _ _ _ Hgood Hd).
Qed.

Lemma legacy_latest_version_witness :
  Operation._get_latest_version (Operation.mkClient "as3" toolchain_metadata)
    world_task_finishes
  = (Return "3.10.0", world_task_finishes)
  /\ Operation._get_latest_version (Operation.mkClient "as3" unflagged_metadata)
       world_task_finishes
     = (Raise IndexError, world_task_finishes)
  /\ Operation._get_latest_version (Operation.mkClient "as3" flagless_metadata)
       world_task_finishes
     = (Raise (KeyError "latest"), world_task_finishes).
Proof.
  split; [|split].
  - apply (legacy_latest_version (Operation.mkClient "as3" toolchain_metadata) _
             world_task_finishes eq_refl).
    repeat constructor; by eexists.
  - apply (legacy_latest_version (Operation.mkClient "as3" unflagged_metadata) _
             world_task_finishes eq_refl).
    repeat constructor; by eexists.
  - apply (proj2 (legacy_latest_version (Operation.mkClient "as3" flagless_metadata) _
                    world_task_finishes eq_refl)
             [("3.10.0", JDict [("latest", JBool true)])] "3.9.0"
             [("packageName", JStr "f5-appsvcs-3.9.0-3.noarch")] [] eq_refl).
    + repeat constructor; by eexists.
    + reflexivity.
Defined.

Lemma assoc_elem_of {A} (k : string) (v : A) (d : list (string * A)) :
  NoDup (fst <$> d) -> (k, v) ∈ d -> assoc k d = Some v.
Proof.
  induction d as [|[k' v'] d IH]; intros Hnd Hin; [by apply elem_of_nil in Hin|].
  cbn [fmap list_fmap fst] in Hnd. apply NoDup_cons in Hnd as [Hk' Hnd].
  apply elem_of_cons in Hin as [[= <- <-]|Hin]; cbn [assoc].
  - by rewrite String.eqb_refl.
  - destruct (String.eqb k' k) eqn:Hk; [|by apply IH].
    apply String.eqb_eq in Hk as ->. exfalso. apply Hk'.
    apply list_elem_of_fmap. by exists (k, v).
Qed.

Lemma get_version_metadata_run (self : Operation.Client) (items : list (string * json))
    (version : string) (w : World) :
  versions_of self = Some items ->
  Forall has_latest_flag items ->
  NoDup (fst <$> items) ->
  Operation._get_version_metadata self version w
  = (if String.eqb version "latest" then
       match List.filter flagged_latest items with
       | (_, v) :: _ => Return v
       | [] => Raise IndexError
       end
     else
       match assoc version items with
       | Some v => Return v
       | None => Raise (KeyError version)
       end, w).
Proof.
  intros Hv Hflags Hnd. unfold Operation._get_version_metadata.
  rewrite bind_unfold. destruct (String.eqb version "latest").
  - rewrite (get_latest_version_run _ _ _ Hv Hflags).
    destruct (List.filter flagged_latest items) as [|[k v] more] eqn:Hf; [done|].
    cbn [first_key]. rewrite bind_unfold, (versions_metadata_run _ _ _ Hv).
    cbn [getitem]. rewrite (assoc_elem_of k v items Hnd); [done|].
    assert (Hin : In (k, v) (List.filter flagged_latest items)) by (rewrite Hf; by left).
    apply filter_In in Hin as [Hin _]. by apply list_elem_of_In.
  - cbn [ret]. rewrite bind_unfold, (versions_metadata_run _ _ _ Hv). cbn [getitem].
    by destruct (assoc version items).
Qed.

(** X26. In the legacy client the version 'latest' stands for the first
    version flagged as latest: its metadata is that version's metadata
    (IndexError when no version is flagged), while any other version is
    looked up under its own name, KeyError when the metadata does not list
    it. *)
Theorem legacy_version_metadata (self : Operation.Client) (items : list (string * json))
    (version : string) (w : World) :
  versions_of self = Some items ->
  Forall has_latest_flag items ->
  NoDup (fst <$> items) ->
  Operation._get_version_metadata self version w
  = (if String.eqb version "latest" then
       match List.filter flagged_latest items with
       | (_, v) :: _ => Return v
       | [] => Raise IndexError
       end
     else
       match assoc version items with
       | Some v => Return v
       | None => Raise (KeyError version)
       end, w).
Proof. apply get_version_metadata_run. Qed.

Lemma legacy_version_metadata_witness :
  Operation._get_version_metadata (Operation.mkClient "as3" toolchain_metadata) "latest"
    world_task_finishes
  = (Return (JDict [("downloadUrl", JStr "https://example.com/f5-appsvcs-3.10.0-5.noarch.rpm");
                    ("packageName", JStr "f5-appsvcs-3.10.0-5.noarch");
                    ("latest", JBool true)]), world_task_finishes).
Proof.
  apply (legacy_version_metadata (Operation.mkClient "as3" toolchain_metadata) _ "latest"
           world_task_finishes eq_refl).
  - repeat constructor; by eexists.
  - apply (bool_decide_unpack (NoDup ["3.9.0"; "3.10.0"])). vm_compute. exact I.
Defined.

(** X27. The legacy [install] and [uninstall] look the latest version up
    before they look at their [version] keyword: when the metadata flags no
    version as latest they raise IndexError whatever version is asked for,
    before any download or request. *)
Theorem legacy_operations_need_a_flagged_version (TMP_DIR : string)
    (download_to_file : string -> string -> M unit)
    (self : Operation.Client) (items : list (string * json)) (version : option string)
    (w : World) :
  versions_of self = Some items ->
  Forall has_latest_flag items ->
  List.filter flagged_latest items = [] ->
  Operation.install TMP_DIR download_to_file self version w = (Raise IndexError, w)
  /\ Operation.uninstall self version w = (Raise IndexError, w).
Proof.
  intros Hv Hflags Hnone.
  pose proof (get_latest_version_run self items w Hv Hflags) as Hlatest.
  rewrite Hnone in Hlatest. cbn [first_key] in Hlatest.
  unfold Operation.install, Operation.uninstall. by rewrite !bind_unfold, Hlatest.
Qed.

Lemma legacy_operations_need_a_flagged_version_witness :
  Operation.install "/tmp" (download_from remote_packages)
    (Operation.mkClient "as3" unflagged_metadata) (Some "3.9.0") world_install
  = (Raise IndexError, world_install)
  /\ Operation.uninstall (Operation.mkClient "as3" unflagged_metadata) (Some "3.9.0")
       world_install
     = (Raise IndexError, world_install).
Proof.
  apply (legacy_operations_need_a_flagged_version "/tmp" (download_from remote_packages)
           (Operation.mkClient "as3" unflagged_metadata) _ (Some "3.9.0") world_install
           eq_refl).
  - repeat constructor; by eexists.
  - reflexivity.
Defined.

Lemma legacy_uninstall_rpm_value (package_name : json) (w : World) :
  Operation._uninstall_rpm_value package_name w
  = bind (make_request (uninstall_request_of package_name))
         (fun response =>
            bind (getitem response "id")
                 (fun task_id => bind (_check_rpm_task_status task_id) (fun _ => ret tt))) w.
Proof.
  unfold Operation._uninstall_rpm_value. fold (uninstall_request_of package_name).
  rewrite !bind_unfold.
  destruct (make_request _ w) as [[response|e|] w1]; [|done|done].
  rewrite !bind_unfold.
  destruct (getitem response "id" w1) as [[task_id|e|] w2]; [|done|done].
  rewrite !bind_unfold, legacy_check_rpm_task_status.
  by destruct (_check_rpm_task_status task_id w2) as [[payload|e|] w3].
Qed.

(** X28. The legacy [uninstall] of the version 'latest' and the one of no
    version at all do the same thing on the device, submitting the UNINSTALL
    of the package of the first version flagged as latest and waiting for
    the task, but they report different versions: the first one the alias
    'latest' as it was given, the second one the version it stands for.
    Neither logs a warning. *)
Theorem legacy_uninstall_reports_the_version_as_given (self : Operation.Client)
    (items : list (string * json)) (k : string) (v : json) (more : list (string * json))
    (package_name : json) (w : World) (payload : json) :
  versions_of self = Some items ->
  Forall has_latest_flag items ->
  NoDup (fst <$> items) ->
  List.filter flagged_latest items = (k, v) :: more ->
  json_field v "packageName" = Some package_name ->
  task_completes (responses w) payload ->
  exists w' submit polls,
    Operation.uninstall self (Some "latest") w
    = (Return (mkComponentVersion (Operation.component self) "latest"), w')
    /\ Operation.uninstall self None w
       = (Return (mkComponentVersion (Operation.component self) k), w')
    /\ history w' = history w ++ (uninstall_request_of package_name, inr submit) :: polls
    /\ warnings w' = warnings w.
Proof.
  intros Hv Hflags Hnd Hf Hname Hdone.
  pose proof (get_latest_version_run self items w Hv Hflags) as Hlatest.
  rewrite Hf in Hlatest. cbn [first_key] in Hlatest.
  assert (Hkv : assoc k items = Some v).
  { apply (assoc_elem_of k v items Hnd).
    assert (Hin : In (k, v) (List.filter flagged_latest items)) by (rewrite Hf; by left).
    apply filter_In in Hin as [Hin _]. by apply list_elem_of_In. }
  assert (Hmeta : forall version,
             version = "latest" \/ version = k ->
             Operation._get_package_name self version w = (Return package_name, w)).
  { intros version Hversion. unfold Operation._get_package_name.
    rewrite bind_unfold, (get_version_metadata_run _ _ _ _ Hv Hflags Hnd), Hf.
    destruct (String.eqb version "latest") eqn:Hl.
    - by apply getitem_field.
    - destruct Hversion as [Hversion|Hversion]; subst version;
        [by rewrite String.eqb_refl in Hl|].
      rewrite Hkv. by apply getitem_field. }
  destruct (submit_and_wait (uninstall_request_of package_name) (fun _ => ret tt) w payload
              Hdone) as (w1 & submit & polls & Hrun & Hhist & _ & _ & Hwarn).
  assert (Hun : forall version,
             default k version = "latest" \/ default k version = k ->
             Operation.uninstall self version w
             = (Return (mkComponentVersion (Operation.component self) (default k version)),
                w1)).
  { intros version Hversion. unfold Operation.uninstall.
    rewrite bind_unfold, Hlatest. rewrite bind_unfold, (Hmeta _ Hversion).
    by rewrite bind_unfold, legacy_uninstall_rpm_value, Hrun. }
  exists w1, submit, polls.
  split; [exact (Hun (Some "latest") (or_introl eq_refl))|].
  split; [exact (Hun None (or_intror eq_refl))|]. done.
Qed.

Lemma legacy_uninstall_reports_the_version_as_given_witness :
  exists w' submit polls,
    Operation.uninstall (Operation.mkClient "as3" toolchain_metadata) (Some "latest")
      world_task_finishes
    = (Return (mkComponentVersion "as3" "latest"), w')
    /\ Operation.uninstall (Operation.mkClient "as3" toolchain_metadata) None
         world_task_finishes
       = (Return (mkComponentVersion "as3" "3.10.0"), w')
    /\ history w'
       = history world_task_finishes
         ++ (uninstall_request_of (JStr "f5-appsvcs-3.10.0-5.noarch"), inr submit) :: polls
    /\ warnings w' = warnings world_task_finishes.
Proof.
  apply (legacy_uninstall_reports_the_version_as_given
           (Operation.mkClient "as3" toolchain_metadata) _ "3.10.0"
           (JDict [("downloadUrl",
                    JStr "https://example.com/f5-appsvcs-3.10.0-5.noarch.rpm");
                   ("packageName", JStr "f5-appsvcs-3.10.0-5.noarch");
                   ("latest", JBool true)]) []
           (JStr "f5-appsvcs-3.10.0-5.noarch") world_task_finishes finished eq_refl).
  - repeat constructor; by eexists.
  - apply (bool_decide_unpack (NoDup ["3.9.0"; "3.10.0"])). vm_compute. exact I.
  - reflexivity.
  - reflexivity.
  - exact world_task_finishes_completes.
Defined.

(** ** The management client: what goes on the wire, and logging in *)

Lemma assoc_dict_set {A} (k k' : string) (v : A) (d : list (string * A)) :
  assoc k (dict_set k' v d) = if String.eqb k' k then Some v else assoc k d.
Proof.
  induction d as [|[k0 v0] d IH]; cbn [dict_set assoc]; [done|].
  destruct (String.eqb k0 k') eqn:H0; cbn [assoc].
  - apply String.eqb_eq in H0. subst k0. by destruct (String.eqb k' k).
  - rewrite IH. destruct (String.eqb k0 k) eqn:H1; [|done].
    apply String.eqb_eq in H1. subst k0. rewrite String.eqb_sym in H0. by rewrite H0.
Qed.

Lemma assoc_not_key {A} (k : string) (d : list (string * A)) :
  k ∉ fst <$> d -> assoc k d = None.
Proof.
  induction d as [|[k0 v0] d IH]; [done|]. cbn [fmap list_fmap fst assoc]. intros Hk.
  apply not_elem_of_cons in Hk as [Hne Hk].
  destruct (String.eqb k0 k) eqn:H0; [|by apply IH].
  apply String.eqb_eq in H0. congruence.
Qed.

(** Updating a dict: the keys of the update take the update's values, the
    others keep theirs. *)
Lemma assoc_dict_update {A} (k : string) (e : list (string * A)) : forall d,
  NoDup (fst <$> e) ->
  assoc k (dict_update d e) = match assoc k e with Some v => Some v | None => assoc k d end.
Proof.
  induction e as [|[k1 v1] e IH]; intros d Hnd; [done|].
  cbn [fmap list_fmap fst] in Hnd. apply NoDup_cons in Hnd as [Hk1 Hnd].
  change (dict_update d ((k1, v1) :: e)) with (dict_update (dict_set k1 v1 d) e).
  rewrite (IH _ Hnd), assoc_dict_set. cbn [assoc].
  destruct (String.eqb k1 k) eqn:H1; [|done].
  apply String.eqb_eq in H1. subst k1. by rewrite (assoc_not_key k e Hk1).
Qed.

(** X29. What [make_request] hands to the HTTP library. The method is
    lower-cased. A header the caller gives replaces the default of the same
    name and the defaults it does not name stay; when the body is truthy and
    the content type is 'json', Content-Type is application/json whatever
    the caller gave and the body is encoded, otherwise the body goes out as
    it is. The only failure before the request is a TypeError, for bytes
    sent with the content type 'json'. *)
Theorem wire_request (token user_agent : string) (rq : Request) :
  NoDup (fst <$> headers rq) ->
  match wire token user_agent rq with
  | inl e => e = TypeError /\ encoded rq = true /\ exists b, body rq = Some (Bytes b)
  | inr (method_, hs, data) =>
      method_ = str_lower (method rq)
      /\ (forall k,
            assoc k hs
            = if encoded rq && String.eqb "Content-Type" k then Some "application/json"
              else match assoc k (headers rq) with
                   | Some v => Some v
                   | None => assoc k (default_headers token user_agent)
                   end)
      /\ data = match body rq with
                | None => WireNone
                | Some (Bytes b) => WireRaw b
                | Some (Json j) => if encoded rq then WireJsonDumps j else WireJsonObject j
                end
  end.
Proof.
  intros Hnd. unfold wire. fold (default_headers token user_agent). fold (encoded rq).
  assert (Hhs : forall k,
             assoc k (if encoded rq
                      then dict_update (dict_update (default_headers token user_agent)
                                          (headers rq))
                             [("Content-Type", "application/json")]
                      else dict_update (default_headers token user_agent) (headers rq))
             = if encoded rq && String.eqb "Content-Type" k then Some "application/json"
               else match assoc k (headers rq) with
                    | Some v => Some v
                    | None => assoc k (default_headers token user_agent)
                    end).
  { intros k. destruct (encoded rq); cbn [andb].
    - change (dict_update ?d [("Content-Type", "application/json")])
        with (dict_set "Content-Type" "application/json" d).
      rewrite assoc_dict_set. destruct (String.eqb "Content-Type" k); [done|].
      by apply assoc_dict_update.
    - by apply assoc_dict_update. }
  destruct (body rq) as [[b|j]|] eqn:Hbody.
  - destruct (encoded rq) eqn:He.
    + split; [done|]. split; [done|]. by exists b.
    + split; [done|]. split; [exact Hhs|done].
  - split; [done|]. split; [exact Hhs|done].
  - split; [done|]. split; [exact Hhs|done].
Qed.

Lemma wire_request_witness :
  match wire "abc" "f5cloudsdk"
          (mkRequest "/mgmt/shared/iapp/package-management-tasks" "POST"
             [("Content-Type", "text/plain"); ("User-Agent", "curl")]
             (Some (Json (JDict [("operation", JStr "QUERY")]))) "json") with
  | inl _ => False
  | inr (method_, hs, data) =>
      method_ = "post"
      /\ assoc "Content-Type" hs = Some "application/json"
      /\ assoc "User-Agent" hs = Some "curl"
      /\ assoc "X-F5-Auth-Token" hs = Some "abc"
      /\ data = WireJsonDumps (JDict [("operation", JStr "QUERY")])
  end.
Proof.
  pose proof (wire_request "abc" "f5cloudsdk"
                (mkRequest "/mgmt/shared/iapp/package-management-tasks" "POST"
                   [("Content-Type", "text/plain"); ("User-Agent", "curl")]
                   (Some (Json (JDict [("operation", JStr "QUERY")]))) "json")) as H.
  destruct (wire _ _ _) as [e|[[method_ hs] data]].
  - destruct H as (_ & _ & b & Hb).
    + apply (bool_decide_unpack (NoDup ["Content-Type"; "User-Agent"])). vm_compute. exact I.
    + discriminate Hb.
  - destruct H as (Hm & Hhs & Hdata).
    + apply (bool_decide_unpack (NoDup ["Content-Type"; "User-Agent"])). vm_compute. exact I.
    + split; [exact Hm|]. split; [exact (Hhs "Content-Type")|].
      split; [exact (Hhs "User-Agent")|]. split; [exact (Hhs "X-F5-Auth-Token")|exact Hdata].
Defined.

(** X30. How [ManagementClient(host, ...)] settles its token. With a user
    and a password it logs in and takes the token of the answer, whatever
    token was given. Without them, a private key gives a client that keeps
    the token it was given, none if none was given, since logging in with a
    key does nothing; with neither, a truthy token is kept as it is; and
    with nothing usable the constructor raises. Only the first case calls
    the login service. *)
Theorem new_ManagementClient_settles_the_token
    (requests_post_json : string -> json -> string * string -> M json)
    (host_ : string) (user_kw password_kw private_key_kw : option string)
    (token_kw : option json) (w : World) :
  let user_ := default "" user_kw in
  let password_ := default "" password_kw in
  let private_key_ := default "" private_key_kw in
  let token_ := default JNone token_kw in
  let run :=
    new_ManagementClient requests_post_json host_ user_kw password_kw private_key_kw
                         token_kw w in
  (given user_kw && given password_kw = true ->
   forall response w' session t,
     requests_post_json ("https://" +:+ host_ +:+ "/mgmt/shared/authn/login")
       (JDict [("username", JStr user_); ("password", JStr password_);
               ("loginProviderName", JStr "tmos")]) (user_, password_) w
     = (Return response, w') ->
     json_field response "token" = Some session ->
     json_field session "token" = Some t ->
     run = (Return (mkManagementClient host_ user_ password_ private_key_ t), w'))
  /\ (given user_kw && given password_kw = false ->
      (given private_key_kw = true ->
       run = (Return (mkManagementClient host_ user_ password_ private_key_ token_), w))
      /\ (given private_key_kw = false ->
          run = if truthy token_
                then (Return (mkManagementClient host_ user_ password_ private_key_ token_), w)
                else (Raise (Exception
                               (JStr "user/password credentials, private key or token required")),
                      w))).
Proof.
  intros user_ password_ private_key_ token_ run. subst run.
  unfold new_ManagementClient. cbn [user password private_key token].
  fold user_ password_ private_key_ token_. unfold given.
  fold user_ password_ private_key_. split.
  - intros Hup response w' session t Hpost Hsession Ht. rewrite Hup.
    unfold _login_using_credentials, _get_token. cbn [host user password private_key].
    rewrite !bind_unfold, Hpost. rewrite bind_unfold, (getitem_field _ _ _ _ Hsession).
    by rewrite (getitem_field _ _ _ _ Ht).
  - intros Hup. rewrite Hup. split; intros Hkey; rewrite Hkey; [done|].
    by destruct (truthy token_).
Qed.

Lemma new_ManagementClient_settles_the_token_witness :
  new_ManagementClient login_abc "192.0.2.10" (Some "admin") (Some "admin") None
    (Some (JStr "my_token")) world_task_finishes
  = (Return (mkManagementClient "192.0.2.10" "admin" "admin" "" (JStr "abc")),
     world_task_finishes)
  /\ new_ManagementClient login_abc "192.0.2.10" (Some "admin") None (Some "id_rsa") None
       world_task_finishes
     = (Return (mkManagementClient "192.0.2.10" "admin" "" "id_rsa" JNone),
        world_task_finishes)
  /\ new_ManagementClient login_abc "192.0.2.10" (Some "admin") None None None
       world_task_finishes
     = (Raise (Exception (JStr "user/password credentials, private key or token required")),
        world_task_finishes).
Proof.
  split; [|split].
  - apply (proj1 (new_ManagementClient_settles_the_token login_abc "192.0.2.10"
                    (Some "admin") (Some "admin") None (Some (JStr "my_token"))
                    world_task_finishes) eq_refl
             (JDict [("token", JDict [("token", JStr "abc"); ("timeout", JInt 1200)])])
             world_task_finishes
             (JDict [("token", JStr "abc"); ("timeout", JInt 1200)]) (JStr "abc")
             eq_refl eq_refl eq_refl).
  - apply (proj1 (proj2 (new_ManagementClient_settles_the_token login_abc "192.0.2.10"
                           (Some "admin") None (Some "id_rsa") None world_task_finishes)
                    eq_refl) eq_refl).
  - apply (proj2 (proj2 (new_ManagementClient_settles_the_token login_abc "192.0.2.10"
                           (Some "admin") None None None world_task_finishes)
                    eq_refl) eq_refl).
Defined.
